(** * answerforu-backend: the carry marketplace and the airport directory

    A shallow embedding of [src/modules/carry.js] and of the airports module,
    with the properties of their request handlers.

    Layout:
    - [JS]      the JavaScript values and built-ins the handlers call;
    - [SQLite]  the SQL scalar functions and clauses the statements use;
    - [Carry]   tables, helpers and route handlers of [registerCarry];
    - [Airports] the search handler of [registerAirports];
    - the properties, one section per route. *)

From Stdlib Require Import ZArith QArith Qround String Ascii List Bool Lia.
From Stdlib Require Import Sorting.Sorted Permutation.
Import ListNotations.

Local Open Scope string_scope.
Local Open Scope Z_scope.

(* ===================================================================== *)
(** ** JavaScript values and built-ins *)
(* ===================================================================== *)

Module JS.

(** Strings are sequences of code units; the model covers the code units
    below 256 (Latin-1), one [ascii] each. *)

Definition code (c : ascii) : Z := Z.of_N (N_of_ascii c).

Definition chr (n : Z) : ascii := ascii_of_N (Z.to_N n).

(** WhiteSpace and LineTerminator code units below 256:
    TAB, LF, VT, FF, CR, SP and NBSP. *)
Definition isWhiteSpace (c : ascii) : bool :=
  let n := code c in
  ((9 <=? n) && (n <=? 13)) || (n =? 32) || (n =? 160).

Fixpoint trimStart (s : string) : string :=
  match s with
  | String c r => if isWhiteSpace c then trimStart r else s
  | EmptyString => EmptyString
  end.

Fixpoint trimEnd (s : string) : string :=
  match s with
  | String c r =>
      match trimEnd r with
      | EmptyString => if isWhiteSpace c then EmptyString else String c EmptyString
      | r' => String c r'
      end
  | EmptyString => EmptyString
  end.

(** [String.prototype.trim] *)
Definition trim (s : string) : string := trimEnd (trimStart s).

(** Lower-case mapping of one code unit: A-Z, and the Latin-1 capitals
    U+00C0..U+00DE except the multiplication sign U+00D7. *)
Definition lowerChar (c : ascii) : ascii :=
  let n := code c in
  if ((65 <=? n) && (n <=? 90))
     || ((192 <=? n) && (n <=? 222) && negb (n =? 215))
  then chr (n + 32) else c.

(** [String.prototype.toLowerCase] *)
Fixpoint toLowerCase (s : string) : string :=
  match s with
  | String c r => String (lowerChar c) (toLowerCase r)
  | EmptyString => EmptyString
  end.


(** [s.length] *)
Definition lengthOf (s : string) : Z := Z.of_nat (String.length s).

(** *** Numbers

    A Number is NaN, an infinity, or a finite value carried as the exact
    rational it denotes.  The two zeros are not told apart: no handler
    observes the sign of a zero. *)

Inductive JsNumber : Type :=
  | NaN
  | PInf
  | NInf
  | Fin (q : Q).

(** [n * 2^p] as a rational, for any integer [p]. *)
Definition scale2 (n p : Z) : Q :=
  if 0 <=? p then inject_Z (n * 2 ^ p) else Qmake n (Z.to_pos (2 ^ (- p))).

(** Round-to-nearest, ties-to-even, of [a / b] to an integer ([0 < b]). *)
Definition roundHalfEven (a b : Z) : Z :=
  let k := a / b in
  let r := a mod b in
  if 2 * r <? b then k
  else if b <? 2 * r then k + 1
  else if Z.even k then k else k + 1.

(** The binary64 value nearest to a positive rational [n / d], as the pair
    (significand, exponent): the value is [significand * 2^exponent]. *)
Definition nearest64 (n d : Z) : Z * Z :=
  let e0 := Z.log2 n - Z.log2 d in
  let e := if (if 0 <=? e0 then n <? d * 2 ^ e0 else n * 2 ^ (- e0) <? d)
           then e0 - 1 else e0 in
  let p := Z.max (e - 52) (-1074) in
  let m := if 0 <=? p then roundHalfEven n (d * 2 ^ p)
           else roundHalfEven (n * 2 ^ (- p)) d in
  (m, p).

(** Conversion of a real value to a Number (the operation written 𝔽 in the
    language specification): round to binary64, overflow to an infinity. *)
Definition roundNumber (q : Q) : JsNumber :=
  let n := Qnum q in
  let d := Zpos (Qden q) in
  if n =? 0 then Fin 0
  else
    let '(m, p) := nearest64 (Z.abs n) d in
    if (0 <=? p) && (2 ^ 1024 <=? m * 2 ^ p)
    then (if 0 <? n then PInf else NInf)
    else Fin (Qred (scale2 (if 0 <? n then m else - m) p)).

(** [Math.round] of a finite value: the nearest integer, ties upwards. *)
Definition Math_round (q : Q) : Z := Qfloor (q + (1 # 2)).

(** *** Numeric literals in strings *)

Definition isDigit (c : ascii) : bool := (48 <=? code c) && (code c <=? 57).

Definition digitOf (c : ascii) : option Z :=
  let n := code c in
  if (48 <=? n) && (n <=? 57) then Some (n - 48)
  else if (97 <=? n) && (n <=? 122) then Some (n - 87)
  else if (65 <=? n) && (n <=? 90) then Some (n - 55)
  else None.

(** The longest prefix of decimal digits of [s], accumulated on [acc]:
    value, number of digits read, and the rest of the string. *)
Fixpoint digits (s : string) (acc cnt : Z) : Z * Z * string :=
  match s with
  | String c r =>
      if isDigit c then digits r (acc * 10 + (code c - 48)) (cnt + 1)
      else (acc, cnt, s)
  | EmptyString => (acc, cnt, s)
  end.

(** A whole string of digits in the given radix, at least one. *)
Fixpoint radixDigits (radix : Z) (s : string) (acc cnt : Z) : option Z :=
  match s with
  | String c r =>
      match digitOf c with
      | Some d => if d <? radix then radixDigits radix r (acc * radix + d) (cnt + 1)
                  else None
      | None => None
      end
  | EmptyString => if 0 <? cnt then Some acc else None
  end.

(** [v * 10^e] as a rational. *)
Definition pow10Q (v e : Z) : Q :=
  if 0 <=? e then inject_Z (v * 10 ^ e) else Qmake v (Z.to_pos (10 ^ (- e))).

(** ExponentPart up to the end of the string; an empty rest is exponent 0. *)
Definition exponentPart (s : string) : option Z :=
  match s with
  | EmptyString => Some 0
  | String c r =>
      if (code c =? 101) || (code c =? 69) then
        let '(neg, r') :=
          match r with
          | String c' r' =>
              if code c' =? 43 then (false, r')
              else if code c' =? 45 then (true, r')
              else (false, r)
          | EmptyString => (false, r)
          end in
        let '(v, cnt, rest) := digits r' 0 0 in
        if (0 <? cnt) && (rest =? "")%string
        then Some (if neg then - v else v) else None
      else None
  end.

(** StrUnsignedDecimalLiteral other than [Infinity]. *)
Definition unsignedDecimal (s : string) : option Q :=
  let '(i, ni, r1) := digits s 0 0 in
  let '(m, nf, r2) :=
    match r1 with
    | String c r => if code c =? 46 then digits r i 0 else (i, 0, r1)
    | EmptyString => (i, 0, r1)
    end in
  if 0 <? ni + nf then
    match exponentPart r2 with
    | Some e => Some (pow10Q m (e - nf))
    | None => None
    end
  else None.

Definition signedDecimal (s : string) : JsNumber :=
  let '(neg, r) :=
    match s with
    | String c r' =>
        if code c =? 43 then (false, r')
        else if code c =? 45 then (true, r')
        else (false, s)
    | EmptyString => (false, s)
    end in
  if (r =? "Infinity")%string then (if neg then NInf else PInf)
  else match unsignedDecimal r with
       | Some q => roundNumber (if neg then Qopp q else q)
       | None => NaN
       end.

Definition nonDecimal (radix : Z) (s : string) : JsNumber :=
  match radixDigits radix s 0 0 with
  | Some v => roundNumber (inject_Z v)
  | None => NaN
  end.

(** StringToNumber: the numeric value of a string, NaN when the trimmed
    string is not a StringNumericLiteral. *)
Definition StringToNumber (s : string) : JsNumber :=
  match trim s with
  | EmptyString => Fin 0
  | String c0 (String c1 r) as t =>
      if code c0 =? 48 then
        if (code c1 =? 120) || (code c1 =? 88) then nonDecimal 16 r
        else if (code c1 =? 111) || (code c1 =? 79) then nonDecimal 8 r
        else if (code c1 =? 98) || (code c1 =? 66) then nonDecimal 2 r
        else signedDecimal t
      else signedDecimal t
  | t => signedDecimal t
  end.

(** [parseInt(s, 10)] on a string: [None] is NaN.  The integer is exact; its
    callers clamp it into a range of small integers, where the exact value
    and its binary64 rounding agree. *)
Definition parseInt10 (s : string) : option Z :=
  let t := trimStart s in
  let '(neg, r) :=
    match t with
    | String c r' =>
        if code c =? 43 then (false, r')
        else if code c =? 45 then (true, r')
        else (false, t)
    | EmptyString => (false, t)
    end in
  let '(v, cnt, _) := digits r 0 0 in
  if 0 <? cnt then Some (if neg then - v else v) else None.

(** *** Number::toString *)

Fixpoint repeat0 (n : nat) : string :=
  match n with
  | O => EmptyString
  | S k => String "0"%char (repeat0 k)
  end.

(** Decimal digits of a non-negative integer, most significant first. *)
Fixpoint decimalDigits (fuel : nat) (n : Z) (acc : string) : string :=
  match fuel with
  | O => acc
  | S f =>
      let acc' := String (chr (48 + n mod 10)) acc in
      if n <? 10 then acc' else decimalDigits f (n / 10) acc'
  end.

Definition natString (n : Z) : string :=
  decimalDigits (S (Z.to_nat (Z.log2 n))) n EmptyString.

(** The [n] with [10^(n-1) <= a/b < 10^n], for positive [a] and [b]. *)
Definition decimalExponent (a b : Z) : Z :=
  let est := Z.of_nat (String.length (natString a))
             - Z.of_nat (String.length (natString b)) in
  if (if 0 <=? est then b * 10 ^ est <=? a else b <=? a * 10 ^ (- est))
  then est + 1 else est.

(** One step of the digit search of Number::toString: the [k]-digit
    integers [s] next to [a/b / 10^(n-k)] for which [s * 10^(n-k)] reads
    back as [a/b], the closest first. *)
Definition shortestAt (a b n k : Z) : option Z :=
  let e := n - k in
  let num := if 0 <=? e then a else a * 10 ^ (- e) in
  let den := if 0 <=? e then b * 10 ^ e else b in
  let lo := num / den in
  let hi := lo + 1 in
  let r := num mod den in
  let back s :=
    match roundNumber (pow10Q s e) with
    | Fin q' => Qeq_bool q' (Qmake a (Z.to_pos b))
    | _ => false
    end in
  let lo_first := (2 * r <? den) || ((2 * r =? den) && Z.even lo) in
  match back lo, back hi with
  | true, true => Some (if lo_first then lo else hi)
  | true, false => Some lo
  | false, true => Some hi
  | false, false => None
  end.

Fixpoint shortest (fuel : nat) (a b n k : Z) : Z * Z :=
  match fuel with
  | O => ((if 0 <=? n - k then a / (b * 10 ^ (n - k))
           else a * 10 ^ (k - n) / b), k)
  | S f =>
      match shortestAt a b n k with
      | Some s => (s, k)
      | None => shortest f a b n (k + 1)
      end
  end.

Definition substringFrom (n : nat) (s : string) : string :=
  String.substring n (String.length s - n) s.

(** The text of a positive binary64 value [a/b]. *)
Definition positiveToString (a b : Z) : string :=
  let n0 := decimalExponent a b in
  let '(s0, k) := shortest 17 a b n0 1 in
  let '(s, n) := if s0 =? 10 ^ k then (10 ^ (k - 1), n0 + 1) else (s0, n0) in
  let ds := natString s in
  if (k <=? n) && (n <=? 21) then
    (ds ++ repeat0 (Z.to_nat (n - k)))%string
  else if (0 <? n) && (n <=? 21) then
    (String.substring 0 (Z.to_nat n) ds ++ "." ++ substringFrom (Z.to_nat n) ds)%string
  else if (-6 <? n) && (n <=? 0) then
    ("0." ++ repeat0 (Z.to_nat (- n)) ++ ds)%string
  else
    let e := n - 1 in
    let sign := if 0 <? e then "+" else "-" in
    let es := (sign ++ natString (Z.abs e))%string in
    if k =? 1 then (ds ++ "e" ++ es)%string
    else (String.substring 0 1 ds ++ "." ++ substringFrom 1 ds ++ "e" ++ es)%string.

(** Number::toString, radix 10.  A finite value is read as the binary64
    value nearest to it. *)
Definition NumberToString (x : JsNumber) : string :=
  match x with
  | NaN => "NaN"
  | PInf => "Infinity"
  | NInf => "-Infinity"
  | Fin q =>
      match roundNumber q with
      | Fin q' =>
          let a := Qnum q' in
          let b := Zpos (Qden q') in
          if a =? 0 then "0"
          else if 0 <? a then positiveToString a b
          else ("-" ++ positiveToString (- a) b)%string
      | NaN => "NaN"
      | PInf => "Infinity"
      | NInf => "-Infinity"
      end
  end.

(** *** Values

    The values a parsed JSON body or a query string can hold, together with
    [undefined].  An object is the list of its own properties, in property
    order, keys distinct. *)

#[warnings="-register-all"]
Inductive JsVal : Type :=
  | JUndefined
  | JNull
  | JBool (b : bool)
  | JNum (n : JsNumber)
  | JStr (s : string)
  | JArr (l : list JsVal)
  | JObj (fields : list (string * JsVal)).

(** ToBoolean *)
Definition truthy (v : JsVal) : bool :=
  match v with
  | JUndefined | JNull => false
  | JBool b => b
  | JNum (Fin q) => negb (Qeq_bool q 0)
  | JNum NaN => false
  | JNum _ => true
  | JStr s => negb (s =? "")%string
  | JArr _ | JObj _ => true
  end.

(** [a || b] *)
Definition orElse (a b : JsVal) : JsVal := if truthy a then a else b.

(** [a ?? b] *)
Definition nullish (a b : JsVal) : JsVal :=
  match a with
  | JUndefined | JNull => b
  | _ => a
  end.

(** [v == null] *)
Definition isNullish (v : JsVal) : bool :=
  match v with
  | JUndefined | JNull => true
  | _ => false
  end.

(** *** Conversions that can throw

    [String(v)] and [Number(v)] convert an object through its [toString]
    and [valueOf] methods.  The objects of a parsed body or query string
    inherit both from [Object.prototype]; an own property of that name
    replaces the inherited method, and it is never a function.  With an own
    [toString] no method is left that gives a primitive value, and the
    conversion throws a TypeError; with an own [valueOf] alone the inherited
    [toString] still answers. *)

Inductive Completion (A : Type) : Type :=
  | Return (a : A)
  | Throw.

Arguments Return {A} a.
Arguments Throw {A}.

Definition bind {A B : Type} (c : Completion A) (k : A -> Completion B)
  : Completion B :=
  match c with
  | Return a => k a
  | Throw => Throw
  end.

Notation "x <- c ;; k" := (bind c (fun x => k))
  (at level 61, c at next level, right associativity).

(** [Object.hasOwn(o, k)] on the properties of an object *)
Definition hasOwn (fields : list (string * JsVal)) (k : string) : bool :=
  existsb (fun kv => (fst kv =? k)%string) fields.

(** [String(v)]; an array joins the texts of its elements with commas, an
    [undefined] or [null] element giving the empty text. *)
Fixpoint String_ (v : JsVal) : Completion string :=
  match v with
  | JUndefined => Return "undefined"
  | JNull => Return "null"
  | JBool true => Return "true"
  | JBool false => Return "false"
  | JNum n => Return (NumberToString n)
  | JStr s => Return s
  | JArr l =>
      (fix join (l : list JsVal) : Completion string :=
         match l with
         | [] => Return ""
         | x :: r =>
             match match x with
                   | JUndefined | JNull => Return ""
                   | _ => String_ x
                   end with
             | Throw => Throw
             | Return e =>
                 match r with
                 | [] => Return e
                 | _ =>
                     match join r with
                     | Throw => Throw
                     | Return rest => Return (e ++ "," ++ rest)%string
                     end
                 end
             end
         end) l
  | JObj fields =>
      if hasOwn fields "toString" then Throw else Return "[object Object]"
  end.

(** [Number(v)] *)
Definition Number (v : JsVal) : Completion JsNumber :=
  match v with
  | JUndefined => Return NaN
  | JNull => Return (Fin 0)
  | JBool true => Return (Fin 1)
  | JBool false => Return (Fin 0)
  | JNum n => Return n
  | JStr s => Return (StringToNumber s)
  | JArr _ => s <- String_ v;; Return (StringToNumber s)
  | JObj fields => if hasOwn fields "toString" then Throw else Return NaN
  end.

(** [Number.isFinite(n)] *)
Definition Number_isFinite (n : JsNumber) : bool :=
  match n with
  | Fin _ => true
  | _ => false
  end.

(** [Number.isNaN(n)] *)
Definition Number_isNaN (n : JsNumber) : bool :=
  match n with
  | NaN => true
  | _ => false
  end.

(** [Number.isFinite(n) ? n : null], the value bound to a REAL column. *)
Definition finiteOrNull (n : option JsNumber) : option Q :=
  match n with
  | Some (Fin q) => Some q
  | _ => None
  end.

(** [parseInt(v, 10)]: the integer at the head of the text of [v], none
    standing for NaN. *)
Definition parseInt (v : JsVal) : Completion (option Z) :=
  s <- String_ v;; Return (parseInt10 s).

(** [o?.k]: the property [k] of an object, [undefined] when [o] has none or
    is not an object.  (The handlers read no property that an array or a
    string owns.) *)
Definition prop (o : JsVal) (k : string) : JsVal :=
  match o with
  | JObj fields =>
      match find (fun kv => (fst kv =? k)%string) fields with
      | Some kv => snd kv
      | None => JUndefined
      end
  | _ => JUndefined
  end.

(** *** JSON.stringify *)

Definition hexDigit (n : Z) : ascii :=
  if n <? 10 then chr (48 + n) else chr (87 + n).

Definition quoteChar (c : ascii) : string :=
  let n := code c in
  if n =? 34 then String (chr 92) (String (chr 34) "")
  else if n =? 92 then "\\"
  else if n =? 8 then "\b"
  else if n =? 12 then "\f"
  else if n =? 10 then "\n"
  else if n =? 13 then "\r"
  else if n =? 9 then "\t"
  else if n <? 32 then
    ("\u00" ++ String (hexDigit (n / 16)) (String (hexDigit (n mod 16)) ""))%string
  else String c "".

Fixpoint quoteChars (s : string) : string :=
  match s with
  | String c r => (quoteChar c ++ quoteChars r)%string
  | EmptyString => EmptyString
  end.

(** QuoteJSONString *)
Definition quote (s : string) : string :=
  (String (chr 34) (quoteChars s) ++ String (chr 34) "")%string.

(** SerializeJSONProperty: [None] is [undefined]. *)
Fixpoint serialize (v : JsVal) : option string :=
  match v with
  | JUndefined => None
  | JNull => Some "null"
  | JBool true => Some "true"
  | JBool false => Some "false"
  | JNum (Fin q) => Some (NumberToString (Fin q))
  | JNum _ => Some "null"
  | JStr s => Some (quote s)
  | JArr l =>
      Some ("[" ++
        (fix elems (l : list JsVal) : string :=
           match l with
           | [] => ""
           | x :: r =>
               let e := match serialize x with
                        | Some t => t
                        | None => "null"
                        end in
               match r with
               | [] => e
               | _ => (e ++ "," ++ elems r)%string
               end
           end) l ++ "]")%string
  | JObj fields =>
      Some ("{" ++
        (fix members (l : list (string * JsVal)) (first : bool) : string :=
           match l with
           | [] => ""
           | (k, x) :: r =>
               match serialize x with
               | Some t =>
                   ((if first then "" else ",") ++ quote k ++ ":" ++ t
                    ++ members r false)%string
               | None => members r first
               end
           end) fields true ++ "}")%string
  end.

(** [JSON.stringify(v)] *)
Definition JSON_stringify (v : JsVal) : option string := serialize v.

End JS.

(* ===================================================================== *)
(** ** SQLite scalar functions and clauses *)
(* ===================================================================== *)

Module SQLite.

(** A TEXT column holds NULL or a text. *)
Definition text := option string.

(** [COALESCE(x, d)] *)
Definition COALESCE {A} (x : option A) (d : A) : A :=
  match x with
  | Some v => v
  | None => d
  end.

(** [NULLIF(x, '')] *)
Definition NULLIF_empty (x : string) : option string :=
  if (x =? "")%string then None else Some x.

(** Case folding of the built-in functions: ASCII letters only. *)
Definition lowerAscii (c : ascii) : ascii :=
  let n := JS.code c in
  if (65 <=? n) && (n <=? 90) then JS.chr (n + 32) else c.

(** [LOWER(x)] *)
Fixpoint LOWER (s : string) : string :=
  match s with
  | String c r => String (lowerAscii c) (LOWER r)
  | EmptyString => EmptyString
  end.

(** The characters of a text before its first U+0000: what the functions
    that read a text as a C string see. *)
Fixpoint cstr (s : string) : string :=
  match s with
  | String c r => if JS.code c =? 0 then EmptyString else String c (cstr r)
  | EmptyString => EmptyString
  end.

(** [LENGTH(x)]: the characters before the first U+0000. *)
Definition LENGTH (s : string) : Z := Z.of_nat (String.length (cstr s)).

(** The matcher of LIKE without ESCAPE: [%] is any run of characters, [_]
    any one character, another character itself up to ASCII case. *)
Fixpoint likeMatch (p t : string) : bool :=
  match p with
  | EmptyString =>
      match t with
      | EmptyString => true
      | _ => false
      end
  | String c p' =>
      if JS.code c =? 37 then
        (fix anywhere (t : string) : bool :=
           likeMatch p' t ||
           match t with
           | String _ t' => anywhere t'
           | EmptyString => false
           end) t
      else if JS.code c =? 95 then
        match t with
        | String _ t' => likeMatch p' t'
        | EmptyString => false
        end
      else
        match t with
        | String d t' => Ascii.eqb (lowerAscii c) (lowerAscii d) && likeMatch p' t'
        | EmptyString => false
        end
  end.


(** A character [LOWER] leaves alone. *)
Definition loweredChar (c : ascii) : bool := Ascii.eqb (lowerAscii c) c.

(** The bytes of a text bound as UTF-8: one for a character below U+0080,
    two for the others of Latin-1. *)
Fixpoint utf8Bytes (s : string) : Z :=
  match s with
  | EmptyString => 0
  | String c r => (if JS.code c <? 128 then 1 else 2) + utf8Bytes r
  end.

(** A pattern of more than 50000 bytes (SQLITE_MAX_LIKE_PATTERN_LENGTH),
    the bytes after a U+0000 included.  LIKE raises the error "LIKE or GLOB
    pattern too complex" when it is evaluated on such a pattern, and the
    statement fails; a statement that evaluates LIKE on no row succeeds. *)
Definition tooComplex (pattern : string) : bool := 50000 <? utf8Bytes pattern.

(** [x LIKE pattern]: the value of the operator on a pattern that is not
    [tooComplex].  On one that is, the operator has no value; the handlers
    that run a statement with LIKE fail, as the statement does, when a row
    brings the operator to be evaluated. *)
Definition LIKE (x pattern : string) : bool := likeMatch (cstr pattern) (cstr x).

(** [ORDER BY]: rows in ascending order of [le]; rows that compare equal
    keep the order of the scan. *)
Fixpoint insertRow {A} (le : A -> A -> bool) (x : A) (l : list A) : list A :=
  match l with
  | [] => [x]
  | y :: r => if le x y then x :: l else y :: insertRow le x r
  end.

Fixpoint ORDER_BY {A} (le : A -> A -> bool) (l : list A) : list A :=
  match l with
  | [] => []
  | x :: r => insertRow le x (ORDER_BY le r)
  end.

(** [LIMIT n] for a non-negative [n] *)
Definition LIMIT {A} (n : Z) (l : list A) : list A := firstn (Z.to_nat n) l.

(** [SELECT ... WHERE p] returning one row: the first in scan order. *)
Definition get {A} (p : A -> bool) (t : list A) : option A := find p t.

(** [SELECT ... WHERE p] *)
Definition all {A} (p : A -> bool) (t : list A) : list A := filter p t.

(** A table without rows. *)
Definition isEmpty {A} (t : list A) : bool :=
  match t with
  | [] => true
  | _ :: _ => false
  end.

(** [UPDATE t SET f WHERE p] *)
Definition update {A} (p : A -> bool) (f : A -> A) (t : list A) : list A :=
  map (fun r => if p r then f r else r) t.

(** The rowid an AUTOINCREMENT key gives to the next row of a table whose
    rows are never removed: one more than the largest in use. *)
Definition nextId (ids : list Z) : Z := 1 + fold_right Z.max 0 ids.

End SQLite.

(* ===================================================================== *)
(** ** The carry module: [registerCarry] *)
(* ===================================================================== *)

Module Carry.

Import JS SQLite.

(** *** Tables *)

Module carry_listings.
Record row : Type := {
  id : Z;
  user_id : Z;
  role : string;
  from_country : text;
  from_city : text;
  to_country : text;
  to_city : text;
  travel_date : text;
  arrival_date : text;
  available_weight : option Q;
  item_type : text;
  description : text;
  reward_amount : option Q;
  currency : text;
  status : string;
  is_active : Z;
  data_json : text;
  created_at : string;
  updated_at : string
}.
End carry_listings.

Module carry_requests.
Record row : Type := {
  id : Z;
  listing_id : Z;
  requester_id : Z;
  status : string;
  created_at : string
}.
End carry_requests.

Module carry_messages.
Record row : Type := {
  id : Z;
  listing_id : Z;
  sender_id : Z;
  message : string;
  created_at : string
}.
End carry_messages.

Module carry_reviews.
Record row : Type := {
  id : Z;
  listing_id : Z;
  reviewer_id : Z;
  reviewed_user_id : JsNumber;
  rating : Z;
  comment : text;
  created_at : string
}.
End carry_reviews.

(** The database: the four tables, each in rowid order. *)
Record Db : Type := {
  listings : list carry_listings.row;
  requests : list carry_requests.row;
  messages : list carry_messages.row;
  reviews : list carry_reviews.row
}.

Definition empty : Db :=
  {| listings := []; requests := []; messages := []; reviews := [] |}.

(** *** Requests and responses *)

(** What a handler reads of the request: [req.user.id] (0 stands for a
    missing id), [req.params.id] and [req.body]. *)
Record Request : Type := {
  req_user_id : Z;
  req_params_id : string;
  req_body : JsVal
}.

(** The collaborators received in [opts].  [toInt] gives 0 where the helper
    gives a value that [!id] rejects (0, NaN, null); [isAdminReq] is the
    admin predicate of [opts.auth]. *)
Record Opts : Type := {
  toInt : string -> Z;
  safeTrim : JsVal -> string;
  safeJsonParse : text -> JsVal;
  isAdminReq : Request -> bool
}.

(** The object [mapListing] builds. *)
Module listing.
Record t : Type := {
  id : Z;
  user_id : Z;
  role : string;
  from_country : string;
  from_city : string;
  to_country : string;
  to_city : string;
  travel_date : text;
  arrival_date : text;
  available_weight : option Q;
  item_type : string;
  description : string;
  reward_amount : option Q;
  currency : string;
  status : string;
  is_active : Z;
  created_at : text;
  updated_at : text;
  data : JsVal;
  raw : carry_listings.row
}.
End listing.

Inductive Json : Type :=
  | Error (error : string)
  | Ok
  | OkItem (item : listing.t)
  | OkRequest (request_id : Z) (status : string)
  | OkMessage (message : option carry_messages.row).

Record Response : Type := { status : Z; json : Json }.

(** [res.status(c).json({ error })] *)
Definition fail (c : Z) (error : string) : Response :=
  {| status := c; json := Error error |}.

(** [res.json(j)] *)
Definition reply (j : Json) : Response := {| status := 200; json := j |}.

(** [s || d] on a text. *)
Definition orText (x : text) (d : string) : string :=
  match x with
  | Some s => if (s =? "")%string then d else s
  | None => d
  end.

(** [s || null] on a text. *)
Definition orNull (x : text) : text :=
  match x with
  | Some s => if (s =? "")%string then None else Some s
  | None => None
  end.

(** *** Row updates *)

Definition set_listing_status (st now : string) (r : carry_listings.row)
  : carry_listings.row :=
  {| carry_listings.id := carry_listings.id r;
     carry_listings.user_id := carry_listings.user_id r;
     carry_listings.role := carry_listings.role r;
     carry_listings.from_country := carry_listings.from_country r;
     carry_listings.from_city := carry_listings.from_city r;
     carry_listings.to_country := carry_listings.to_country r;
     carry_listings.to_city := carry_listings.to_city r;
     carry_listings.travel_date := carry_listings.travel_date r;
     carry_listings.arrival_date := carry_listings.arrival_date r;
     carry_listings.available_weight := carry_listings.available_weight r;
     carry_listings.item_type := carry_listings.item_type r;
     carry_listings.description := carry_listings.description r;
     carry_listings.reward_amount := carry_listings.reward_amount r;
     carry_listings.currency := carry_listings.currency r;
     carry_listings.status := st;
     carry_listings.is_active := carry_listings.is_active r;
     carry_listings.data_json := carry_listings.data_json r;
     carry_listings.created_at := carry_listings.created_at r;
     carry_listings.updated_at := now |}.

Definition set_listing_inactive (now : string) (r : carry_listings.row)
  : carry_listings.row :=
  {| carry_listings.id := carry_listings.id r;
     carry_listings.user_id := carry_listings.user_id r;
     carry_listings.role := carry_listings.role r;
     carry_listings.from_country := carry_listings.from_country r;
     carry_listings.from_city := carry_listings.from_city r;
     carry_listings.to_country := carry_listings.to_country r;
     carry_listings.to_city := carry_listings.to_city r;
     carry_listings.travel_date := carry_listings.travel_date r;
     carry_listings.arrival_date := carry_listings.arrival_date r;
     carry_listings.available_weight := carry_listings.available_weight r;
     carry_listings.item_type := carry_listings.item_type r;
     carry_listings.description := carry_listings.description r;
     carry_listings.reward_amount := carry_listings.reward_amount r;
     carry_listings.currency := carry_listings.currency r;
     carry_listings.status := carry_listings.status r;
     carry_listings.is_active := 0;
     carry_listings.data_json := carry_listings.data_json r;
     carry_listings.created_at := carry_listings.created_at r;
     carry_listings.updated_at := now |}.

Definition set_request_status (st : string) (r : carry_requests.row)
  : carry_requests.row :=
  {| carry_requests.id := carry_requests.id r;
     carry_requests.listing_id := carry_requests.listing_id r;
     carry_requests.requester_id := carry_requests.requester_id r;
     carry_requests.status := st;
     carry_requests.created_at := carry_requests.created_at r |}.

(** The parameters of the UPDATE of the update route. *)
Record Patch : Type := {
  p_from_country : string;
  p_from_city : string;
  p_to_country : string;
  p_to_city : string;
  p_travel_date : string;
  p_arrival_date : string;
  p_available_weight : option Q;
  p_item_type : string;
  p_description : string;
  p_reward_amount : option Q;
  p_currency : string;
  p_data_json : text
}.

(** [COALESCE(NULLIF(?,''), col)] *)
Definition keepUnlessGiven (param : string) (col : text) : text :=
  match NULLIF_empty param with
  | Some v => Some v
  | None => col
  end.

(** [COALESCE(?, col)] *)
Definition keepUnlessBound {A} (param col : option A) : option A :=
  match param with
  | Some v => Some v
  | None => col
  end.

Definition patch_listing (p : Patch) (now : string) (r : carry_listings.row)
  : carry_listings.row :=
  {| carry_listings.id := carry_listings.id r;
     carry_listings.user_id := carry_listings.user_id r;
     carry_listings.role := carry_listings.role r;
     carry_listings.from_country :=
       keepUnlessGiven (p_from_country p) (carry_listings.from_country r);
     carry_listings.from_city :=
       keepUnlessGiven (p_from_city p) (carry_listings.from_city r);
     carry_listings.to_country :=
       keepUnlessGiven (p_to_country p) (carry_listings.to_country r);
     carry_listings.to_city :=
       keepUnlessGiven (p_to_city p) (carry_listings.to_city r);
     carry_listings.travel_date :=
       keepUnlessGiven (p_travel_date p) (carry_listings.travel_date r);
     carry_listings.arrival_date :=
       keepUnlessGiven (p_arrival_date p) (carry_listings.arrival_date r);
     carry_listings.available_weight :=
       keepUnlessBound (p_available_weight p) (carry_listings.available_weight r);
     carry_listings.item_type :=
       keepUnlessGiven (p_item_type p) (carry_listings.item_type r);
     carry_listings.description :=
       keepUnlessGiven (p_description p) (carry_listings.description r);
     carry_listings.reward_amount :=
       keepUnlessBound (p_reward_amount p) (carry_listings.reward_amount r);
     carry_listings.currency :=
       keepUnlessGiven (p_currency p) (carry_listings.currency r);
     carry_listings.status := carry_listings.status r;
     carry_listings.is_active := carry_listings.is_active r;
     carry_listings.data_json :=
       keepUnlessBound (p_data_json p) (carry_listings.data_json r);
     carry_listings.created_at := carry_listings.created_at r;
     carry_listings.updated_at := now |}.

(** *** Database writes *)

Definition with_listings (db : Db) (t : list carry_listings.row) : Db :=
  {| listings := t; requests := requests db;
     messages := messages db; reviews := reviews db |}.

Definition with_requests (db : Db) (t : list carry_requests.row) : Db :=
  {| listings := listings db; requests := t;
     messages := messages db; reviews := reviews db |}.

Definition with_messages (db : Db) (t : list carry_messages.row) : Db :=
  {| listings := listings db; requests := requests db;
     messages := t; reviews := reviews db |}.

Definition with_reviews (db : Db) (t : list carry_reviews.row) : Db :=
  {| listings := listings db; requests := requests db;
     messages := messages db; reviews := t |}.

(** [SELECT ... FROM carry_listings WHERE id=?] *)
Definition listing_by_id (db : Db) (i : Z) : option carry_listings.row :=
  get (fun r => carry_listings.id r =? i) (listings db).

(** [SELECT ... FROM carry_listings WHERE id=? AND is_active=1] *)
Definition active_listing_by_id (db : Db) (i : Z) : option carry_listings.row :=
  get (fun r => (carry_listings.id r =? i) && (carry_listings.is_active r =? 1))
      (listings db).

(** [SELECT * FROM carry_requests WHERE id=?] *)
Definition request_by_id (db : Db) (i : Z) : option carry_requests.row :=
  get (fun r => carry_requests.id r =? i) (requests db).

(** [SELECT id, status FROM carry_requests
     WHERE listing_id=? AND requester_id=? LIMIT 1] *)
Definition request_of (db : Db) (l u : Z) : option carry_requests.row :=
  get (fun r => (carry_requests.listing_id r =? l)
                && (carry_requests.requester_id r =? u))
      (requests db).

(** [SELECT * FROM carry_messages WHERE id=?] *)
Definition message_by_id (db : Db) (i : Z) : option carry_messages.row :=
  get (fun r => carry_messages.id r =? i) (messages db).

Section registerCarry.

Variable opts : Opts.

(** The clock of the database, [datetime('now')]. *)
Variable now : string.

Definition mapListing (row : carry_listings.row) : listing.t :=
  let data := orElse (safeJsonParse opts (carry_listings.data_json row)) (JObj []) in
  {| listing.id := carry_listings.id row;
     listing.user_id := carry_listings.user_id row;
     listing.role := carry_listings.role row;
     listing.from_country := orText (carry_listings.from_country row) "";
     listing.from_city := orText (carry_listings.from_city row) "";
     listing.to_country := orText (carry_listings.to_country row) "";
     listing.to_city := orText (carry_listings.to_city row) "";
     listing.travel_date := orNull (carry_listings.travel_date row);
     listing.arrival_date := orNull (carry_listings.arrival_date row);
     listing.available_weight := carry_listings.available_weight row;
     listing.item_type := orText (carry_listings.item_type row) "";
     listing.description := orText (carry_listings.description row) "";
     listing.reward_amount := carry_listings.reward_amount row;
     listing.currency := orText (carry_listings.currency row) "USD";
     listing.status := orText (Some (carry_listings.status row)) "open";
     listing.is_active := carry_listings.is_active row;
     listing.created_at := orNull (Some (carry_listings.created_at row));
     listing.updated_at := orNull (Some (carry_listings.updated_at row));
     listing.data := data;
     listing.raw := row |}.

Definition clampRole (v : JsVal) : Completion (option string) :=
  s <- String_ (orElse v (JStr ""));;
  let r := toLowerCase (trim s) in
  Return (if (r =? "traveler")%string || (r =? "sender")%string
          then Some r else None).

Definition canEdit (reqUserId rowUserId : Z) (req : Request) : bool :=
  if reqUserId =? 0 then false
  else if reqUserId =? rowUserId then true
  else isAdminReq opts req.

(** [try { ... } catch (e) { return res.status(500).json({ error }) }]: a
    conversion that throws ends the handler with a 500.  Every handler
    converts before it writes, so the database is then the one it was
    given. *)
Definition catch (db : Db) (error : string) (c : Completion (Db * Response))
  : Db * Response :=
  match c with
  | Return r => r
  | Throw => (db, fail 500 error)
  end.

(** [req.body?.k == null ? null : Number(req.body.k)] *)
Definition numberOrNull (body : JsVal) (k : string)
  : Completion (option JsNumber) :=
  if isNullish (prop body k) then Return None
  else n <- Number (prop body k);; Return (Some n).

(** **** Listings *)

(** POST /api/carry/listings *)
Definition createListing (db : Db) (req : Request) : Db * Response :=
  let body := req_body req in
  catch db "Failed to create listing" (
    role <- clampRole (prop body "role");;
    match role with
    | None => Return (db, fail 400 "Bad role")
    | Some role =>
        let from_country := orNull (Some (safeTrim opts (prop body "from_country"))) in
        let from_city := orNull (Some (safeTrim opts (prop body "from_city"))) in
        let to_country := orNull (Some (safeTrim opts (prop body "to_country"))) in
        let to_city := orNull (Some (safeTrim opts (prop body "to_city"))) in
        let travel_date := orNull (Some (safeTrim opts (prop body "travel_date"))) in
        let arrival_date := orNull (Some (safeTrim opts (prop body "arrival_date"))) in
        available_weight <- numberOrNull body "available_weight";;
        let item_type := orNull (Some (safeTrim opts (prop body "item_type"))) in
        let description := orNull (Some (safeTrim opts (prop body "description"))) in
        reward_amount <- numberOrNull body "reward_amount";;
        let currency := orText (Some (safeTrim opts (prop body "currency"))) "USD" in
        let data_json := JSON_stringify (orElse body (JObj [])) in
        let lastID := nextId (map carry_listings.id (listings db)) in
        let inserted :=
          {| carry_listings.id := lastID;
             carry_listings.user_id := req_user_id req;
             carry_listings.role := role;
             carry_listings.from_country := from_country;
             carry_listings.from_city := from_city;
             carry_listings.to_country := to_country;
             carry_listings.to_city := to_city;
             carry_listings.travel_date := travel_date;
             carry_listings.arrival_date := arrival_date;
             carry_listings.available_weight := finiteOrNull available_weight;
             carry_listings.item_type := item_type;
             carry_listings.description := description;
             carry_listings.reward_amount := finiteOrNull reward_amount;
             carry_listings.currency := Some currency;
             carry_listings.status := "open";
             carry_listings.is_active := 1;
             carry_listings.data_json := data_json;
             carry_listings.created_at := now;
             carry_listings.updated_at := now |} in
        let db' := with_listings db (listings db ++ [inserted])%list in
        Return
          match listing_by_id db' lastID with
          | Some row => (db', reply (OkItem (mapListing row)))
          | None => (db', fail 500 "Failed to create listing")
          end
    end).

(** PATCH /api/carry/listings/:id *)
Definition updateListing (db : Db) (req : Request) : Db * Response :=
  let body := req_body req in
  let id := toInt opts (req_params_id req) in
  if id =? 0 then (db, fail 400 "Bad id") else
  match listing_by_id db id with
  | None => (db, fail 404 "Not found")
  | Some row =>
      if negb (canEdit (req_user_id req) (carry_listings.user_id row) req)
      then (db, fail 403 "Forbidden")
      else
        catch db "Failed to update" (
          available_weight <- numberOrNull body "available_weight";;
          reward_amount <- numberOrNull body "reward_amount";;
          let fields :=
            {| p_from_country := orText (Some (safeTrim opts (prop body "from_country"))) "";
               p_from_city := orText (Some (safeTrim opts (prop body "from_city"))) "";
               p_to_country := orText (Some (safeTrim opts (prop body "to_country"))) "";
               p_to_city := orText (Some (safeTrim opts (prop body "to_city"))) "";
               p_travel_date := orText (Some (safeTrim opts (prop body "travel_date"))) "";
               p_arrival_date := orText (Some (safeTrim opts (prop body "arrival_date"))) "";
               p_available_weight := finiteOrNull available_weight;
               p_item_type := orText (Some (safeTrim opts (prop body "item_type"))) "";
               p_description := orText (Some (safeTrim opts (prop body "description"))) "";
               p_reward_amount := finiteOrNull reward_amount;
               p_currency := orText (Some (safeTrim opts (prop body "currency"))) "";
               p_data_json := JSON_stringify (orElse body (JObj [])) |} in
          let db' :=
            with_listings db
              (update (fun r => carry_listings.id r =? id)
                      (patch_listing fields now) (listings db)) in
          Return
            match listing_by_id db' id with
            | Some updated => (db', reply (OkItem (mapListing updated)))
            | None => (db', fail 500 "Failed to update")
            end)
  end.

(** DELETE /api/carry/listings/:id *)
Definition deleteListing (db : Db) (req : Request) : Db * Response :=
  let id := toInt opts (req_params_id req) in
  if id =? 0 then (db, fail 400 "Bad id") else
  match listing_by_id db id with
  | None => (db, fail 404 "Not found")
  | Some row =>
      if negb (canEdit (req_user_id req) (carry_listings.user_id row) req)
      then (db, fail 403 "Forbidden")
      else
        (with_listings db
           (update (fun r => carry_listings.id r =? id)
                   (set_listing_inactive now) (listings db)),
         reply Ok)
  end.

(** **** Match requests *)

(** POST /api/carry/listings/:id/request *)
Definition createRequest (db : Db) (req : Request) : Db * Response :=
  let listingId := toInt opts (req_params_id req) in
  if listingId =? 0 then (db, fail 400 "Bad id") else
  match active_listing_by_id db listingId with
  | None => (db, fail 404 "Not found")
  | Some listing =>
      if carry_listings.user_id listing =? req_user_id req
      then (db, fail 400 "You can't request your own listing")
      else if negb (carry_listings.status listing =? "open")%string
      then (db, fail 400 "Listing not open")
      else
        let existing := request_of db listingId (req_user_id req) in
        (* existing?.id, 0 when there is no row *)
        let existing_id := match existing with
                           | Some e => carry_requests.id e
                           | None => 0
                           end in
        let existing_status := match existing with
                               | Some e => carry_requests.status e
                               | None => ""
                               end in
        if negb (existing_id =? 0) && negb (existing_status =? "cancelled")%string
        then (db, fail 400 "Already requested")
        else if negb (existing_id =? 0)
        then
          (with_requests db
             (update (fun r => carry_requests.id r =? existing_id)
                     (set_request_status "pending") (requests db)),
           reply (OkRequest existing_id "pending"))
        else
          let lastID := nextId (map carry_requests.id (requests db)) in
          (with_requests db
             (requests db ++
              [{| carry_requests.id := lastID;
                  carry_requests.listing_id := listingId;
                  carry_requests.requester_id := req_user_id req;
                  carry_requests.status := "pending";
                  carry_requests.created_at := now |}])%list,
           reply (OkRequest lastID "pending"))
  end.

(** PATCH /api/carry/requests/:id/accept *)
Definition acceptRequest (db : Db) (req : Request) : Db * Response :=
  let requestId := toInt opts (req_params_id req) in
  if requestId =? 0 then (db, fail 400 "Bad id") else
  match request_by_id db requestId with
  | None => (db, fail 404 "Not found")
  | Some reqRow =>
      match listing_by_id db (carry_requests.listing_id reqRow) with
      | None => (db, fail 404 "Listing missing")
      | Some listing =>
          if negb (canEdit (req_user_id req) (carry_listings.user_id listing) req)
          then (db, fail 403 "Forbidden")
          else
            let db1 :=
              with_requests db
                (update (fun r => carry_requests.id r =? requestId)
                        (set_request_status "accepted") (requests db)) in
            let db2 :=
              with_listings db1
                (update (fun r => carry_listings.id r =? carry_listings.id listing)
                        (set_listing_status "matched" now) (listings db1)) in
            (db2, reply Ok)
      end
  end.

(** PATCH /api/carry/requests/:id/reject *)
Definition rejectRequest (db : Db) (req : Request) : Db * Response :=
  let requestId := toInt opts (req_params_id req) in
  if requestId =? 0 then (db, fail 400 "Bad id") else
  match request_by_id db requestId with
  | None => (db, fail 404 "Not found")
  | Some reqRow =>
      match listing_by_id db (carry_requests.listing_id reqRow) with
      | None => (db, fail 404 "Listing missing")
      | Some listing =>
          if negb (canEdit (req_user_id req) (carry_listings.user_id listing) req)
          then (db, fail 403 "Forbidden")
          else
            (with_requests db
               (update (fun r => carry_requests.id r =? requestId)
                       (set_request_status "rejected") (requests db)),
             reply Ok)
      end
  end.

(** **** Messages *)

(** POST /api/carry/listings/:id/messages *)
Definition postMessage (db : Db) (req : Request) : Db * Response :=
  let listingId := toInt opts (req_params_id req) in
  if listingId =? 0 then (db, fail 400 "Bad id") else
  let message := safeTrim opts (prop (req_body req) "message") in
  if (message =? "")%string then (db, fail 400 "Missing message") else
  let lastID := nextId (map carry_messages.id (messages db)) in
  let db' :=
    with_messages db
      (messages db ++
       [{| carry_messages.id := lastID;
           carry_messages.listing_id := listingId;
           carry_messages.sender_id := req_user_id req;
           carry_messages.message := message;
           carry_messages.created_at := now |}])%list in
  (db', reply (OkMessage (message_by_id db' lastID))).

(** **** Reviews *)

Definition clampRating (v : JsVal) : Completion (option Z) :=
  n <- Number v;;
  Return
    match n with
    | Fin n =>
        let x := Math_round n in
        Some (Z.max 1 (Z.min 5 x))
    | _ => None
    end.

(** POST /api/carry/listings/:id/review.  A [reviewed_user_id] that is NaN
    reaches the NOT NULL column as NULL and the INSERT fails. *)
Definition postReview (db : Db) (req : Request) : Db * Response :=
  let body := req_body req in
  let listingId := toInt opts (req_params_id req) in
  if listingId =? 0 then (db, fail 400 "Bad id") else
  catch db "Failed" (
    rating <- clampRating (nullish (prop body "rating") (prop body "stars"));;
    match rating with
    | None => Return (db, fail 400 "Bad rating")
    | Some rating =>
        if rating =? 0 then Return (db, fail 400 "Bad rating") else
        let comment := orNull (Some (safeTrim opts (prop body "comment"))) in
        match listing_by_id db listingId with
        | None => Return (db, fail 404 "Not found")
        | Some listing =>
            reviewed_user_id <-
              Number (orElse (prop body "reviewed_user_id")
                         (JNum (Fin (inject_Z (carry_listings.user_id listing)))));;
            Return
              match reviewed_user_id with
              | NaN => (db, fail 500 "Failed")
              | _ =>
                  (with_reviews db
                     (reviews db ++
                      [{| carry_reviews.id := nextId (map carry_reviews.id (reviews db));
                          carry_reviews.listing_id := listingId;
                          carry_reviews.reviewer_id := req_user_id req;
                          carry_reviews.reviewed_user_id := reviewed_user_id;
                          carry_reviews.rating := rating;
                          carry_reviews.comment := comment;
                          carry_reviews.created_at := now |}])%list,
                   reply Ok)
              end
        end
    end).

(** **** The routes of the module that write to the database *)

Inductive Route : Type :=
  | POST_listings
  | PATCH_listing
  | DELETE_listing
  | POST_listing_request
  | PATCH_request_accept
  | PATCH_request_reject
  | POST_listing_messages
  | POST_listing_review.

Definition handle (route : Route) : Db -> Request -> Db * Response :=
  match route with
  | POST_listings => createListing
  | PATCH_listing => updateListing
  | DELETE_listing => deleteListing
  | POST_listing_request => createRequest
  | PATCH_request_accept => acceptRequest
  | PATCH_request_reject => rejectRequest
  | POST_listing_messages => postMessage
  | POST_listing_review => postReview
  end.

End registerCarry.

(** The database after a sequence of requests served one after the other,
    each at its own time and answered before the next is taken.  (Requests
    whose statements interleave are not modelled.) *)
Fixpoint serve (opts : Opts) (db : Db) (calls : list (string * Route * Request))
  : Db :=
  match calls with
  | [] => db
  | (now, route, req) :: rest =>
      serve opts (fst (handle opts now route db req)) rest
  end.

(** *** Well-formed databases

    The keys are positive and distinct, and a user has at most one request
    on a listing. *)

Fixpoint distinct (l : list Z) : bool :=
  match l with
  | [] => true
  | x :: r => negb (existsb (Z.eqb x) r) && distinct r
  end.

Definition samePair (a b : Z * Z) : bool :=
  (fst a =? fst b) && (snd a =? snd b).

Fixpoint distinctPairs (l : list (Z * Z)) : bool :=
  match l with
  | [] => true
  | x :: r => negb (existsb (samePair x) r) && distinctPairs r
  end.

Definition pairOf (r : carry_requests.row) : Z * Z :=
  (carry_requests.listing_id r, carry_requests.requester_id r).

Definition wf (db : Db) : bool :=
  forallb (Z.ltb 0) (map carry_listings.id (listings db))
  && distinct (map carry_listings.id (listings db))
  && forallb (Z.ltb 0) (map carry_requests.id (requests db))
  && distinct (map carry_requests.id (requests db))
  && distinctPairs (map pairOf (requests db)).

(** *** A host for the examples

    [toInt] reads a decimal integer (0 when there is none), [safeTrim] trims
    the text of a value (the empty text when the value has none),
    [safeJsonParse] gives up on every payload, and the administrator is the
    user [admin]. *)
Definition host (admin : Z) : Opts :=
  {| toInt := fun s => match parseInt10 s with Some n => n | None => 0 end;
     safeTrim := fun v =>
       match String_ (nullish v (JStr "")) with
       | Return s => trim s
       | Throw => ""
       end;
     safeJsonParse := fun _ => JNull;
     isAdminReq := fun req => req_user_id req =? admin |}.

(** [wf] as a proposition. *)
Definition well_formed (db : Db) : Prop :=
  Forall (fun i => 0 < i) (map carry_listings.id (listings db))
  /\ NoDup (map carry_listings.id (listings db))
  /\ Forall (fun i => 0 < i) (map carry_requests.id (requests db))
  /\ NoDup (map carry_requests.id (requests db))
  /\ NoDup (map pairOf (requests db)).

End Carry.

(* ===================================================================== *)
(** ** The airports module: [registerAirports] *)
(* ===================================================================== *)

Module Airports.

Import JS SQLite.

Record airport : Type := {
  iata : text;
  icao : text;
  name : text;
  city : text;
  country : text;
  country_code : text;
  lat : option Q;
  lon : option Q
}.

Inductive Json : Type :=
  | Rows (rows : list airport)
  | Error (error : string).

Record Response : Type := { status : Z; json : Json }.

(** The WHERE clause, on the bound parameter [like]. *)
Definition matches (like : string) (a : airport) : bool :=
  LIKE (LOWER (COALESCE (iata a) "")) like
  || LIKE (LOWER (COALESCE (icao a) "")) like
  || LIKE (LOWER (COALESCE (city a) "")) like
  || LIKE (LOWER (COALESCE (name a) "")) like
  || LIKE (LOWER (COALESCE (country a) "")) like.

(** The CASE expression of the ORDER BY clause, on the bound parameters
    [qLower] and [starts]. *)
Definition rank (qLower starts : string) (a : airport) : Z :=
  if (LOWER (COALESCE (iata a) "") =? qLower)%string then 0
  else if LIKE (LOWER (COALESCE (iata a) "")) starts then 1
  else if LIKE (LOWER (COALESCE (city a) "")) starts then 2
  else if LIKE (LOWER (COALESCE (name a) "")) starts then 3
  else 4.

(** The three terms of the ORDER BY clause. *)
Definition sortKey (qLower starts : string) (a : airport) : Z * Z * Z :=
  (rank qLower starts a,
   LENGTH (COALESCE (iata a) ""),
   LENGTH (COALESCE (city a) "")).

(** Ascending order on the terms, the first that differs deciding. *)
Definition keyLe (k1 k2 : Z * Z * Z) : bool :=
  let '(r1, i1, c1) := k1 in
  let '(r2, i2, c2) := k2 in
  (r1 <? r2)
  || ((r1 =? r2) && ((i1 <? i2) || ((i1 =? i2) && (c1 <=? c2)))).

(** What the handler reads from [req.query] before it looks at the length
    of the query: the trimmed text of [q] and the clamped limit, none
    standing for NaN. *)
Definition searchParams (query_q query_limit : JsVal)
  : Completion (string * option Z) :=
  s <- String_ (orElse query_q (JStr ""));;
  n <- parseInt (orElse query_limit (JStr "20"));;
  Return (trim s, option_map (fun n => Z.min 50 (Z.max 5 n)) n).

Definition search_failed : Response :=
  {| status := 500; json := Error "search_failed" |}.

(** GET /api/airports/search, on [req.query.q] and [req.query.limit].  A
    limit that is NaN is bound as NULL, which LIMIT refuses; the WHERE
    clause evaluates LIKE on every row of the table. *)
Definition search (airports : list airport) (query_q query_limit : JsVal)
  : Response :=
  match searchParams query_q query_limit with
  | Throw => search_failed
  | Return (q, limit) =>
      if lengthOf q <? 2 then {| status := 200; json := Rows [] |} else
      let qLower := toLowerCase q in
      let like := ("%" ++ qLower ++ "%")%string in
      let starts := (qLower ++ "%")%string in
      match limit with
      | Some n =>
          if tooComplex like && negb (isEmpty airports)
          then search_failed
          else
            let rows :=
              LIMIT n
                (ORDER_BY (fun a b => keyLe (sortKey qLower starts a)
                                            (sortKey qLower starts b))
                          (all (matches like) airports)) in
            {| status := 200; json := Rows rows |}
      | None => search_failed
      end
  end.





End Airports.


(* ===================================================================== *)
(** ** Scenarios *)
(* ===================================================================== *)

Module Scenario.

Import JS Carry.

Definition call (user : Z) (id : string) (body : JsVal) : Request :=
  {| req_user_id := user; req_params_id := id; req_body := body |}.

(** The body of the listing of the specification's scenario. *)
Definition traveler : JsVal :=
  JObj [("role", JStr "traveler"); ("from_city", JStr "Paris");
        ("to_city", JStr "Lagos")].

(** User 7 posts listing 1. *)
Definition listed : Db :=
  serve (host 1) empty [("09:00", POST_listings, call 7 "" traveler)].

(** User 9 asks for listing 1: request 1, pending. *)
Definition requested : Db :=
  serve (host 1) listed [("09:05", POST_listing_request, call 9 "1" JNull)].

(** The owner accepts request 1. *)
Definition accepted : Db :=
  serve (host 1) requested [("09:10", PATCH_request_accept, call 7 "1" JNull)].

(** The owner removes listing 1 before anyone asks for it. *)
Definition removed : Db :=
  serve (host 1) listed [("09:05", DELETE_listing, call 7 "1" JNull)].

(** The owner removes listing 1 while request 1 is pending. *)
Definition requested_then_removed : Db :=
  serve (host 1) requested [("09:10", DELETE_listing, call 7 "1" JNull)].

(** Request 1 withdrawn by its author, which no route of this module
    does: the status is set from outside. *)
Definition withdrawn : Db :=
  with_requests requested
    (SQLite.update (fun r => carry_requests.id r =? 1)
                   (set_request_status "cancelled") (requests requested)).

Definition airport (iata city name : SQLite.text) : Airports.airport :=
  {| Airports.iata := iata; Airports.icao := None; Airports.name := name;
     Airports.city := city; Airports.country := Some "United States";
     Airports.country_code := Some "US";
     Airports.lat := None; Airports.lon := None |}.

Definition SAN : Airports.airport :=
  airport (Some "SAN") (Some "San Diego") (Some "San Diego International Airport").

Definition JFK : Airports.airport :=
  airport (Some "JFK") (Some "New York") (Some "John F Kennedy International Airport").

(** An airfield without IATA code. *)
Definition Wisconsin_Rapids : Airports.airport :=
  airport None (Some "Wisconsin Rapids") (Some "Alexander Field").





(** A query of 49999 letters: its pattern [%q%] has 50001 bytes. *)
Definition long_query : string := Pos.iter (String "a"%char) ""%string 49999.

End Scenario.

(* ===================================================================== *)
(** ** The carry module: the routes that only read *)
(* ===================================================================== *)

Module CarryReads.

Import JS SQLite Carry.

Inductive Json : Type :=
  | Error (error : string)
  | OkItems (items : list listing.t)
  | OkDetails (item : listing.t) (requests_count : Z)
              (messages : list carry_messages.row)
              (avg_rating : JsNumber) (reviews_count : Z)
  | OkMessages (messages : list carry_messages.row).

Record Response : Type := { status : Z; json : Json }.

Definition fail (c : Z) (error : string) : Response :=
  {| status := c; json := Error error |}.

Definition reply (j : Json) : Response := {| status := 200; json := j |}.

(** [col LIKE ?] on a column that may hold NULL; in a WHERE clause a NULL
    result keeps the row out, as a false one does. *)
Definition likeText (col : text) (pattern : string) : bool :=
  match col with
  | Some s => LIKE s pattern
  | None => false
  end.

(** [col = ?] on a column that may hold NULL. *)
Definition eqText (col : text) (param : string) : bool :=
  match col with
  | Some s => (s =? param)%string
  | None => false
  end.

(** [ORDER BY created_at DESC, id DESC] *)
Definition newestFirst (a b : carry_listings.row) : bool :=
  match String.compare (carry_listings.created_at b) (carry_listings.created_at a) with
  | Lt => true
  | Eq => carry_listings.id b <=? carry_listings.id a
  | Gt => false
  end.

(** [ORDER BY created_at DESC] on messages *)
Definition latestFirst (a b : carry_messages.row) : bool :=
  String.leb (carry_messages.created_at b) (carry_messages.created_at a).

(** [ORDER BY created_at ASC] on messages *)
Definition oldestFirst (a b : carry_messages.row) : bool :=
  String.leb (carry_messages.created_at a) (carry_messages.created_at b).

(** [COALESCE(AVG(rating),0)]: the sum of the ratings divided, as a REAL,
    by their number. *)
Definition avgRating (rs : list carry_reviews.row) : JsNumber :=
  match rs with
  | [] => Fin 0
  | _ =>
      roundNumber
        (Qmake (fold_right Z.add 0 (map carry_reviews.rating rs))
               (Pos.of_nat (List.length rs)))
  end.

Section registerCarry.

Variable opts : Opts.

(** What the list route reads from [req.query]. *)
Record Filter : Type := {
  f_role : option string;
  f_q : string;
  f_from_country : string;
  f_to_country : string
}.

Definition filterOf (query : JsVal) : Completion Filter :=
  role <- clampRole (prop query "role");;
  q <- String_ (orElse (prop query "q") (JStr ""));;
  from_country <- String_ (orElse (prop query "from_country") (JStr ""));;
  to_country <- String_ (orElse (prop query "to_country") (JStr ""));;
  Return {| f_role := role;
            f_q := trim q;
            f_from_country := trim from_country;
            f_to_country := trim to_country |}.

(** The terms of the WHERE clause that stand before the LIKE group:
    [is_active=1] and, when a role is given, [role=?]. *)
Definition activeInRole (f : Filter) (r : carry_listings.row) : bool :=
  (carry_listings.is_active r =? 1)
  && match f_role f with
     | Some role => (carry_listings.role r =? role)%string
     | None => true
     end.

(** The WHERE clause of the list route. *)
Definition listed (f : Filter) (r : carry_listings.row) : bool :=
  activeInRole f r
  && (if (f_q f =? "")%string then true
      else
        let like := ("%" ++ f_q f ++ "%")%string in
        likeText (carry_listings.from_country r) like
        || likeText (carry_listings.from_city r) like
        || likeText (carry_listings.to_country r) like
        || likeText (carry_listings.to_city r) like
        || likeText (carry_listings.item_type r) like
        || likeText (carry_listings.description r) like)
  && (if (f_from_country f =? "")%string then true
      else eqText (carry_listings.from_country r) (f_from_country f))
  && (if (f_to_country f =? "")%string then true
      else eqText (carry_listings.to_country r) (f_to_country f)).

(** The statement fails on a pattern that is too long when LIKE is
    evaluated: the terms of the WHERE clause are tested from left to right
    up to the first that fails, so LIKE is reached on the rows that are
    active and in the role asked for. *)
Definition likeFails (f : Filter) (rows : list carry_listings.row) : bool :=
  negb (f_q f =? "")%string
  && tooComplex ("%" ++ f_q f ++ "%")
  && existsb (activeInRole f) rows.

(** GET /api/carry/listings, on [req.query] *)
Definition listListings (db : Db) (query : JsVal) : Response :=
  match filterOf query with
  | Throw => fail 500 "Failed to load"
  | Return f =>
      if likeFails f (listings db) then fail 500 "Failed to load" else
      let rows := LIMIT 200 (ORDER_BY newestFirst (all (listed f) (listings db))) in
      reply (OkItems (map (mapListing opts) rows))
  end.

(** GET /api/carry/listings/:id *)
Definition getListing (db : Db) (req : Request) : Response :=
  let id := toInt opts (req_params_id req) in
  if id =? 0 then fail 400 "Bad id" else
  match active_listing_by_id db id with
  | None => fail 404 "Not found"
  | Some row =>
      let reqCount :=
        Z.of_nat (List.length
                    (all (fun r => carry_requests.listing_id r =? id) (requests db))) in
      let msgs :=
        LIMIT 20 (ORDER_BY latestFirst
                    (all (fun m => carry_messages.listing_id m =? id) (messages db))) in
      let rated := all (fun r => carry_reviews.listing_id r =? id) (reviews db) in
      reply (OkDetails (mapListing opts row) reqCount msgs
                       (avgRating rated) (Z.of_nat (List.length rated)))
  end.

(** GET /api/carry/listings/:id/messages *)
Definition readMessages (db : Db) (req : Request) : Response :=
  let listingId := toInt opts (req_params_id req) in
  if listingId =? 0 then fail 400 "Bad id" else
  let rows :=
    LIMIT 200 (ORDER_BY oldestFirst
                 (all (fun m => carry_messages.listing_id m =? listingId)
                      (messages db))) in
  reply (OkMessages rows).

End registerCarry.

(** *** What the module stores

    The values the write routes put in the enumerated columns. *)

Definition storedListing (r : carry_listings.row) : bool :=
  ((carry_listings.role r =? "traveler")%string
   || (carry_listings.role r =? "sender")%string)
  && ((carry_listings.status r =? "open")%string
      || (carry_listings.status r =? "matched")%string)
  && ((carry_listings.is_active r =? 1) || (carry_listings.is_active r =? 0)).

Definition storedRequest (r : carry_requests.row) : bool :=
  (carry_requests.status r =? "pending")%string
  || (carry_requests.status r =? "accepted")%string
  || (carry_requests.status r =? "rejected")%string.

Definition storedReview (r : carry_reviews.row) : bool :=
  (1 <=? carry_reviews.rating r) && (carry_reviews.rating r <=? 5).

Definition stored (db : Db) : bool :=
  forallb storedListing (listings db)
  && forallb storedRequest (requests db)
  && forallb storedReview (reviews db).

End CarryReads.

(* ===================================================================== *)
(** ** The airports module: the substring test *)
(* ===================================================================== *)

Module AirportsMore.

Import JS SQLite.



End AirportsMore.
(* ===================================================================== *)
(** ** Properties *)
(* ===================================================================== *)

Import JS SQLite Carry.

(** *** Rows, keys and scans *)

Section Scans.

Context {A : Type}.
Variable key : A -> Z.

Lemma get_by_key_sound (t : list A) (i : Z) (x : A) :
  get (fun r => key r =? i) t = Some x -> key x = i /\ In x t.
Proof.
  unfold get. intros H. apply find_some in H. destruct H as [Hin Hk].
  apply Z.eqb_eq in Hk. auto.
Qed.

Lemma get_after_update (f : A -> A) (t : list A) (i j : Z) :
  (forall r, key (f r) = key r) ->
  get (fun r => key r =? i) (update (fun r => key r =? j) f t)
  = option_map (fun r => if key r =? j then f r else r)
               (get (fun r => key r =? i) t).
Proof.
  intros Hkey. unfold get, update.
  induction t as [|x t IH]; simpl; [reflexivity|].
  destruct (key x =? j) eqn:Hj.
  - rewrite Hkey. destruct (key x =? i); simpl; [now rewrite Hj | exact IH].
  - destruct (key x =? i); simpl; [now rewrite Hj | exact IH].
Qed.

Lemma keys_after_update (p : A -> bool) (f : A -> A) (t : list A) :
  (forall r, key (f r) = key r) ->
  map key (update p f t) = map key t.
Proof.
  intros Hkey. unfold update. rewrite map_map. apply map_ext.
  intros r. destruct (p r); auto.
Qed.

Lemma get_in_older_rows (p : A -> bool) (t t' : list A) (x : A) :
  get p t = Some x -> get p (t ++ t')%list = Some x.
Proof.
  unfold get. induction t as [|y t IH]; simpl; [discriminate|].
  destruct (p y); auto.
Qed.

Lemma get_the_new_row (p : A -> bool) (t : list A) (x : A) :
  (forall y, In y t -> p y = false) -> p x = true ->
  get p (t ++ [x])%list = Some x.
Proof.
  unfold get. intros Hold Hx. induction t as [|y t IH]; simpl.
  - now rewrite Hx.
  - rewrite (Hold y (or_introl eq_refl)). apply IH.
    intros z Hz. apply Hold. now right.
Qed.

Lemma get_none_no_row (p : A -> bool) (t : list A) :
  get p t = None -> forall y, In y t -> p y = false.
Proof.
  unfold get. intros H y Hy. exact (find_none p t H y Hy).
Qed.

End Scans.

Lemma nextId_above (ids : list Z) (i : Z) : In i ids -> i < nextId ids.
Proof.
  unfold nextId. induction ids as [|x ids IH]; cbn [fold_right In]; [tauto|].
  intros [->|Hin]; [lia|]. specialize (IH Hin). lia.
Qed.

Lemma nextId_positive (ids : list Z) : 0 < nextId ids.
Proof.
  unfold nextId. induction ids as [|x ids IH]; cbn [fold_right]; lia.
Qed.

Lemma nextId_not_a_key {A} (key : A -> Z) (t : list A) (y : A) :
  In y t -> (key y =? nextId (map key t)) = false.
Proof.
  intros Hy. apply Z.eqb_neq.
  pose proof (nextId_above (map key t) (key y) (in_map key t y Hy)). lia.
Qed.

(** *** Well-formedness, in propositional form *)

Lemma distinct_NoDup (l : list Z) : distinct l = true <-> NoDup l.
Proof.
  induction l as [|x l IH]; simpl.
  - split; [constructor | reflexivity].
  - rewrite andb_true_iff, negb_true_iff, IH. split.
    + intros [Hx Hl]. constructor; [|exact Hl].
      intros Hin. assert (existsb (Z.eqb x) l = true) as E.
      { apply existsb_exists. exists x. split; [exact Hin | apply Z.eqb_refl]. }
      congruence.
    + intros H. inversion H as [|? ? Hx Hl]; subst. split; [|exact Hl].
      destruct (existsb (Z.eqb x) l) eqn:E; [|reflexivity].
      apply existsb_exists in E. destruct E as [y [Hy Hxy]].
      apply Z.eqb_eq in Hxy. subst. contradiction.
Qed.

Lemma distinctPairs_NoDup (l : list (Z * Z)) :
  distinctPairs l = true <-> NoDup l.
Proof.
  induction l as [|x l IH]; simpl.
  - split; [constructor | reflexivity].
  - rewrite andb_true_iff, negb_true_iff, IH. split.
    + intros [Hx Hl]. constructor; [|exact Hl].
      intros Hin. assert (existsb (samePair x) l = true) as E.
      { apply existsb_exists. exists x. split; [exact Hin|].
        unfold samePair. now rewrite !Z.eqb_refl. }
      congruence.
    + intros H. inversion H as [|? ? Hx Hl]; subst. split; [|exact Hl].
      destruct (existsb (samePair x) l) eqn:E; [|reflexivity].
      apply existsb_exists in E. destruct E as [[a b] [Hy Hxy]].
      unfold samePair in Hxy. simpl in Hxy.
      apply andb_true_iff in Hxy. destruct Hxy as [H1 H2].
      apply Z.eqb_eq in H1, H2. destruct x as [c d]. simpl in *. subst.
      contradiction.
Qed.

Lemma positive_Forall (l : list Z) :
  forallb (Z.ltb 0) l = true <-> Forall (fun i => 0 < i) l.
Proof.
  rewrite forallb_forall, Forall_forall. split; intros H x Hx.
  - apply Z.ltb_lt. auto.
  - apply Z.ltb_lt. auto.
Qed.

Lemma wf_well_formed (db : Db) : wf db = true <-> well_formed db.
Proof.
  unfold wf, well_formed.
  rewrite !andb_true_iff, !positive_Forall, !distinct_NoDup, distinctPairs_NoDup.
  tauto.
Qed.

Lemma snoc_positive (l : list Z) (x : Z) :
  Forall (fun i => 0 < i) l -> 0 < x -> Forall (fun i => 0 < i) (l ++ [x]).
Proof.
  intros Hl Hx. apply Forall_app. split; [exact Hl | constructor; auto].
Qed.

Lemma snoc_NoDup {A} (l : list A) (x : A) :
  NoDup l -> ~ In x l -> NoDup (l ++ [x]).
Proof.
  intros Hl Hx. apply NoDup_app; [exact Hl | repeat constructor; simpl; tauto |].
  intros a Ha [<-|[]]. contradiction.
Qed.

Lemma nextId_not_in (ids : list Z) : ~ In (nextId ids) ids.
Proof.
  intros H. apply nextId_above in H. lia.
Qed.

Lemma listing_key_positive (db : Db) (i : Z) (l : carry_listings.row) :
  wf db = true -> listing_by_id db i = Some l -> 0 < i.
Proof.
  intros Hwf H. apply wf_well_formed in Hwf. destruct Hwf as [Hpos _].
  apply get_by_key_sound in H. destruct H as [<- Hin].
  rewrite Forall_forall in Hpos. apply Hpos. now apply in_map.
Qed.

Lemma request_key_positive (db : Db) (r : carry_requests.row) :
  wf db = true -> In r (requests db) -> 0 < carry_requests.id r.
Proof.
  intros Hwf Hin. apply wf_well_formed in Hwf. destruct Hwf as (_ & _ & Hpos & _).
  rewrite Forall_forall in Hpos. apply Hpos. now apply in_map.
Qed.

(** Distinct keys: the row a key finds is the only one with that key. *)
Lemma get_the_row_of_a_key {A} (key : A -> Z) (t : list A) (x : A) :
  NoDup (map key t) -> In x t ->
  get (fun r => key r =? key x) t = Some x.
Proof.
  unfold get. induction t as [|y t IH]; simpl; [tauto|].
  intros Hnd [->|Hin].
  - now rewrite Z.eqb_refl.
  - inversion Hnd as [|? ? Hy Ht]; subst.
    destruct (key y =? key x) eqn:E.
    + apply Z.eqb_eq in E. exfalso. apply Hy. rewrite E. now apply in_map.
    + now apply IH.
Qed.

Lemma request_of_the_pair (db : Db) (r : carry_requests.row) :
  wf db = true -> In r (requests db) ->
  request_of db (carry_requests.listing_id r) (carry_requests.requester_id r)
  = Some r.
Proof.
  intros Hwf. apply wf_well_formed in Hwf. destruct Hwf as (_ & _ & _ & _ & Hnd).
  unfold request_of, get. revert Hnd.
  induction (requests db) as [|y t IH]; simpl; [tauto|].
  intros Hnd [->|Hin].
  - now rewrite !Z.eqb_refl.
  - inversion Hnd as [|? ? Hy Ht]; subst.
    destruct ((carry_requests.listing_id y =? carry_requests.listing_id r)
              && (carry_requests.requester_id y =? carry_requests.requester_id r))
      eqn:E.
    + apply andb_true_iff in E. destruct E as [E1 E2].
      apply Z.eqb_eq in E1, E2. exfalso. apply Hy.
      replace (pairOf y) with (pairOf r) by (unfold pairOf; congruence).
      now apply in_map.
    + now apply IH.
Qed.

(** *** The handlers keep the database well formed *)

Lemma well_formed_same_keys (db db' : Db) :
  map carry_listings.id (listings db') = map carry_listings.id (listings db) ->
  map carry_requests.id (requests db') = map carry_requests.id (requests db) ->
  map pairOf (requests db') = map pairOf (requests db) ->
  wf db = true -> wf db' = true.
Proof.
  unfold wf. intros -> -> ->. auto.
Qed.

Lemma update_listings_wf (db : Db) (p : carry_listings.row -> bool)
      (f : carry_listings.row -> carry_listings.row) :
  (forall r, carry_listings.id (f r) = carry_listings.id r) ->
  wf db = true -> wf (with_listings db (update p f (listings db))) = true.
Proof.
  intros Hf. apply well_formed_same_keys; simpl; auto.
  now apply keys_after_update.
Qed.

Lemma update_requests_wf (db : Db) (p : carry_requests.row -> bool) (st : string) :
  wf db = true ->
  wf (with_requests db (update p (set_request_status st) (requests db))) = true.
Proof.
  apply well_formed_same_keys; simpl; auto.
  - now apply keys_after_update.
  - unfold update. rewrite map_map. apply map_ext. intros r. now destruct (p r).
Qed.

Lemma insert_request_wf (db : Db) (l u : Z) (now : string) :
  wf db = true ->
  (forall y, In y (requests db) ->
             (carry_requests.listing_id y =? l)
             && (carry_requests.requester_id y =? u) = false) ->
  wf (with_requests db
        (requests db ++
         [{| carry_requests.id := nextId (map carry_requests.id (requests db));
             carry_requests.listing_id := l;
             carry_requests.requester_id := u;
             carry_requests.status := "pending";
             carry_requests.created_at := now |}])) = true.
Proof.
  intros Hwf Hnew. apply wf_well_formed. apply wf_well_formed in Hwf.
  destruct Hwf as (H1 & H2 & H3 & H4 & H5).
  unfold well_formed; simpl. rewrite !map_app; simpl.
  repeat split; auto.
  - apply snoc_positive; [exact H3 | apply nextId_positive].
  - apply snoc_NoDup; [exact H4 | apply nextId_not_in].
  - apply snoc_NoDup; [exact H5|].
    intros Hin. apply in_map_iff in Hin. destruct Hin as [y [Hy Hin]].
    specialize (Hnew y Hin). unfold pairOf in Hy. simpl in Hy.
    injection Hy as E1 E2. rewrite E1, E2, !Z.eqb_refl in Hnew. discriminate.
Qed.

(** *** The outcomes of the handlers that convert their input

    A handler that converts body fields either refuses (the database is the
    one it was given) or writes one row. *)

Lemma createListing_cases (opts : Opts) (now : string) (db : Db) (req : Request) :
  (exists c e, createListing opts now db req = (db, fail c e))
  \/ (exists row,
        createListing opts now db req
        = (with_listings db (listings db ++ [row])%list,
           reply (OkItem (mapListing opts row)))
        /\ carry_listings.id row = nextId (map carry_listings.id (listings db))
        /\ clampRole (prop (req_body req) "role")
           = Return (Some (carry_listings.role row))
        /\ carry_listings.status row = "open"%string
        /\ carry_listings.is_active row = 1).
Proof.
  unfold createListing, catch.
  destruct (clampRole _) as [[role|]|]; cbn [bind]; [| left; eauto | left; eauto].
  destruct (numberOrNull _ "available_weight") as [aw|]; cbn [bind];
    [| left; eauto].
  destruct (numberOrNull _ "reward_amount") as [ra|]; cbn [bind];
    [| left; eauto].
  right. eexists. unfold listing_by_id, with_listings. cbn [listings].
  rewrite get_the_new_row.
  - split; [reflexivity|]. repeat split.
  - intros y Hy. now apply nextId_not_a_key.
  - apply Z.eqb_refl.
Qed.

Lemma updateListing_cases (opts : Opts) (now : string) (db : Db) (req : Request) :
  (exists c e, updateListing opts now db req = (db, fail c e))
  \/ (exists l fields,
        listing_by_id db (toInt opts (req_params_id req)) = Some l
        /\ updateListing opts now db req
           = (with_listings db
                (update (fun r => carry_listings.id r =? toInt opts (req_params_id req))
                        (patch_listing fields now) (listings db)),
              reply (OkItem (mapListing opts (patch_listing fields now l))))).
Proof.
  unfold updateListing, catch.
  destruct (toInt opts (req_params_id req) =? 0); [left; eauto|].
  destruct (listing_by_id db (toInt opts (req_params_id req))) as [l|] eqn:Hl;
    [| left; eauto].
  destruct (negb _); [left; eauto|].
  destruct (numberOrNull _ "available_weight") as [aw|]; cbn [bind];
    [| left; eauto].
  destruct (numberOrNull _ "reward_amount") as [ra|]; cbn [bind];
    [| left; eauto].
  right. exists l. eexists. split; [reflexivity|].
  unfold listing_by_id, with_listings in *. cbn [listings].
  rewrite (get_after_update carry_listings.id) by reflexivity.
  rewrite Hl. cbn [option_map].
  apply (get_by_key_sound carry_listings.id) in Hl. destruct Hl as [Hk _].
  rewrite Hk, Z.eqb_refl. reflexivity.
Qed.

Lemma postReview_cases (opts : Opts) (now : string) (db : Db) (req : Request) :
  (exists c e, postReview opts now db req = (db, fail c e))
  \/ (exists row,
        postReview opts now db req
        = (with_reviews db (reviews db ++ [row])%list, reply Ok)
        /\ 1 <= carry_reviews.rating row <= 5).
Proof.
  unfold postReview, catch, clampRating.
  destruct (toInt opts (req_params_id req) =? 0); [left; eauto|].
  destruct (Number (nullish _ _)) as [[]|]; cbn [bind]; try (left; eauto; fail).
  destruct (_ =? 0); [left; eauto|].
  destruct (listing_by_id db _); [| left; eauto].
  destruct (Number (orElse _ _)) as [[]|]; cbn [bind]; try (left; eauto; fail);
    right; eexists; (split; [reflexivity|]); cbn [carry_reviews.rating]; lia.
Qed.

Theorem handle_keeps_wf (opts : Opts) (now : string) (route : Route)
        (db : Db) (req : Request) :
  wf db = true -> wf (fst (handle opts now route db req)) = true.
Proof.
  intros Hwf. destruct route; simpl.
  - (* createListing *)
    destruct (createListing_cases opts now db req)
      as [(c & e & ->)|(row & -> & Hid & _)]; [exact Hwf|].
    apply wf_well_formed. apply wf_well_formed in Hwf.
    destruct Hwf as (H1 & H2 & H3 & H4 & H5).
    unfold well_formed; simpl. rewrite !map_app; simpl. rewrite Hid.
    repeat split; auto.
    + apply snoc_positive; [exact H1 | apply nextId_positive].
    + apply snoc_NoDup; [exact H2 | apply nextId_not_in].
  - (* updateListing *)
    destruct (updateListing_cases opts now db req)
      as [(c & e & ->)|(l & fields & _ & ->)]; [exact Hwf|].
    now apply update_listings_wf.
  - (* deleteListing *)
    unfold deleteListing.
    destruct (toInt opts (req_params_id req) =? 0); [exact Hwf|].
    destruct (listing_by_id db _); [|exact Hwf].
    destruct (negb _); [exact Hwf|].
    simpl. now apply update_listings_wf.
  - (* createRequest *)
    unfold createRequest.
    destruct (toInt opts (req_params_id req) =? 0); [exact Hwf|].
    destruct (active_listing_by_id db _); [|exact Hwf].
    destruct (_ =? req_user_id req); [exact Hwf|].
    destruct (negb (_ =? "open")%string); [exact Hwf|].
    destruct (request_of db _ _) as [e|] eqn:He.
    + destruct (negb (carry_requests.id e =? 0) && _); [exact Hwf|].
      destruct (carry_requests.id e =? 0) eqn:E0; simpl.
      * apply find_some in He. destruct He as [Hin _].
        pose proof (request_key_positive db e Hwf Hin). apply Z.eqb_eq in E0. lia.
      * now apply update_requests_wf.
    + simpl. apply insert_request_wf; [exact Hwf|].
      exact (get_none_no_row _ _ He).
  - (* acceptRequest *)
    unfold acceptRequest.
    destruct (toInt opts (req_params_id req) =? 0); [exact Hwf|].
    destruct (request_by_id db _); [|exact Hwf].
    destruct (listing_by_id db _); [|exact Hwf].
    destruct (negb _); [exact Hwf|].
    simpl.
    apply (update_listings_wf
             (with_requests db (update _ (set_request_status "accepted") (requests db)))).
    + reflexivity.
    + now apply update_requests_wf.
  - (* rejectRequest *)
    unfold rejectRequest.
    destruct (toInt opts (req_params_id req) =? 0); [exact Hwf|].
    destruct (request_by_id db _); [|exact Hwf].
    destruct (listing_by_id db _); [|exact Hwf].
    destruct (negb _); [exact Hwf|].
    simpl. now apply update_requests_wf.
  - (* postMessage *)
    unfold postMessage.
    destruct (toInt opts (req_params_id req) =? 0); [exact Hwf|].
    destruct (_ =? "")%string; exact Hwf.
  - (* postReview *)
    destruct (postReview_cases opts now db req)
      as [(c & e & ->)|(row & -> & _)]; exact Hwf.
Qed.

Lemma empty_wf : wf empty = true.
Proof. reflexivity. Qed.

Theorem serve_keeps_wf (opts : Opts) (calls : list (string * Route * Request))
        (db : Db) :
  wf db = true -> wf (serve opts db calls) = true.
Proof.
  revert db. induction calls as [|[[now route] req] rest IH]; simpl; intros db Hwf.
  - exact Hwf.
  - apply IH. now apply handle_keeps_wf.
Qed.

(* ===================================================================== *)
(** *** Messages *)
(* ===================================================================== *)

(** C10 -- Posting a message needs only a path id that coerces to a positive
    integer and a text that is not empty once trimmed.  The listings table
    is never read: whatever it holds (no listing with that id, a removed
    one), the handler answers 200 with the stored row and the messages
    table gains exactly that row, attached to the id. *)
Theorem post_message_needs_no_listing
        (opts : Opts) (now : string) (db : Db) (req : Request) :
  let listingId := toInt opts (req_params_id req) in
  let text := safeTrim opts (prop (req_body req) "message") in
  0 < listingId ->
  (text =? "")%string = false ->
  let row := {| carry_messages.id := nextId (map carry_messages.id (messages db));
                carry_messages.listing_id := listingId;
                carry_messages.sender_id := req_user_id req;
                carry_messages.message := text;
                carry_messages.created_at := now |} in
  postMessage opts now db req
  = ({| listings := listings db; requests := requests db;
        messages := messages db ++ [row]; reviews := reviews db |},
     {| status := 200; json := OkMessage (Some row) |}).
Proof.
  intros listingId text Hid Htext row. unfold postMessage.
  fold listingId. fold text.
  replace (listingId =? 0) with false by (symmetry; apply Z.eqb_neq; lia).
  rewrite Htext. unfold with_messages, reply, message_by_id. cbn [messages].
  fold row. f_equal. f_equal. f_equal.
  apply get_the_new_row.
  - intros y Hy. now apply nextId_not_a_key.
  - apply Z.eqb_refl.
Qed.

Lemma post_message_needs_no_listing_witness :
  listing_by_id empty 42 = None
  /\ postMessage (host 1) "10:00" empty
       (Scenario.call 9 "42" (JObj [("message", JStr "  hello ")]))
     = ({| listings := []; requests := [];
           messages := [{| carry_messages.id := 1;
                           carry_messages.listing_id := 42;
                           carry_messages.sender_id := 9;
                           carry_messages.message := "hello";
                           carry_messages.created_at := "10:00" |}];
           reviews := [] |},
        {| status := 200;
           json := OkMessage (Some {| carry_messages.id := 1;
                                      carry_messages.listing_id := 42;
                                      carry_messages.sender_id := 9;
                                      carry_messages.message := "hello";
                                      carry_messages.created_at := "10:00" |}) |}).
Proof.
  split; [reflexivity|].
  apply (post_message_needs_no_listing (host 1) "10:00" empty
           (Scenario.call 9 "42" (JObj [("message", JStr "  hello ")]))).
  - vm_compute. reflexivity.
  - vm_compute. reflexivity.
Defined.

(* ===================================================================== *)
(** *** Accepting a match request *)
(* ===================================================================== *)

Lemma canEdit_granted (opts : Opts) (req : Request) (owner : Z) :
  req_user_id req <> 0 ->
  req_user_id req = owner \/ isAdminReq opts req = true ->
  canEdit opts (req_user_id req) owner req = true.
Proof.
  intros Hid Hwho. unfold canEdit.
  replace (req_user_id req =? 0) with false by (symmetry; now apply Z.eqb_neq).
  destruct (req_user_id req =? owner) eqn:E; [reflexivity|].
  destruct Hwho as [Heq|H]; [|exact H].
  rewrite Heq, Z.eqb_refl in E. discriminate.
Qed.

Lemma canEdit_refused (opts : Opts) (req : Request) (owner : Z) :
  req_user_id req <> owner -> isAdminReq opts req = false ->
  canEdit opts (req_user_id req) owner req = false.
Proof.
  intros Hid Hadm. unfold canEdit.
  destruct (req_user_id req =? 0); [reflexivity|].
  replace (req_user_id req =? owner) with false
    by (symmetry; now apply Z.eqb_neq).
  exact Hadm.
Qed.

(** C1, as stated, fails: the administrator of this host is the account
    with user id 0.  Request 1 and its listing exist and the caller is an
    admin, yet accepting is refused with 403 and neither row changes. *)
Lemma accept_by_admin_without_user_id_is_refused :
  let req := Scenario.call 0 "1" JNull in
  let out := acceptRequest (host 0) "09:10" Scenario.requested req in
  option_map carry_requests.status (request_by_id Scenario.requested 1)
    = Some "pending"
  /\ option_map carry_listings.status (listing_by_id Scenario.requested 1)
    = Some "open"
  /\ isAdminReq (host 0) req = true
  /\ status (snd out) = 403
  /\ option_map carry_requests.status (request_by_id (fst out) 1) <> Some "accepted"
  /\ option_map carry_listings.status (listing_by_id (fst out) 1) <> Some "matched".
Proof.
  vm_compute. repeat split; try reflexivity; discriminate.
Qed.

(** C1 (amended) -- For every accept operation on an existing match request
    whose parent listing exists and whose caller has a user id (not 0, not
    missing) and is the listing owner or an admin: the answer is 200, the
    request reads back with status 'accepted' and the parent listing with
    status 'matched', both in the database the handler returns. *)
Theorem accept_sets_accepted_and_matched
        (opts : Opts) (now : string) (db : Db) (req : Request)
        (r : carry_requests.row) (l : carry_listings.row) :
  let requestId := toInt opts (req_params_id req) in
  wf db = true ->
  request_by_id db requestId = Some r ->
  listing_by_id db (carry_requests.listing_id r) = Some l ->
  req_user_id req <> 0 ->
  req_user_id req = carry_listings.user_id l \/ isAdminReq opts req = true ->
  let db' := fst (acceptRequest opts now db req) in
  snd (acceptRequest opts now db req) = {| status := 200; json := Ok |}
  /\ request_by_id db' requestId = Some (set_request_status "accepted" r)
  /\ carry_requests.status (set_request_status "accepted" r) = "accepted"
  /\ listing_by_id db' (carry_requests.listing_id r)
     = Some (set_listing_status "matched" now l)
  /\ carry_listings.status (set_listing_status "matched" now l) = "matched".
Proof.
  intros requestId Hwf Hr Hl Hid Hwho db'. subst db'.
  assert (requestId <> 0) as Hnz.
  { apply get_by_key_sound in Hr. destruct Hr as [Hk Hin].
    pose proof (request_key_positive db r Hwf Hin). lia. }
  assert (carry_listings.id l = carry_requests.listing_id r) as Hlid.
  { apply get_by_key_sound in Hl. tauto. }
  assert (carry_requests.id r = requestId) as Hrid.
  { apply get_by_key_sound in Hr. tauto. }
  unfold acceptRequest. fold requestId.
  replace (requestId =? 0) with false by (symmetry; now apply Z.eqb_neq).
  rewrite Hr, Hl, (canEdit_granted opts req _ Hid Hwho). cbn [negb fst snd].
  repeat split.
  - unfold request_by_id, with_listings, with_requests. cbn [requests].
    rewrite (get_after_update carry_requests.id) by reflexivity.
    fold (request_by_id db requestId). rewrite Hr. cbn [option_map].
    now rewrite Hrid, Z.eqb_refl.
  - unfold listing_by_id, with_listings, with_requests. cbn [listings].
    rewrite (get_after_update carry_listings.id) by reflexivity.
    rewrite Hlid. fold (listing_by_id db (carry_requests.listing_id r)).
    rewrite Hl. cbn [option_map]. now rewrite Hlid, Z.eqb_refl.
Qed.

Lemma accept_sets_accepted_and_matched_witness :
  let req := Scenario.call 7 "1" JNull in
  let out := acceptRequest (host 1) "09:10" Scenario.requested req in
  wf Scenario.requested = true
  /\ option_map carry_requests.status (request_by_id Scenario.requested 1)
     = Some "pending"
  /\ option_map carry_listings.user_id (listing_by_id Scenario.requested 1)
     = Some (req_user_id req)
  /\ status (snd out) = 200
  /\ option_map carry_requests.status (request_by_id (fst out) 1)
     = Some "accepted"
  /\ option_map carry_listings.status (listing_by_id (fst out) 1)
     = Some "matched".
Proof.
  intros req out.
  split; [reflexivity|]. split; [reflexivity|]. split; [reflexivity|].
  destruct (accept_sets_accepted_and_matched (host 1) "09:10" Scenario.requested
              req _ _ eq_refl eq_refl eq_refl
              ltac:(vm_compute; discriminate) ltac:(left; reflexivity))
    as (Hres & Hr & Hst & Hl & Hlst).
  subst out. split; [exact (f_equal status Hres)|].
  split.
  - exact (f_equal (option_map carry_requests.status) Hr).
  - exact (f_equal (option_map carry_listings.status) Hl).
Defined.

(* ===================================================================== *)
(** *** Updating and removing a listing *)
(* ===================================================================== *)

(** C3, as stated, fails: listing 1 has been removed ([is_active] is 0),
    and its owner still updates it and removes it again with a 200; no
    not-found error is raised. *)
Lemma removed_listing_is_still_found :
  let patch := Scenario.call 7 "1" (JObj [("from_city", JStr "Lyon")]) in
  option_map carry_listings.is_active (listing_by_id Scenario.removed 1) = Some 0
  /\ status (snd (updateListing (host 1) "09:30" Scenario.removed patch)) = 200
  /\ status (snd (updateListing (host 1) "09:30" Scenario.removed patch)) <> 404
  /\ status (snd (deleteListing (host 1) "09:30" Scenario.removed patch)) = 200
  /\ status (snd (deleteListing (host 1) "09:30" Scenario.removed patch)) <> 404.
Proof.
  vm_compute. repeat split; try reflexivity; discriminate.
Qed.

(** C3 (amended) -- For every update (PATCH) and soft-delete (DELETE) of a
    listing under a path id that is not 0: if no row has that id the
    operation fails with 404 "Not found", and if the row exists, active or
    not, and the caller is neither its owner nor an admin, it fails with 403
    "Forbidden"; the database is left as it was.  An inactive listing is
    not absent: for a caller with a user id who is its owner or an admin the
    delete answers 200, and the update answers 200 when [available_weight]
    and [reward_amount] convert to numbers, and 500 "Failed to update",
    leaving the database as it was, when a conversion throws. *)
Theorem update_and_delete_refusals
        (opts : Opts) (now : string) (db : Db) (req : Request) :
  let id := toInt opts (req_params_id req) in
  let body := req_body req in
  id <> 0 ->
  (listing_by_id db id = None ->
     updateListing opts now db req = (db, {| status := 404; json := Error "Not found" |})
     /\ deleteListing opts now db req = (db, {| status := 404; json := Error "Not found" |}))
  /\ (forall l, listing_by_id db id = Some l ->
        req_user_id req <> carry_listings.user_id l ->
        isAdminReq opts req = false ->
        updateListing opts now db req = (db, {| status := 403; json := Error "Forbidden" |})
        /\ deleteListing opts now db req = (db, {| status := 403; json := Error "Forbidden" |}))
  /\ (forall l, listing_by_id db id = Some l ->
        req_user_id req <> 0 ->
        req_user_id req = carry_listings.user_id l \/ isAdminReq opts req = true ->
        status (snd (deleteListing opts now db req)) = 200
        /\ (forall available_weight reward_amount,
              numberOrNull body "available_weight" = Return available_weight ->
              numberOrNull body "reward_amount" = Return reward_amount ->
              status (snd (updateListing opts now db req)) = 200)
        /\ (numberOrNull body "available_weight" = Throw
            \/ numberOrNull body "reward_amount" = Throw ->
            updateListing opts now db req
            = (db, {| status := 500; json := Error "Failed to update" |}))).
Proof.
  intros id body Hid.
  assert ((id =? 0) = false) as Hz by now apply Z.eqb_neq.
  unfold updateListing, deleteListing. fold id. fold body. rewrite Hz.
  split; [|split].
  - intros ->. split; reflexivity.
  - intros l -> Hown Hadm. rewrite (canEdit_refused opts req _ Hown Hadm).
    split; reflexivity.
  - intros l Hl Hnz Hwho. rewrite Hl, (canEdit_granted opts req _ Hnz Hwho).
    cbn [negb]. split; [reflexivity|]. split.
    + intros aw ra -> ->. cbn [bind catch].
      match goal with
      | |- context [listing_by_id ?d id] =>
          assert (exists u, listing_by_id d id = Some u) as [u Hu]
      end.
      { unfold listing_by_id, with_listings. cbn [listings].
        rewrite (get_after_update carry_listings.id) by reflexivity.
        fold (listing_by_id db id). rewrite Hl. cbn [option_map]. eauto. }
      rewrite Hu. reflexivity.
    + intros [Haw|Hra].
      * rewrite Haw. reflexivity.
      * destruct (numberOrNull body "available_weight"); cbn [bind catch];
          [rewrite Hra|]; reflexivity.
Qed.

Lemma update_and_delete_refusals_witness :
  let stranger := Scenario.call 9 "1" (JObj [("from_city", JStr "")]) in
  let nowhere := Scenario.call 7 "5" JNull in
  let patch := Scenario.call 7 "1" (JObj [("from_city", JStr "Lyon")]) in
  let unweighable :=
    Scenario.call 7 "1"
      (JObj [("available_weight", JObj [("toString", JNum (Fin 1))])]) in
  listing_by_id Scenario.listed 5 = None
  /\ updateListing (host 1) "09:30" Scenario.listed nowhere
     = (Scenario.listed, {| status := 404; json := Error "Not found" |})
  /\ updateListing (host 1) "09:30" Scenario.listed stranger
     = (Scenario.listed, {| status := 403; json := Error "Forbidden" |})
  /\ status (snd (deleteListing (host 1) "09:30" Scenario.removed patch)) = 200
  /\ status (snd (updateListing (host 1) "09:30" Scenario.removed patch)) = 200
  /\ updateListing (host 1) "09:30" Scenario.removed unweighable
     = (Scenario.removed, {| status := 500; json := Error "Failed to update" |}).
Proof.
  intros stranger nowhere patch unweighable. split; [reflexivity|].
  split; [|split; [|split; [|split]]].
  - apply (update_and_delete_refusals (host 1) "09:30" Scenario.listed nowhere
             ltac:(vm_compute; discriminate)).
    reflexivity.
  - apply (proj1 (proj2 (update_and_delete_refusals (host 1) "09:30"
                           Scenario.listed stranger
                           ltac:(vm_compute; discriminate)))
             _ eq_refl ltac:(vm_compute; discriminate) eq_refl).
  - apply (proj2 (proj2 (update_and_delete_refusals (host 1) "09:30"
                           Scenario.removed patch
                           ltac:(vm_compute; discriminate)))
             _ eq_refl ltac:(vm_compute; discriminate)
             ltac:(left; reflexivity)).
  - apply (proj1 (proj2 (proj2 (proj2 (update_and_delete_refusals (host 1) "09:30"
                           Scenario.removed patch
                           ltac:(vm_compute; discriminate)))
             _ eq_refl ltac:(vm_compute; discriminate)
             ltac:(left; reflexivity))) None None eq_refl eq_refl).
  - apply (proj2 (proj2 (proj2 (proj2 (update_and_delete_refusals (host 1) "09:30"
                           Scenario.removed unweighable
                           ltac:(vm_compute; discriminate)))
             _ eq_refl ltac:(vm_compute; discriminate)
             ltac:(left; reflexivity)))).
    left. reflexivity.
Defined.

(* ===================================================================== *)
(** *** Creating a match request *)
(* ===================================================================== *)

Lemma active_listing_found (db : Db) (i : Z) (l : carry_listings.row) :
  listing_by_id db i = Some l -> carry_listings.is_active l = 1 ->
  active_listing_by_id db i = Some l.
Proof.
  unfold listing_by_id, active_listing_by_id, get.
  induction (listings db) as [|y t IH]; simpl; [discriminate|].
  destruct (carry_listings.id y =? i); simpl.
  - intros [= ->] ->. reflexivity.
  - exact IH.
Qed.

(** C4, as stated, fails: the owner of the removed listing 1 asks for it and
    gets 404 "Not found", not a 400. *)
Lemma own_removed_listing_is_not_found :
  let req := Scenario.call 7 "1" JNull in
  option_map carry_listings.user_id (listing_by_id Scenario.removed 1)
    = Some (req_user_id req)
  /\ snd (createRequest (host 1) "09:30" Scenario.removed req)
     = {| status := 404; json := Error "Not found" |}
  /\ status (snd (createRequest (host 1) "09:30" Scenario.removed req)) <> 400.
Proof.
  vm_compute. repeat split; try reflexivity; discriminate.
Qed.

(** C4 (amended) -- For every active listing ([is_active] = 1) and every
    caller who owns it, creating a match request against that listing fails
    with a 400 validation error, regardless of the listing's status, and
    stores nothing. *)
Theorem own_listing_request_refused
        (opts : Opts) (now : string) (db : Db) (req : Request)
        (l : carry_listings.row) :
  wf db = true ->
  listing_by_id db (toInt opts (req_params_id req)) = Some l ->
  carry_listings.is_active l = 1 ->
  carry_listings.user_id l = req_user_id req ->
  createRequest opts now db req
  = (db, {| status := 400; json := Error "You can't request your own listing" |}).
Proof.
  intros Hwf Hl Hact Hown. unfold createRequest.
  pose proof (listing_key_positive db _ l Hwf Hl) as Hpos.
  replace (toInt opts (req_params_id req) =? 0) with false
    by (symmetry; apply Z.eqb_neq; lia).
  rewrite (active_listing_found db _ l Hl Hact), Hown, Z.eqb_refl.
  reflexivity.
Qed.

Lemma own_listing_request_refused_witness :
  let req := Scenario.call 7 "1" JNull in
  option_map carry_listings.status (listing_by_id Scenario.accepted 1)
    = Some "matched"
  /\ createRequest (host 1) "09:30" Scenario.accepted req
     = (Scenario.accepted,
        {| status := 400; json := Error "You can't request your own listing" |}).
Proof.
  intros req. split; [reflexivity|].
  exact (own_listing_request_refused (host 1) "09:30" Scenario.accepted req _
           eq_refl eq_refl eq_refl eq_refl).
Defined.

(** C5, as stated, fails: user 9 has the pending request 1 on listing 1,
    the listing is then removed, and a second create by user 9 fails with
    404 "Not found", not with the duplicate-request 400. *)
Lemma second_request_on_removed_listing_is_not_found :
  let req := Scenario.call 9 "1" JNull in
  option_map carry_requests.status
    (request_of Scenario.requested_then_removed 1 (req_user_id req))
    = Some "pending"
  /\ snd (createRequest (host 1) "09:30" Scenario.requested_then_removed req)
     = {| status := 404; json := Error "Not found" |}
  /\ status (snd (createRequest (host 1) "09:30" Scenario.requested_then_removed req))
     <> 400.
Proof.
  vm_compute. repeat split; try reflexivity; discriminate.
Qed.

(** C5 (amended) -- For every (listing, requester) pair with an existing
    match request, the listing being active, open and not the requester's
    own: if that request's status is not 'cancelled', a second create by
    the same requester fails with 400 "Already requested" and stores
    nothing; if it is 'cancelled', the create reuses the existing row,
    resets its status to 'pending' and returns the same request id, and the
    table has the same rows as before (no row is inserted). *)
Theorem second_request_refused_or_reused
        (opts : Opts) (now : string) (db : Db) (req : Request)
        (l : carry_listings.row) (r : carry_requests.row) :
  let listingId := toInt opts (req_params_id req) in
  wf db = true ->
  listing_by_id db listingId = Some l ->
  carry_listings.is_active l = 1 ->
  carry_listings.user_id l <> req_user_id req ->
  carry_listings.status l = "open" ->
  In r (requests db) ->
  carry_requests.listing_id r = listingId ->
  carry_requests.requester_id r = req_user_id req ->
  let out := createRequest opts now db req in
  ((carry_requests.status r =? "cancelled")%string = false ->
     out = (db, {| status := 400; json := Error "Already requested" |}))
  /\ ((carry_requests.status r =? "cancelled")%string = true ->
        snd out = {| status := 200;
                     json := OkRequest (carry_requests.id r) "pending" |}
        /\ request_by_id (fst out) (carry_requests.id r)
           = Some (set_request_status "pending" r)
        /\ map carry_requests.id (requests (fst out))
           = map carry_requests.id (requests db)
        /\ listings (fst out) = listings db).
Proof.
  intros listingId Hwf Hl Hact Hown Hopen Hin Hlid Hreq out. subst out.
  pose proof (listing_key_positive db _ l Hwf Hl) as Hpos.
  pose proof (request_key_positive db r Hwf Hin) as Hrpos.
  pose proof (request_of_the_pair db r Hwf Hin) as Hex.
  rewrite Hlid, Hreq in Hex.
  unfold createRequest. fold listingId.
  replace (listingId =? 0) with false by (symmetry; apply Z.eqb_neq; lia).
  rewrite (active_listing_found db _ l Hl Hact).
  replace (carry_listings.user_id l =? req_user_id req) with false
    by (symmetry; now apply Z.eqb_neq).
  rewrite Hopen, Hex. cbn [String.eqb Ascii.eqb Bool.eqb negb].
  replace (carry_requests.id r =? 0) with false
    by (symmetry; apply Z.eqb_neq; lia).
  cbn [negb andb]. split.
  - intros ->. reflexivity.
  - intros ->. cbn [negb fst snd]. repeat split.
    + unfold request_by_id, with_requests. cbn [requests].
      rewrite (get_after_update carry_requests.id) by reflexivity.
      apply wf_well_formed in Hwf. destruct Hwf as (_ & _ & _ & Hnd & _).
      rewrite (get_the_row_of_a_key carry_requests.id _ r Hnd Hin).
      cbn [option_map]. now rewrite Z.eqb_refl.
    + unfold with_requests. cbn [requests].
      now apply keys_after_update.
Qed.

Lemma second_request_refused_or_reused_witness :
  let req := Scenario.call 9 "1" JNull in
  createRequest (host 1) "09:30" Scenario.requested req
  = (Scenario.requested, {| status := 400; json := Error "Already requested" |})
  /\ snd (createRequest (host 1) "09:30" Scenario.withdrawn req)
     = {| status := 200; json := OkRequest 1 "pending" |}
  /\ option_map carry_requests.status
       (request_by_id (fst (createRequest (host 1) "09:30" Scenario.withdrawn req)) 1)
     = Some "pending"
  /\ List.length (requests (fst (createRequest (host 1) "09:30" Scenario.withdrawn req)))
     = List.length (requests Scenario.withdrawn).
Proof.
  intros req. split; [|split; [|split]].
  - apply (second_request_refused_or_reused (host 1) "09:30" Scenario.requested
             req _ _ eq_refl eq_refl eq_refl ltac:(vm_compute; discriminate)
             eq_refl (or_introl eq_refl) eq_refl eq_refl).
    reflexivity.
  - apply (second_request_refused_or_reused (host 1) "09:30" Scenario.withdrawn
             req _ _ eq_refl eq_refl eq_refl ltac:(vm_compute; discriminate)
             eq_refl (or_introl eq_refl) eq_refl eq_refl).
    reflexivity.
  - reflexivity.
  - reflexivity.
Defined.

(* ===================================================================== *)
(** *** The life of a match request *)
(* ===================================================================== *)






(* ===================================================================== *)
(** *** Reviews *)
(* ===================================================================== *)

(** [Math.round] gives the integer nearest to its argument, the upper one
    at a tie. *)
Lemma Math_round_nearest (q : Q) :
  (inject_Z (Math_round q) - (1 # 2) <= q)%Q
  /\ (q < inject_Z (Math_round q) + (1 # 2))%Q.
Proof.
  unfold Math_round.
  pose proof (Qfloor_le (q + (1 # 2))) as Hle.
  pose proof (Qlt_floor (q + (1 # 2))) as Hlt.
  rewrite inject_Z_plus in Hlt. split.
  - apply Qplus_le_l with (z := (1 # 2)%Q).
    setoid_replace (inject_Z (Qfloor (q + (1 # 2))) - (1 # 2) + (1 # 2))%Q
      with (inject_Z (Qfloor (q + (1 # 2)))) by ring.
    exact Hle.
  - apply Qplus_lt_l with (z := (1 # 2)%Q).
    setoid_replace (inject_Z (Qfloor (q + (1 # 2))) + (1 # 2) + (1 # 2))%Q
      with (inject_Z (Qfloor (q + (1 # 2))) + inject_Z 1)%Q by ring.
    exact Hlt.
Qed.

(** C6, as stated, fails twice.  A rating of 3.7, sent as a number or as
    the text "3.7", is stored as 4, not as 3.  And a rating that is not a
    number is not always refused with a 400: the empty text has the numeric
    value 0 and is stored as 1, and for an object with a property
    [toString] the conversion throws and the answer is 500 "Failed". *)
Lemma rating_3_7_is_stored_as_4 :
  let as_number := Scenario.call 9 "1" (JObj [("rating", JNum (Fin (37 # 10)))]) in
  let as_text := Scenario.call 9 "1" (JObj [("rating", JStr "3.7")]) in
  let as_empty := Scenario.call 9 "1" (JObj [("rating", JStr "")]) in
  let as_object :=
    Scenario.call 9 "1" (JObj [("rating", JObj [("toString", JNum (Fin 1))])]) in
  map carry_reviews.rating
      (reviews (fst (postReview (host 1) "09:30" Scenario.listed as_number))) = [4]
  /\ map carry_reviews.rating
       (reviews (fst (postReview (host 1) "09:30" Scenario.listed as_text))) = [4]
  /\ map carry_reviews.rating
       (reviews (fst (postReview (host 1) "09:30" Scenario.listed as_number))) <> [3]
  /\ map carry_reviews.rating
       (reviews (fst (postReview (host 1) "09:30" Scenario.listed as_empty))) = [1]
  /\ status (snd (postReview (host 1) "09:30" Scenario.listed as_empty)) = 200
  /\ snd (postReview (host 1) "09:30" Scenario.listed as_object)
     = {| status := 500; json := Error "Failed" |}
  /\ status (snd (postReview (host 1) "09:30" Scenario.listed as_object)) <> 400.
Proof.
  vm_compute. repeat split; try reflexivity; discriminate.
Qed.

(** C6 (amended) -- For every review submission, a rating whose numeric
    value is finite is rounded to the nearest integer (the upper one at a
    tie) and clamped into [1,5] before it is stored, so that the inputs 0,
    6 and 3.7 are stored as 1, 5 and 4; a non-numeric rating such as "abc",
    whose numeric value is NaN (or an infinity), is rejected with a 400
    ("Bad rating" under an id that is not 0) and nothing is stored; a rating
    that has no numeric value at all, the conversion throwing, is answered
    500 "Failed" under such an id, and nothing is stored. *)
Theorem review_rating_rounded_and_clamped
        (opts : Opts) (now : string) (db : Db) (req : Request) :
  let body := req_body req in
  let listingId := toInt opts (req_params_id req) in
  let given := Number (nullish (prop body "rating") (prop body "stars")) in
  let out := postReview opts now db req in
  (forall n, given = Return n -> Number_isFinite n = false ->
     status (snd out) = 400 /\ fst out = db
     /\ (listingId <> 0 -> json (snd out) = Error "Bad rating"))
  /\ (given = Throw -> listingId <> 0 ->
      out = (db, {| status := 500; json := Error "Failed" |}))
  /\ (forall (q : Q) (l : carry_listings.row) (reviewed : JsNumber),
        given = Return (Fin q) ->
        listingId <> 0 ->
        listing_by_id db listingId = Some l ->
        Number (orElse (prop body "reviewed_user_id")
                       (JNum (Fin (inject_Z (carry_listings.user_id l)))))
        = Return reviewed ->
        Number_isNaN reviewed = false ->
        exists row,
          out = ({| listings := listings db; requests := requests db;
                    messages := messages db; reviews := reviews db ++ [row] |},
                 {| status := 200; json := Ok |})
          /\ carry_reviews.rating row = Z.max 1 (Z.min 5 (Math_round q))
          /\ 1 <= carry_reviews.rating row <= 5
          /\ (inject_Z (Math_round q) - (1 # 2) <= q
              < inject_Z (Math_round q) + (1 # 2))%Q).
Proof.
  intros body listingId given out. subst out. unfold postReview, catch.
  fold body. fold listingId. unfold clampRating. fold given.
  split; [|split].
  - intros n Hn Hnf. rewrite Hn. cbn [bind].
    destruct (listingId =? 0) eqn:Hz.
    + split; [reflexivity|]. split; [reflexivity|].
      intros H. apply Z.eqb_eq in Hz. contradiction.
    + destruct n; try discriminate Hnf; repeat split.
  - intros Hthrow Hid. rewrite Hthrow.
    replace (listingId =? 0) with false by (symmetry; now apply Z.eqb_neq).
    reflexivity.
  - intros q l reviewed Hq Hid Hl Hrev Hnan. rewrite Hq. cbn [bind]. rewrite Hl, Hrev.
    cbn [bind].
    replace (listingId =? 0) with false by (symmetry; now apply Z.eqb_neq).
    replace (Z.max 1 (Z.min 5 (Math_round q)) =? 0) with false
      by (symmetry; apply Z.eqb_neq; lia).
    match goal with
    | |- context [{| carry_reviews.id := ?i; carry_reviews.listing_id := ?a;
                     carry_reviews.reviewer_id := ?b;
                     carry_reviews.reviewed_user_id := ?c;
                     carry_reviews.rating := ?d; carry_reviews.comment := ?e;
                     carry_reviews.created_at := ?f |}] =>
        exists {| carry_reviews.id := i; carry_reviews.listing_id := a;
                  carry_reviews.reviewer_id := b;
                  carry_reviews.reviewed_user_id := c;
                  carry_reviews.rating := d; carry_reviews.comment := e;
                  carry_reviews.created_at := f |}
    end.
    cbn [carry_reviews.rating].
    split; [|split; [reflexivity | split; [lia | apply Math_round_nearest]]].
    destruct reviewed; try discriminate Hnan; reflexivity.
Qed.

Lemma review_rating_rounded_and_clamped_witness :
  let review v := Scenario.call 9 "1" (JObj [("rating", v)]) in
  let stored v :=
    map carry_reviews.rating
        (reviews (fst (postReview (host 1) "09:30" Scenario.listed (review v)))) in
  stored (JNum (Fin 0)) = [1]
  /\ stored (JNum (Fin 6)) = [5]
  /\ stored (JNum (Fin (37 # 10))) = [4]
  /\ status (snd (postReview (host 1) "09:30" Scenario.listed (review (JStr "abc"))))
     = 400
  /\ postReview (host 1) "09:30" Scenario.listed
       (review (JObj [("toString", JNum (Fin 1))]))
     = (Scenario.listed, {| status := 500; json := Error "Failed" |}).
Proof.
  intros review stored.
  assert (forall v q,
            Number (nullish (prop (req_body (review v)) "rating")
                            (prop (req_body (review v)) "stars")) = Return (Fin q) ->
            stored v = [Z.max 1 (Z.min 5 (Math_round q))]) as Hstored.
  { intros v q Hv. subst stored. cbv beta.
    destruct (proj2 (proj2 (review_rating_rounded_and_clamped (host 1) "09:30"
                              Scenario.listed (review v)))
                q _ _ Hv ltac:(vm_compute; discriminate) eq_refl eq_refl eq_refl)
      as (row & Hout & Hrating & _).
    rewrite Hout. cbn [fst reviews]. rewrite <- Hrating. reflexivity. }
  split; [exact (Hstored (JNum (Fin 0)) 0%Q eq_refl)|].
  split; [exact (Hstored (JNum (Fin 6)) 6%Q eq_refl)|].
  split; [exact (Hstored (JNum (Fin (37 # 10))) (37 # 10)%Q eq_refl)|].
  split.
  - apply (proj1 (review_rating_rounded_and_clamped (host 1) "09:30"
                    Scenario.listed (review (JStr "abc"))) NaN);
      reflexivity.
  - apply (proj1 (proj2 (review_rating_rounded_and_clamped (host 1) "09:30"
                           Scenario.listed
                           (review (JObj [("toString", JNum (Fin 1))]))))).
    + reflexivity.
    + vm_compute; discriminate.
Defined.

(* ===================================================================== *)
(** *** Creating a listing *)
(* ===================================================================== *)

Lemma orText_orNull (s : string) : orText (orNull (Some s)) "" = s.
Proof.
  unfold orText, orNull. destruct (s =? "")%string eqn:E; [|now rewrite E].
  apply String.eqb_eq in E. now subst.
Qed.

Lemma orNull_orNull (x : text) : orNull (orNull x) = orNull x.
Proof.
  destruct x as [s|]; [|reflexivity]. unfold orNull.
  destruct (s =? "")%string eqn:E; [reflexivity | now rewrite E].
Qed.

Lemma orText_orText (s d : string) :
  (d =? "")%string = false ->
  orText (Some (orText (Some s) d)) d = orText (Some s) d.
Proof.
  intros Hd. unfold orText.
  destruct (s =? "")%string eqn:E; [now rewrite Hd | now rewrite E].
Qed.

(** C7, as stated, fails: a role that has no text at all, the conversion
    throwing, is not refused with a 400 but answered 500 "Failed to create
    listing"; and under the role 'traveler' a weight that has no number
    gives the same 500, and no listing. *)
Lemma role_without_text_is_not_a_bad_role :
  let unnamed := JObj [("toString", JNum (Fin 1))] in
  let no_role := Scenario.call 7 "" (JObj [("role", unnamed)]) in
  let no_weight :=
    Scenario.call 7 "" (JObj [("role", JStr "traveler");
                              ("available_weight", unnamed)]) in
  createListing (host 1) "09:00" empty no_role
  = (empty, {| status := 500; json := Error "Failed to create listing" |})
  /\ status (snd (createListing (host 1) "09:00" empty no_role)) <> 400
  /\ createListing (host 1) "09:00" empty no_weight
     = (empty, {| status := 500; json := Error "Failed to create listing" |})
  /\ status (snd (createListing (host 1) "09:00" empty no_weight)) <> 200.
Proof.
  vm_compute. repeat split; try reflexivity; discriminate.
Qed.

(** C7 (amended) -- For every listing-create request whose role has a text:
    if that text, trimmed and lower-cased, is neither 'traveler' nor
    'sender', the operation fails with 400 "Bad role" and stores nothing;
    otherwise, when [available_weight] and [reward_amount] convert to
    numbers, it appends one listing with that role, status 'open',
    [is_active] = 1, owned by the calling user, and answers 200 with the
    full mapped listing: every field of the stored row, the empty text for
    a text that is missing, 'USD' for a missing currency, the parsed payload
    and the row itself.  When the role has no text or a number field has no
    number, the conversion throwing, it answers 500 "Failed to create
    listing" and stores nothing. *)
Theorem create_listing_outcome
        (opts : Opts) (now : string) (db : Db) (req : Request) :
  let body := req_body req in
  let out := createListing opts now db req in
  let failed := (db, {| status := 500; json := Error "Failed to create listing" |}) in
  (String_ (orElse (prop body "role") (JStr "")) = Throw -> out = failed)
  /\ (forall s, String_ (orElse (prop body "role") (JStr "")) = Return s ->
      let role := toLowerCase (trim s) in
      ((role =? "traveler")%string || (role =? "sender")%string = false ->
       out = (db, {| status := 400; json := Error "Bad role" |}))
      /\ ((role =? "traveler")%string || (role =? "sender")%string = true ->
          (numberOrNull body "available_weight" = Throw
           \/ numberOrNull body "reward_amount" = Throw -> out = failed)
          /\ (forall weight reward,
                numberOrNull body "available_weight" = Return weight ->
                numberOrNull body "reward_amount" = Return reward ->
                let text k := safeTrim opts (prop body k) in
                let optional k :=
                  if (text k =? "")%string then None else Some (text k) in
                let currency :=
                  if (text "currency" =? "")%string then "USD"%string
                  else text "currency" in
                let payload := JSON_stringify (orElse body (JObj [])) in
                let stamp := if (now =? "")%string then None else Some now in
                let row :=
                  {| carry_listings.id := nextId (map carry_listings.id (listings db));
                     carry_listings.user_id := req_user_id req;
                     carry_listings.role := role;
                     carry_listings.from_country := optional "from_country";
                     carry_listings.from_city := optional "from_city";
                     carry_listings.to_country := optional "to_country";
                     carry_listings.to_city := optional "to_city";
                     carry_listings.travel_date := optional "travel_date";
                     carry_listings.arrival_date := optional "arrival_date";
                     carry_listings.available_weight := finiteOrNull weight;
                     carry_listings.item_type := optional "item_type";
                     carry_listings.description := optional "description";
                     carry_listings.reward_amount := finiteOrNull reward;
                     carry_listings.currency := Some currency;
                     carry_listings.status := "open";
                     carry_listings.is_active := 1;
                     carry_listings.data_json := payload;
                     carry_listings.created_at := now;
                     carry_listings.updated_at := now |} in
                let item :=
                  {| listing.id := nextId (map carry_listings.id (listings db));
                     listing.user_id := req_user_id req;
                     listing.role := role;
                     listing.from_country := text "from_country";
                     listing.from_city := text "from_city";
                     listing.to_country := text "to_country";
                     listing.to_city := text "to_city";
                     listing.travel_date := optional "travel_date";
                     listing.arrival_date := optional "arrival_date";
                     listing.available_weight := finiteOrNull weight;
                     listing.item_type := text "item_type";
                     listing.description := text "description";
                     listing.reward_amount := finiteOrNull reward;
                     listing.currency := currency;
                     listing.status := "open";
                     listing.is_active := 1;
                     listing.created_at := stamp;
                     listing.updated_at := stamp;
                     listing.data := orElse (safeJsonParse opts payload) (JObj []);
                     listing.raw := row |} in
                out = ({| listings := listings db ++ [row];
                          requests := requests db;
                          messages := messages db;
                          reviews := reviews db |},
                       {| status := 200; json := OkItem item |})))).
Proof.
  intros body out failed. subst out failed. unfold createListing, clampRole, catch.
  fold body. split.
  - intros ->. reflexivity.
  - intros s ->. cbn [bind]. split; intros ->; [reflexivity|].
    cbn [bind]. split.
    + intros [Hw|Hr].
      * rewrite Hw. reflexivity.
      * destruct (numberOrNull body "available_weight"); cbn [bind];
          [rewrite Hr|]; reflexivity.
    + intros weight reward -> ->. cbn [bind].
      unfold listing_by_id, with_listings. cbn [listings].
      rewrite get_the_new_row;
        [| intros y Hy; cbn [carry_listings.id]; now apply nextId_not_a_key
         | apply Z.eqb_refl].
      unfold mapListing, reply.
      cbn [carry_listings.id carry_listings.user_id carry_listings.role
           carry_listings.from_country carry_listings.from_city
           carry_listings.to_country carry_listings.to_city
           carry_listings.travel_date carry_listings.arrival_date
           carry_listings.available_weight carry_listings.item_type
           carry_listings.description carry_listings.reward_amount
           carry_listings.currency carry_listings.status
           carry_listings.is_active carry_listings.data_json
           carry_listings.created_at carry_listings.updated_at].
      rewrite !orText_orNull, !orNull_orNull, (orText_orText _ "USD" eq_refl).
      reflexivity.
Qed.

Lemma create_listing_outcome_witness :
  let out := createListing (host 1) "09:00" empty (Scenario.call 7 "" Scenario.traveler) in
  status (snd out) = 200
  /\ (exists item, json (snd out) = OkItem item
                   /\ listing.id item = 1
                   /\ listing.status item = "open"
                   /\ listing.is_active item = 1
                   /\ listing.user_id item = 7
                   /\ listing.from_city item = "Paris"
                   /\ listing.to_city item = "Lagos"
                   /\ listing.currency item = "USD"
                   /\ In (listing.raw item) (listings (fst out)))
  /\ createListing (host 1) "09:00" empty
       (Scenario.call 7 "" (JObj [("role", JStr "courier")]))
     = (empty, {| status := 400; json := Error "Bad role" |})
  /\ createListing (host 1) "09:00" empty
       (Scenario.call 7 "" (JObj [("role", JObj [("toString", JNull)])]))
     = (empty, {| status := 500; json := Error "Failed to create listing" |}).
Proof.
  intros out.
  pose proof (proj2 (proj2 (proj2 (create_listing_outcome (host 1) "09:00" empty
                                     (Scenario.call 7 "" Scenario.traveler))
                              "traveler" eq_refl) eq_refl)
                None None eq_refl eq_refl) as Hout.
  cbv zeta in Hout. fold out in Hout.
  split; [now rewrite Hout|]. split; [|split].
  - eexists. rewrite Hout. cbn [snd fst json listings].
    split; [reflexivity|]. repeat split; try reflexivity.
    apply in_or_app. right. left. reflexivity.
  - apply (proj1 (proj2 (create_listing_outcome (host 1) "09:00" empty
                           (Scenario.call 7 "" (JObj [("role", JStr "courier")])))
                    "courier" eq_refl)).
    reflexivity.
  - apply (proj1 (create_listing_outcome (host 1) "09:00" empty
                    (Scenario.call 7 "" (JObj [("role", JObj [("toString", JNull)])])))).
    reflexivity.
Defined.

(* ===================================================================== *)
(** *** Airport search *)
(* ===================================================================== *)

(** C9, as stated, fails: the limit is parsed before the length of the
    query is looked at, and a limit parameter that has no text, the
    conversion throwing, makes the search of a one-letter query answer 500
    "search_failed", whatever the table holds. *)
Lemma limit_without_text_fails_a_short_query :
  let no_limit := JObj [("toString", JStr "1")] in
  lengthOf (trim "a") < 2
  /\ Airports.search [Scenario.SAN; Scenario.JFK] (JStr "a") no_limit
     = {| Airports.status := 500; Airports.json := Airports.Error "search_failed" |}
  /\ Airports.search [] (JStr "a") no_limit
     = {| Airports.status := 500; Airports.json := Airports.Error "search_failed" |}
  /\ Airports.status (Airports.search [] (JStr "a") no_limit) <> 200.
Proof.
  vm_compute. repeat split; try reflexivity; discriminate.
Qed.

(** C9 (amended) -- For every airport-search query whose text, once
    trimmed, has fewer than 2 characters, and every limit parameter that
    has a text, the search answers 200 with no rows, whatever the table
    holds and whatever the limit is; with a limit parameter that has no
    text, the conversion throwing, it answers 500 "search_failed". *)
Theorem short_query_gives_no_rows
        (airports : list Airports.airport) (query_q query_limit : JsVal)
        (s : string) :
  String_ (orElse query_q (JStr "")) = Return s ->
  lengthOf (trim s) < 2 ->
  (forall t, String_ (orElse query_limit (JStr "20")) = Return t ->
     Airports.search airports query_q query_limit
     = {| Airports.status := 200; Airports.json := Airports.Rows [] |})
  /\ (String_ (orElse query_limit (JStr "20")) = Throw ->
      Airports.search airports query_q query_limit
      = {| Airports.status := 500; Airports.json := Airports.Error "search_failed" |}).
Proof.
  intros Hs Hshort. unfold Airports.search, Airports.searchParams, parseInt.
  rewrite Hs. cbn [bind]. apply Z.ltb_lt in Hshort. split.
  - intros t ->. cbn [bind]. rewrite Hshort. reflexivity.
  - intros ->. reflexivity.
Qed.

Lemma short_query_gives_no_rows_witness :
  Airports.search [Scenario.SAN; Scenario.JFK] (JStr " a ") (JStr "none")
  = {| Airports.status := 200; Airports.json := Airports.Rows [] |}
  /\ Airports.status
       (Airports.search [Scenario.SAN; Scenario.JFK] (JStr "sa") (JStr "none"))
     = 500
  /\ Airports.search [Scenario.SAN; Scenario.JFK] (JStr " a ")
       (JObj [("toString", JStr "1")])
     = {| Airports.status := 500; Airports.json := Airports.Error "search_failed" |}.
Proof.
  split; [|split].
  - apply (proj1 (short_query_gives_no_rows [Scenario.SAN; Scenario.JFK]
                    (JStr " a ") (JStr "none") " a " eq_refl
                    ltac:(vm_compute; reflexivity)) "none").
    reflexivity.
  - reflexivity.
  - apply (proj2 (short_query_gives_no_rows [Scenario.SAN; Scenario.JFK]
                    (JStr " a ") (JObj [("toString", JStr "1")]) " a " eq_refl
                    ltac:(vm_compute; reflexivity))).
    reflexivity.
Defined.

(** **** ORDER BY sorts *)

Lemma firstn_In {A} (n : nat) (l : list A) (y : A) :
  In y (firstn n l) -> In y l.
Proof.
  revert n. induction l as [|x l IH]; intros [|n]; simpl; try tauto.
  intros [->|H]; [now left | right; eauto].
Qed.

Section OrderBy.

Context {A : Type}.
Variable le : A -> A -> bool.
Hypothesis le_total : forall a b, le a b = true \/ le b a = true.
Hypothesis le_trans : forall a b c, le a b = true -> le b c = true -> le a c = true.

Lemma insertRow_In (x y : A) (l : list A) :
  In y (insertRow le x l) <-> y = x \/ In y l.
Proof.
  induction l as [|z l IH]; simpl.
  - intuition.
  - destruct (le x z); simpl; rewrite ?IH; intuition.
Qed.

Lemma insertRow_sorted (x : A) (l : list A) :
  StronglySorted (fun a b => le a b = true) l ->
  StronglySorted (fun a b => le a b = true) (insertRow le x l).
Proof.
  induction 1 as [|z l Hl IH Hz]; simpl.
  - repeat constructor.
  - destruct (le x z) eqn:E.
    + constructor; [constructor; assumption|].
      constructor; [exact E|].
      rewrite Forall_forall in *. intros y Hy.
      eapply le_trans; [exact E | auto].
    + constructor; [exact IH|].
      rewrite Forall_forall in *. intros y Hy.
      apply insertRow_In in Hy. destruct Hy as [->|Hy]; [|auto].
      destruct (le_total x z) as [H|H]; congruence.
Qed.

Lemma ORDER_BY_sorted (l : list A) : StronglySorted (fun a b => le a b = true) (ORDER_BY le l).
Proof.
  induction l as [|x l IH]; simpl; [constructor | now apply insertRow_sorted].
Qed.

Lemma ORDER_BY_In (x : A) (l : list A) : In x (ORDER_BY le l) <-> In x l.
Proof.
  induction l as [|y l IH]; simpl; [tauto|].
  rewrite insertRow_In, IH. intuition.
Qed.

Lemma insertRow_perm (x : A) (l : list A) : Permutation (x :: l) (insertRow le x l).
Proof.
  induction l as [|y l IH]; simpl; [reflexivity|].
  destruct (le x y); [reflexivity|].
  rewrite perm_swap. now constructor.
Qed.

Lemma ORDER_BY_perm (l : list A) : Permutation l (ORDER_BY le l).
Proof.
  induction l as [|x l IH]; simpl; [constructor|].
  rewrite <- insertRow_perm. now constructor.
Qed.

Lemma firstn_sorted (n : nat) (l : list A) :
  StronglySorted (fun a b => le a b = true) l ->
  StronglySorted (fun a b => le a b = true) (firstn n l).
Proof.
  intros H. revert n. induction H as [|x l Hl IH Hx]; intros [|n]; simpl;
    try constructor.
  - apply IH.
  - rewrite Forall_forall in *. intros y Hy. apply Hx.
    eapply firstn_In. exact Hy.
Qed.


End OrderBy.




(** **** LIKE on a query without wildcards *)


Lemma lowerAscii_lowered (c : ascii) : loweredChar (lowerAscii c) = true.
Proof.
  destruct c as [[] [] [] [] [] [] [] []]; reflexivity.
Qed.











Lemma StronglySorted_weaken {A} (R R' : A -> A -> Prop) (l : list A) :
  (forall a b, R a b -> R' a b) -> StronglySorted R l -> StronglySorted R' l.
Proof.
  intros HR. induction 1 as [|x l Hl IH Hx]; constructor; [exact IH|].
  rewrite Forall_forall in *. auto.
Qed.

(** **** The ranking *)




(* ===================================================================== *)
(** ** Further properties of the carry module *)
(* ===================================================================== *)

Import CarryReads.

(** *** Every route, seen from the tables *)

Lemma stored_row_is_read_back (db : Db) (row : carry_listings.row) (i : Z) :
  i = nextId (map carry_listings.id (listings db)) ->
  carry_listings.id row = i ->
  listing_by_id (with_listings db (listings db ++ [row])) i = Some row.
Proof.
  intros -> Hid. unfold listing_by_id, with_listings. cbn [listings].
  apply get_the_new_row; [|rewrite Hid; apply Z.eqb_refl].
  intros y Hy. now apply nextId_not_a_key.
Qed.

Lemma updated_row_is_read_back (db : Db) (i : Z) (l : carry_listings.row)
      (f : carry_listings.row -> carry_listings.row) :
  (forall r, carry_listings.id (f r) = carry_listings.id r) ->
  listing_by_id db i = Some l ->
  listing_by_id
    (with_listings db (update (fun r => carry_listings.id r =? i) f (listings db))) i
  = Some (f l).
Proof.
  intros Hf Hl. unfold listing_by_id, with_listings. cbn [listings].
  rewrite (get_after_update carry_listings.id) by exact Hf.
  fold (listing_by_id db i). rewrite Hl. cbn [option_map].
  apply get_by_key_sound in Hl. destruct Hl as [-> _].
  now rewrite Z.eqb_refl.
Qed.

(** X1 -- A request that is answered 400, 403 or 404 leaves the database as
    it was: every route tests the id, looks for the rows and checks the
    caller before its first write. *)
Theorem refused_request_stores_nothing
        (opts : Opts) (now : string) (route : Route) (db : Db) (req : Request) :
  let out := handle opts now route db req in
  Carry.status (snd out) = 400 \/ Carry.status (snd out) = 403
  \/ Carry.status (snd out) = 404 ->
  fst out = db.
Proof.
  assert (forall j, ~ (Carry.status (Carry.reply j) = 400
                       \/ Carry.status (Carry.reply j) = 403
                       \/ Carry.status (Carry.reply j) = 404)) as Hreply.
  { intros j. cbn [Carry.reply Carry.status]. lia. }
  cbv zeta. destruct route; cbn [handle].
  - destruct (createListing_cases opts now db req)
      as [(c & e & ->)|(row & -> & _)]; [reflexivity|].
    intros H. now apply Hreply in H.
  - destruct (updateListing_cases opts now db req)
      as [(c & e & ->)|(l & fields & _ & ->)]; [reflexivity|].
    intros H. now apply Hreply in H.
  - unfold deleteListing.
    destruct (toInt opts (req_params_id req) =? 0); [reflexivity|].
    destruct (listing_by_id db _); [|reflexivity].
    destruct (negb _); [reflexivity|]. intros H. now apply Hreply in H.
  - unfold createRequest.
    destruct (toInt opts (req_params_id req) =? 0); [reflexivity|].
    destruct (active_listing_by_id db _); [|reflexivity].
    destruct (_ =? req_user_id req); [reflexivity|].
    destruct (negb (_ =? "open")%string); [reflexivity|].
    destruct (negb _ && _); [reflexivity|].
    destruct (negb _); intros H; now apply Hreply in H.
  - unfold acceptRequest.
    destruct (toInt opts (req_params_id req) =? 0); [reflexivity|].
    destruct (request_by_id db _); [|reflexivity].
    destruct (listing_by_id db _); [|reflexivity].
    destruct (negb _); [reflexivity|]. intros H. now apply Hreply in H.
  - unfold rejectRequest.
    destruct (toInt opts (req_params_id req) =? 0); [reflexivity|].
    destruct (request_by_id db _); [|reflexivity].
    destruct (listing_by_id db _); [|reflexivity].
    destruct (negb _); [reflexivity|]. intros H. now apply Hreply in H.
  - unfold postMessage.
    destruct (toInt opts (req_params_id req) =? 0); [reflexivity|].
    destruct (_ =? "")%string; [reflexivity|]. intros H. now apply Hreply in H.
  - destruct (postReview_cases opts now db req)
      as [(c & e & ->)|(row & -> & _)]; [reflexivity|].
    intros H. now apply Hreply in H.
Qed.

Lemma refused_request_stores_nothing_witness :
  fst (handle (host 1) "09:30" PATCH_request_accept Scenario.requested
         (Scenario.call 9 "1" JNull)) = Scenario.requested
  /\ Carry.status (snd (handle (host 1) "09:30" PATCH_request_accept
                          Scenario.requested (Scenario.call 9 "1" JNull))) = 403.
Proof.
  split; [|reflexivity].
  apply refused_request_stores_nothing. right. left. reflexivity.
Defined.

(** X2 -- In every database reached from the empty one by requests to the
    module that are served one after the other, each answered before the
    next is taken, the keys of listings and of match requests are positive,
    and two match requests of the same user on the same listing are one and
    the same row.  (The handler looks for the earlier request and inserts
    the new one in two statements: nothing is claimed of requests whose
    statements interleave.) *)
Theorem reachable_database_is_well_formed
        (opts : Opts) (calls : list (string * Route * Request)) :
  let db := serve opts empty calls in
  (forall l, In l (listings db) -> 0 < carry_listings.id l)
  /\ (forall r, In r (requests db) -> 0 < carry_requests.id r)
  /\ (forall r1 r2, In r1 (requests db) -> In r2 (requests db) ->
        carry_requests.listing_id r1 = carry_requests.listing_id r2 ->
        carry_requests.requester_id r1 = carry_requests.requester_id r2 ->
        r1 = r2).
Proof.
  intros db.
  assert (wf db = true) as Hwf by (apply serve_keeps_wf, empty_wf).
  split; [|split].
  - intros l Hl. apply wf_well_formed in Hwf. destruct Hwf as (Hpos & _).
    rewrite Forall_forall in Hpos. apply Hpos. now apply in_map.
  - intros r Hr. now apply (request_key_positive db).
  - intros r1 r2 H1 H2 Hl Hu.
    pose proof (request_of_the_pair db r1 Hwf H1) as E1.
    pose proof (request_of_the_pair db r2 Hwf H2) as E2.
    rewrite Hl, Hu in E1. congruence.
Qed.

Lemma forallb_update {A} (P p : A -> bool) (f : A -> A) (t : list A) :
  (forall r, P r = true -> P (f r) = true) ->
  forallb P t = true -> forallb P (update p f t) = true.
Proof.
  intros Hf. unfold update. rewrite !forallb_forall. intros H x Hx.
  apply in_map_iff in Hx. destruct Hx as [y [<- Hy]].
  destruct (p y); auto.
Qed.

Lemma forallb_snoc {A} (P : A -> bool) (t : list A) (x : A) :
  forallb P t = true -> P x = true -> forallb P (t ++ [x]) = true.
Proof.
  intros Ht Hx. rewrite forallb_app, Ht. simpl. now rewrite Hx.
Qed.

Lemma clampRole_valid (v : JsVal) (r : string) :
  clampRole v = Return (Some r) ->
  (r =? "traveler")%string || (r =? "sender")%string = true.
Proof.
  unfold clampRole. destruct (String_ _); cbn [bind]; [|discriminate].
  destruct ((_ =? "traveler")%string || (_ =? "sender")%string) eqn:E;
    [|discriminate].
  intros [= <-]. exact E.
Qed.

Lemma handle_keeps_stored (opts : Opts) (now : string) (route : Route)
      (db : Db) (req : Request) :
  stored db = true -> stored (fst (handle opts now route db req)) = true.
Proof.
  intros Hst. pose proof Hst as Hst'. unfold stored in Hst'.
  apply andb_true_iff in Hst'. destruct Hst' as [Hst' Hrev].
  apply andb_true_iff in Hst'. destruct Hst' as [Hlist Hreq].
  destruct route; cbn [handle].
  - destruct (createListing_cases opts now db req)
      as [(c & e & ->)|(row & -> & _ & Hrole & Hopen & Hact)]; [exact Hst|].
    cbn [fst]. unfold stored, with_listings. cbn [listings requests reviews].
    rewrite Hreq, Hrev, forallb_snoc; [reflexivity | exact Hlist |].
    unfold storedListing.
    now rewrite (clampRole_valid _ _ Hrole), Hopen, Hact.
  - destruct (updateListing_cases opts now db req)
      as [(c & e & ->)|(l & fields & _ & ->)]; [exact Hst|].
    cbn [fst]. unfold stored, with_listings. cbn [listings requests reviews].
    rewrite Hreq, Hrev, forallb_update; [reflexivity | | exact Hlist].
    intros x Hx. exact Hx.
  - unfold deleteListing.
    destruct (toInt opts (req_params_id req) =? 0); [exact Hst|].
    destruct (listing_by_id db _); [|exact Hst].
    destruct (negb _); [exact Hst|].
    cbn [fst]. unfold stored, with_listings. cbn [listings requests reviews].
    rewrite Hreq, Hrev, forallb_update; [reflexivity | | exact Hlist].
    intros x Hx. unfold storedListing in *.
    cbn [set_listing_inactive carry_listings.role carry_listings.status
         carry_listings.is_active].
    apply andb_true_iff in Hx. destruct Hx as [Hx _]. rewrite Hx. reflexivity.
  - unfold createRequest.
    destruct (toInt opts (req_params_id req) =? 0); [exact Hst|].
    destruct (active_listing_by_id db _); [|exact Hst].
    destruct (_ =? req_user_id req); [exact Hst|].
    destruct (negb (_ =? "open")%string); [exact Hst|].
    destruct (negb _ && _); [exact Hst|].
    destruct (negb _); cbn [fst]; unfold stored, with_requests;
      cbn [listings requests reviews]; rewrite Hlist, Hrev.
    + rewrite forallb_update; [reflexivity | | exact Hreq]. reflexivity.
    + rewrite forallb_snoc; [reflexivity | exact Hreq | reflexivity].
  - unfold acceptRequest.
    destruct (toInt opts (req_params_id req) =? 0); [exact Hst|].
    destruct (request_by_id db _); [|exact Hst].
    destruct (listing_by_id db _); [|exact Hst].
    destruct (negb _); [exact Hst|].
    cbn [fst]. unfold stored, with_listings, with_requests.
    cbn [listings requests reviews]. rewrite Hrev.
    rewrite !forallb_update; [reflexivity | | exact Hreq | | exact Hlist].
    + reflexivity.
    + intros x Hx. unfold storedListing in *.
      cbn [set_listing_status carry_listings.role carry_listings.status
           carry_listings.is_active].
      apply andb_true_iff in Hx. destruct Hx as [Hx Ha].
      apply andb_true_iff in Hx. destruct Hx as [Hx _].
      rewrite Hx, Ha. reflexivity.
  - unfold rejectRequest.
    destruct (toInt opts (req_params_id req) =? 0); [exact Hst|].
    destruct (request_by_id db _); [|exact Hst].
    destruct (listing_by_id db _); [|exact Hst].
    destruct (negb _); [exact Hst|].
    cbn [fst]. unfold stored, with_requests.
    cbn [listings requests reviews]. rewrite Hlist, Hrev.
    rewrite forallb_update; [reflexivity | | exact Hreq]. reflexivity.
  - unfold postMessage.
    destruct (toInt opts (req_params_id req) =? 0); [exact Hst|].
    destruct (_ =? "")%string; exact Hst.
  - destruct (postReview_cases opts now db req)
      as [(c & e & ->)|(row & -> & Hrating)]; [exact Hst|].
    cbn [fst]. unfold stored, with_reviews. cbn [listings requests reviews].
    rewrite Hlist, Hreq. rewrite forallb_snoc; [reflexivity | exact Hrev |].
    unfold storedReview. apply andb_true_iff; split; apply Z.leb_le; lia.
Qed.

(** X3 -- In every database reached from the empty one, a listing has role
    'traveler' or 'sender', status 'open' or 'matched' and an active flag of
    1 or 0; a match request has status 'pending', 'accepted' or 'rejected';
    a review has a rating from 1 to 5.  No route of the module produces
    another listing status, nor a 'cancelled' request. *)
Theorem reachable_rows_hold_only_these_values
        (opts : Opts) (calls : list (string * Route * Request)) :
  let db := serve opts empty calls in
  (forall l, In l (listings db) ->
     (carry_listings.role l = "traveler" \/ carry_listings.role l = "sender")
     /\ (carry_listings.status l = "open" \/ carry_listings.status l = "matched")
     /\ (carry_listings.is_active l = 1 \/ carry_listings.is_active l = 0))
  /\ (forall r, In r (requests db) ->
        carry_requests.status r = "pending"
        \/ carry_requests.status r = "accepted"
        \/ carry_requests.status r = "rejected")
  /\ (forall r, In r (reviews db) -> 1 <= carry_reviews.rating r <= 5).
Proof.
  intros db.
  assert (stored db = true) as Hst.
  { subst db. generalize empty (eq_refl : stored empty = true).
    induction calls as [|[[now route] req] rest IH]; intros d Hd; cbn [serve].
    - exact Hd.
    - apply IH. now apply handle_keeps_stored. }
  unfold stored in Hst. rewrite !andb_true_iff, !forallb_forall in Hst.
  destruct Hst as [[Hl Hr] Hv]. split; [|split].
  - intros l Hin. specialize (Hl l Hin). unfold storedListing in Hl.
    rewrite !andb_true_iff, !orb_true_iff, !String.eqb_eq, !Z.eqb_eq in Hl.
    tauto.
  - intros r Hin. specialize (Hr r Hin). unfold storedRequest in Hr.
    rewrite !orb_true_iff, !String.eqb_eq in Hr. tauto.
  - intros r Hin. specialize (Hv r Hin). unfold storedReview in Hv.
    rewrite andb_true_iff, !Z.leb_le in Hv. exact Hv.
Qed.

Ltac split_listing_lookup :=
  match goal with
  | |- context [match listing_by_id ?d ?i with _ => _ end] =>
      destruct (listing_by_id d i)
  end.

Ltac rows_kept :=
  cbn [fst listings requests messages reviews
       with_listings with_requests with_messages with_reviews];
  first [ exists []; rewrite app_nil_r; reflexivity
        | exists []; rewrite app_nil_r; apply keys_after_update; reflexivity
        | eexists; rewrite map_app; reflexivity
        | eexists; reflexivity ].

(** X4 -- No route removes or renumbers a row: after any request the keys of
    the listings and of the match requests are those from before, in the
    same order, followed by the keys of the rows just inserted; messages
    and reviews are never modified, only appended. *)
Theorem no_route_removes_a_row
        (opts : Opts) (now : string) (route : Route) (db : Db) (req : Request) :
  let db' := fst (handle opts now route db req) in
  (exists new, map carry_listings.id (listings db')
               = (map carry_listings.id (listings db) ++ new)%list)
  /\ (exists new, map carry_requests.id (requests db')
                  = (map carry_requests.id (requests db) ++ new)%list)
  /\ (exists new, messages db' = (messages db ++ new)%list)
  /\ (exists new, reviews db' = (reviews db ++ new)%list).
Proof.
  intros db'. subst db'. destruct route; cbn [handle].
  - destruct (createListing_cases opts now db req)
      as [(c & e & ->)|(row & -> & _)]; repeat split; rows_kept.
  - destruct (updateListing_cases opts now db req)
      as [(c & e & ->)|(l & fields & _ & ->)]; repeat split; rows_kept.
  - unfold deleteListing.
    destruct (toInt opts (req_params_id req) =? 0); [repeat split; rows_kept|].
    destruct (listing_by_id db _); [|repeat split; rows_kept].
    destruct (negb _); repeat split; rows_kept.
  - unfold createRequest.
    destruct (toInt opts (req_params_id req) =? 0); [repeat split; rows_kept|].
    destruct (active_listing_by_id db _); [|repeat split; rows_kept].
    destruct (_ =? req_user_id req); [repeat split; rows_kept|].
    destruct (negb (_ =? "open")%string); [repeat split; rows_kept|].
    destruct (negb _ && _); [repeat split; rows_kept|].
    destruct (negb _); repeat split; rows_kept.
  - unfold acceptRequest.
    destruct (toInt opts (req_params_id req) =? 0); [repeat split; rows_kept|].
    destruct (request_by_id db _); [|repeat split; rows_kept].
    destruct (listing_by_id db _); [|repeat split; rows_kept].
    destruct (negb _); repeat split; rows_kept.
  - unfold rejectRequest.
    destruct (toInt opts (req_params_id req) =? 0); [repeat split; rows_kept|].
    destruct (request_by_id db _); [|repeat split; rows_kept].
    destruct (listing_by_id db _); [|repeat split; rows_kept].
    destruct (negb _); repeat split; rows_kept.
  - unfold postMessage.
    destruct (toInt opts (req_params_id req) =? 0); [repeat split; rows_kept|].
    destruct (_ =? "")%string; repeat split; rows_kept.
  - destruct (postReview_cases opts now db req)
      as [(c & e & ->)|(row & -> & _)]; repeat split; rows_kept.
Qed.

Lemma listing_after_update (db : Db) (i j : Z) (l : carry_listings.row)
      (f : carry_listings.row -> carry_listings.row) :
  (forall r, carry_listings.id (f r) = carry_listings.id r) ->
  listing_by_id db i = Some l ->
  listing_by_id
    (with_listings db (update (fun r => carry_listings.id r =? j) f (listings db))) i
  = Some (if i =? j then f l else l).
Proof.
  intros Hf Hl. unfold listing_by_id, with_listings. cbn [listings].
  rewrite (get_after_update carry_listings.id) by exact Hf.
  fold (listing_by_id db i). rewrite Hl. cbn [option_map].
  apply get_by_key_sound in Hl. destruct Hl as [-> _]. reflexivity.
Qed.

Lemma listing_after_handle
        (opts : Opts) (now : string) (route : Route) (db : Db) (req : Request)
        (i : Z) (l : carry_listings.row) :
  listing_by_id db i = Some l ->
  exists l',
    listing_by_id (fst (handle opts now route db req)) i = Some l'
    /\ carry_listings.id l' = carry_listings.id l
    /\ carry_listings.user_id l' = carry_listings.user_id l
    /\ carry_listings.role l' = carry_listings.role l
    /\ carry_listings.created_at l' = carry_listings.created_at l
    /\ (carry_listings.status l' = carry_listings.status l
        \/ (route = PATCH_request_accept /\ carry_listings.status l' = "matched"))
    /\ (carry_listings.is_active l' = carry_listings.is_active l
        \/ (route = DELETE_listing /\ carry_listings.is_active l' = 0)).
Proof.
  intros Hl.
  assert (exists l', listing_by_id db i = Some l'
            /\ carry_listings.id l' = carry_listings.id l
            /\ carry_listings.user_id l' = carry_listings.user_id l
            /\ carry_listings.role l' = carry_listings.role l
            /\ carry_listings.created_at l' = carry_listings.created_at l
            /\ (carry_listings.status l' = carry_listings.status l
                \/ (route = PATCH_request_accept
                    /\ carry_listings.status l' = "matched"))
            /\ (carry_listings.is_active l' = carry_listings.is_active l
                \/ (route = DELETE_listing /\ carry_listings.is_active l' = 0)))
    as Hsame by (exists l; repeat split; auto).
  destruct route; cbn [handle].
  - destruct (createListing_cases opts now db req)
      as [(c & e & ->)|(row & -> & _)]; [exact Hsame|].
    exists l. split; [|repeat split; auto].
    cbn [fst]. unfold listing_by_id, with_listings.
    cbn [listings]. now apply get_in_older_rows.
  - destruct (updateListing_cases opts now db req)
      as [(c & e & ->)|(l0 & fields & _ & ->)]; [exact Hsame|].
    cbn [fst].
    match goal with
    | |- context [update (fun r => carry_listings.id r =? ?j) ?f (listings db)] =>
        rewrite (listing_after_update db i j l f (fun _ => eq_refl) Hl)
    end.
    destruct (i =? _); [eexists; split; [reflexivity|] | exists l; split; [reflexivity|]];
      repeat split; auto.
  - unfold deleteListing.
    destruct (toInt opts (req_params_id req) =? 0); [exact Hsame|].
    destruct (listing_by_id db (toInt opts _)); [|exact Hsame].
    destruct (negb _); [exact Hsame|].
    cbn [fst].
    match goal with
    | |- context [update (fun r => carry_listings.id r =? ?j) ?f (listings db)] =>
        rewrite (listing_after_update db i j l f (fun _ => eq_refl) Hl)
    end.
    destruct (i =? _); [eexists; split; [reflexivity|] | exists l; split; [reflexivity|]];
      repeat split; auto.
  - unfold createRequest.
    destruct (toInt opts (req_params_id req) =? 0); [exact Hsame|].
    destruct (active_listing_by_id db _); [|exact Hsame].
    destruct (_ =? req_user_id req); [exact Hsame|].
    destruct (negb (_ =? "open")%string); [exact Hsame|].
    destruct (negb _ && _); [exact Hsame|].
    destruct (negb _); exact Hsame.
  - unfold acceptRequest.
    destruct (toInt opts (req_params_id req) =? 0); [exact Hsame|].
    destruct (request_by_id db _); [|exact Hsame].
    destruct (listing_by_id db (carry_requests.listing_id _)); [|exact Hsame].
    destruct (negb _); [exact Hsame|].
    cbn [fst].
    match goal with
    | |- context [with_listings ?d (update (fun r => carry_listings.id r =? ?j) ?f _)] =>
        rewrite (listing_after_update d i j l f (fun _ => eq_refl) Hl)
    end.
    destruct (i =? _); [eexists; split; [reflexivity|] | exists l; split; [reflexivity|]];
      repeat split; auto.
  - unfold rejectRequest.
    destruct (toInt opts (req_params_id req) =? 0); [exact Hsame|].
    destruct (request_by_id db _); [|exact Hsame].
    destruct (listing_by_id db (carry_requests.listing_id _)); [|exact Hsame].
    destruct (negb _); exact Hsame.
  - unfold postMessage.
    destruct (toInt opts (req_params_id req) =? 0); [exact Hsame|].
    destruct (_ =? "")%string; exact Hsame.
  - destruct (postReview_cases opts now db req)
      as [(c & e & ->)|(row & -> & _)]; exact Hsame.
Qed.



(** *** Updating a listing *)

Lemma stringify_defined (v : JsVal) :
  truthy v = true -> exists s, JSON_stringify v = Some s.
Proof.
  unfold JSON_stringify.
  destruct v as [| |[]|[]| | |]; cbn [truthy serialize]; intros H;
    try discriminate H; eauto.
Qed.

Lemma payload_defined (body : JsVal) :
  exists s, JSON_stringify (orElse body (JObj [])) = Some s.
Proof.
  apply stringify_defined. unfold orElse.
  destruct (truthy body) eqn:E; [exact E | reflexivity].
Qed.

(** X6 -- A permitted update whose [available_weight] and [reward_amount]
    convert to numbers merges field by field: a text field whose trimmed
    value is empty or absent keeps the stored value, any other replaces it;
    a numeric field is replaced only by a finite number; the payload column
    is always replaced by the new body and [updated_at] is always refreshed;
    status and active flag stay.  The listing is answered as stored, and no
    other listing is touched.  When one of the two conversions throws, the
    update answers 500 "Failed to update" and the database is as it was. *)
Theorem update_merges_field_by_field
        (opts : Opts) (now : string) (db : Db) (req : Request)
        (l : carry_listings.row) :
  let id := toInt opts (req_params_id req) in
  let body := req_body req in
  let out := updateListing opts now db req in
  id <> 0 ->
  listing_by_id db id = Some l ->
  req_user_id req <> 0 ->
  req_user_id req = carry_listings.user_id l \/ isAdminReq opts req = true ->
  (numberOrNull body "available_weight" = Throw
   \/ numberOrNull body "reward_amount" = Throw ->
   out = (db, {| Carry.status := 500; Carry.json := Carry.Error "Failed to update" |}))
  /\ (forall weight reward,
        numberOrNull body "available_weight" = Return weight ->
        numberOrNull body "reward_amount" = Return reward ->
        exists l',
          listing_by_id (fst out) id = Some l'
          /\ snd out = {| Carry.status := 200; Carry.json := OkItem (mapListing opts l') |}
          /\ Forall
               (fun '(k, col) =>
                  let given := safeTrim opts (prop body k) in
                  col l' = if (given =? "")%string then col l else Some given)
               [("from_country", carry_listings.from_country);
                ("from_city", carry_listings.from_city);
                ("to_country", carry_listings.to_country);
                ("to_city", carry_listings.to_city);
                ("travel_date", carry_listings.travel_date);
                ("arrival_date", carry_listings.arrival_date);
                ("item_type", carry_listings.item_type);
                ("description", carry_listings.description);
                ("currency", carry_listings.currency)]
          /\ Forall
               (fun '(given, col) =>
                  col l' = match finiteOrNull given with
                           | Some q => Some q
                           | None => col l
                           end)
               [(weight, carry_listings.available_weight);
                (reward, carry_listings.reward_amount)]
          /\ carry_listings.data_json l' = JSON_stringify (orElse body (JObj []))
          /\ carry_listings.updated_at l' = now
          /\ carry_listings.status l' = carry_listings.status l
          /\ carry_listings.is_active l' = carry_listings.is_active l
          /\ (forall j, j <> id -> listing_by_id (fst out) j = listing_by_id db j)).
Proof.
  intros id body out Hid Hl Hnz Hwho. subst out.
  unfold updateListing. fold id. fold body.
  replace (id =? 0) with false by (symmetry; now apply Z.eqb_neq).
  rewrite Hl, (canEdit_granted opts req _ Hnz Hwho). cbn [negb].
  split.
  { intros [Hw|Hr].
    - rewrite Hw. reflexivity.
    - destruct (numberOrNull body "available_weight"); cbn [bind Carry.catch];
        [rewrite Hr|]; reflexivity. }
  intros weight reward -> ->. cbn [bind Carry.catch].
  match goal with
  | |- context [update _ ?f (listings db)] =>
      rewrite (updated_row_is_read_back db id l f (fun _ => eq_refl) Hl);
      exists (f l)
  end.
  cbn [fst snd]. split; [|split; [reflexivity|]].
  { match goal with
    | |- context [update _ ?f (listings db)] =>
        exact (updated_row_is_read_back db id l f (fun _ => eq_refl) Hl)
    end. }
  assert (forall s c, keepUnlessGiven (orText (Some s) "") c
                      = if (s =? "")%string then c else Some s) as Hkeep.
  { intros s c. unfold keepUnlessGiven, NULLIF_empty, orText.
    destruct (s =? "")%string eqn:E; [reflexivity|]. now rewrite E. }
  split.
  { cbn [patch_listing carry_listings.from_country carry_listings.from_city
         carry_listings.to_country carry_listings.to_city
         carry_listings.travel_date carry_listings.arrival_date
         carry_listings.item_type carry_listings.description
         carry_listings.currency p_from_country p_from_city p_to_country
         p_to_city p_travel_date p_arrival_date p_item_type p_description
         p_currency].
    repeat (constructor; [apply Hkeep|]). constructor. }
  split.
  { cbn [patch_listing carry_listings.available_weight
         carry_listings.reward_amount p_available_weight p_reward_amount].
    repeat (constructor; [reflexivity|]). constructor. }
  split.
  { cbn [patch_listing carry_listings.data_json p_data_json].
    destruct (payload_defined body) as [s Hs]. now rewrite Hs. }
  split; [reflexivity|]. split; [reflexivity|]. split; [reflexivity|].
  intros j Hj. unfold listing_by_id, with_listings. cbn [listings].
  rewrite (get_after_update carry_listings.id) by reflexivity.
  destruct (get (fun r => carry_listings.id r =? j) (listings db)) as [x|] eqn:Hx;
    [|reflexivity].
  cbn [option_map]. apply get_by_key_sound in Hx. destruct Hx as [Hk _].
  rewrite Hk.
  replace (j =? id) with false by (symmetry; now apply Z.eqb_neq).
  reflexivity.
Qed.

Lemma update_merges_field_by_field_witness :
  let req := Scenario.call 7 "1" (JObj [("from_city", JStr "  ");
                                        ("to_city", JStr " Accra ");
                                        ("available_weight", JStr "heavy");
                                        ("reward_amount", JNum (Fin (25 # 2)))]) in
  let priceless :=
    Scenario.call 7 "1" (JObj [("to_city", JStr "Accra");
                               ("reward_amount", JObj [("toString", JNull)])]) in
  (exists l',
     listing_by_id (fst (updateListing (host 1) "09:30" Scenario.listed req)) 1
     = Some l'
     /\ carry_listings.from_city l' = Some "Paris"
     /\ carry_listings.to_city l' = Some "Accra"
     /\ carry_listings.available_weight l' = None
     /\ carry_listings.reward_amount l' = Some (25 # 2)
     /\ carry_listings.updated_at l' = "09:30")
  /\ updateListing (host 1) "09:30" Scenario.listed priceless
     = (Scenario.listed,
        {| Carry.status := 500; Carry.json := Carry.Error "Failed to update" |}).
Proof.
  intros req priceless. split.
  - destruct (proj2 (update_merges_field_by_field (host 1) "09:30" Scenario.listed
                       req _ ltac:(vm_compute; discriminate) eq_refl
                       ltac:(vm_compute; discriminate) (or_introl eq_refl))
                _ _ eq_refl eq_refl)
      as (l' & Hl' & _ & Htext & Hnum & _ & Hupd & _).
    exists l'. split; [exact Hl'|].
    inversion Htext as [|? ? _ Ht1]; subst. inversion Ht1 as [|? ? Hfc Ht2]; subst.
    inversion Ht2 as [|? ? _ Ht3]; subst. inversion Ht3 as [|? ? Htc _]; subst.
    inversion Hnum as [|? ? Hw Hn1]; subst. inversion Hn1 as [|? ? Hr _]; subst.
    split; [exact Hfc|]. split; [exact Htc|]. split; [exact Hw|].
    split; [exact Hr | exact Hupd].
  - apply (proj1 (update_merges_field_by_field (host 1) "09:30" Scenario.listed
                    priceless _ ltac:(vm_compute; discriminate) eq_refl
                    ltac:(vm_compute; discriminate) (or_introl eq_refl))).
    right. reflexivity.
Defined.

(** *** Removing a listing *)

Lemma listed_rows (opts : Opts) (t : list carry_listings.row) (f : Filter)
      (it : listing.t) :
  In it (map (mapListing opts)
             (LIMIT 200 (ORDER_BY newestFirst (all (listed f) t)))) ->
  exists row, In row t /\ listed f row = true /\ it = mapListing opts row.
Proof.
  intros H. apply in_map_iff in H. destruct H as [row [<- Hrow]].
  unfold LIMIT in Hrow. apply firstn_In in Hrow. apply ORDER_BY_In in Hrow.
  unfold all in Hrow. apply filter_In in Hrow. destruct Hrow as [Hin Hl].
  exists row. auto.
Qed.

Lemma removed_rows_are_inactive (now : string) (i : Z)
      (t : list carry_listings.row) (x : carry_listings.row) :
  In x (update (fun r => carry_listings.id r =? i) (set_listing_inactive now) t) ->
  carry_listings.id x = i -> carry_listings.is_active x = 0.
Proof.
  unfold update. intros H Hx. apply in_map_iff in H. destruct H as [y [Hy _]].
  destruct (carry_listings.id y =? i) eqn:E.
  - subst x. reflexivity.
  - subst x. apply Z.eqb_neq in E. contradiction.
Qed.

Lemma no_active_row_after_removal (now : string) (db : Db) (i : Z) :
  active_listing_by_id
    (with_listings db
       (update (fun r => carry_listings.id r =? i) (set_listing_inactive now)
               (listings db))) i = None.
Proof.
  unfold active_listing_by_id, with_listings, get. cbn [listings].
  destruct (find _ _) as [x|] eqn:E; [|reflexivity].
  apply find_some in E. destruct E as [Hin Hx].
  apply andb_true_iff in Hx. destruct Hx as [Hk Ha].
  apply Z.eqb_eq in Hk, Ha.
  rewrite (removed_rows_are_inactive now i _ x Hin Hk) in Ha. discriminate.
Qed.

(** X7 -- Once its owner or an admin has removed a listing, the row is
    still stored, flagged inactive, and its requests, messages and reviews
    are untouched; but the listing is gone for the readers: the detail route
    answers 404, the list route shows no item with that id, and a match
    request for it is refused with 404. *)
Theorem removed_listing_is_hidden_but_kept
        (opts : Opts) (now : string) (db : Db) (req : Request)
        (l : carry_listings.row) :
  let id := toInt opts (req_params_id req) in
  let out := deleteListing opts now db req in
  id <> 0 ->
  listing_by_id db id = Some l ->
  req_user_id req <> 0 ->
  req_user_id req = carry_listings.user_id l \/ isAdminReq opts req = true ->
  snd out = {| Carry.status := 200; Carry.json := Ok |}
  /\ listing_by_id (fst out) id = Some (set_listing_inactive now l)
  /\ requests (fst out) = requests db
  /\ messages (fst out) = messages db
  /\ reviews (fst out) = reviews db
  /\ (forall reader, toInt opts (req_params_id reader) = id ->
        getListing opts (fst out) reader
        = {| status := 404; json := Error "Not found" |})
  /\ (forall query it,
        json (listListings opts (fst out) query) = OkItems it ->
        forall item, In item it -> listing.id item <> id)
  /\ (forall later asker, toInt opts (req_params_id asker) = id ->
        createRequest opts later (fst out) asker
        = (fst out, {| Carry.status := 404; Carry.json := Carry.Error "Not found" |})).
Proof.
  intros id out Hid Hl Hnz Hwho. subst out.
  assert ((id =? 0) = false) as Hz by now apply Z.eqb_neq.
  unfold deleteListing. fold id.
  rewrite Hz, Hl, (canEdit_granted opts req _ Hnz Hwho). cbn [negb fst snd].
  split; [reflexivity|]. split.
  { now apply updated_row_is_read_back. }
  split; [reflexivity|]. split; [reflexivity|]. split; [reflexivity|].
  split; [|split].
  - intros reader Hreader. unfold getListing. rewrite Hreader, Hz.
    now rewrite no_active_row_after_removal.
  - intros query it Hit item Hitem.
    unfold listListings in Hit.
    destruct (filterOf query) as [f|]; [|discriminate Hit].
    destruct (likeFails f _); [discriminate Hit|].
    unfold reply in Hit. cbn [json] in Hit. injection Hit as <-.
    apply listed_rows in Hitem. destruct Hitem as (row & Hin & Hlisted & ->).
    cbn [mapListing listing.id]. intros Hrow.
    pose proof (removed_rows_are_inactive now id _ row Hin Hrow) as Hoff.
    unfold listed, activeInRole in Hlisted. rewrite Hoff in Hlisted. discriminate.
  - intros later asker Hasker. unfold createRequest. rewrite Hasker, Hz.
    now rewrite no_active_row_after_removal.
Qed.

Lemma removed_listing_is_hidden_but_kept_witness :
  let out := deleteListing (host 1) "09:10" Scenario.requested
                           (Scenario.call 7 "1" JNull) in
  option_map carry_listings.is_active (listing_by_id (fst out) 1) = Some 0
  /\ List.length (requests (fst out)) = 1%nat
  /\ getListing (host 1) (fst out) (Scenario.call 9 "1" JNull)
     = {| status := 404; json := Error "Not found" |}.
Proof.
  intros out.
  destruct (removed_listing_is_hidden_but_kept (host 1) "09:10"
              Scenario.requested (Scenario.call 7 "1" JNull) _
              ltac:(vm_compute; discriminate) eq_refl
              ltac:(vm_compute; discriminate) (or_introl eq_refl))
    as (_ & Hrow & Hreq & _ & _ & Hget & _).
  split; [exact (f_equal (option_map carry_listings.is_active) Hrow)|].
  split; [exact (f_equal (@List.length _) Hreq)|].
  apply Hget. reflexivity.
Defined.

(** *** Accepting and rejecting *)

(** X8 -- Accept and reject fail alike: with 404 "Not found" when no match
    request has the id, with 404 "Listing missing" when the request's
    listing has no row, and with 403 when the caller is neither the owner of
    the listing nor an admin -- being the author of the request gives no
    right.  A permitted reject sets the request to 'rejected' and leaves the
    listings table as it was. *)
Theorem accept_and_reject_refusals
        (opts : Opts) (now : string) (db : Db) (req : Request) :
  let id := toInt opts (req_params_id req) in
  id <> 0 ->
  (request_by_id db id = None ->
     acceptRequest opts now db req
     = (db, {| Carry.status := 404; Carry.json := Carry.Error "Not found" |})
     /\ rejectRequest opts db req
        = (db, {| Carry.status := 404; Carry.json := Carry.Error "Not found" |}))
  /\ (forall r, request_by_id db id = Some r ->
        listing_by_id db (carry_requests.listing_id r) = None ->
        acceptRequest opts now db req
        = (db, {| Carry.status := 404; Carry.json := Carry.Error "Listing missing" |})
        /\ rejectRequest opts db req
           = (db, {| Carry.status := 404; Carry.json := Carry.Error "Listing missing" |}))
  /\ (forall r l, request_by_id db id = Some r ->
        listing_by_id db (carry_requests.listing_id r) = Some l ->
        req_user_id req <> carry_listings.user_id l ->
        isAdminReq opts req = false ->
        acceptRequest opts now db req
        = (db, {| Carry.status := 403; Carry.json := Carry.Error "Forbidden" |})
        /\ rejectRequest opts db req
           = (db, {| Carry.status := 403; Carry.json := Carry.Error "Forbidden" |}))
  /\ (forall r l, request_by_id db id = Some r ->
        listing_by_id db (carry_requests.listing_id r) = Some l ->
        req_user_id req <> 0 ->
        req_user_id req = carry_listings.user_id l \/ isAdminReq opts req = true ->
        snd (rejectRequest opts db req) = {| Carry.status := 200; Carry.json := Ok |}
        /\ request_by_id (fst (rejectRequest opts db req)) id
           = Some (set_request_status "rejected" r)
        /\ listings (fst (rejectRequest opts db req)) = listings db).
Proof.
  intros id Hid.
  assert ((id =? 0) = false) as Hz by now apply Z.eqb_neq.
  unfold acceptRequest, rejectRequest. fold id. rewrite Hz.
  split; [|split; [|split]].
  - intros ->. split; reflexivity.
  - intros r -> ->. split; reflexivity.
  - intros r l -> -> Hown Hadm. rewrite (canEdit_refused opts req _ Hown Hadm).
    split; reflexivity.
  - intros r l Hr Hl Hnz Hwho.
    rewrite Hr, Hl, (canEdit_granted opts req _ Hnz Hwho). cbn [negb fst snd].
    split; [reflexivity|]. split; [|reflexivity].
    unfold request_by_id, with_requests. cbn [requests].
    rewrite (get_after_update carry_requests.id) by reflexivity.
    fold (request_by_id db id). rewrite Hr. cbn [option_map].
    apply get_by_key_sound in Hr. destruct Hr as [-> _].
    now rewrite Z.eqb_refl.
Qed.

Lemma accept_and_reject_refusals_witness :
  acceptRequest (host 1) "09:30" Scenario.requested (Scenario.call 9 "1" JNull)
  = (Scenario.requested,
     {| Carry.status := 403; Carry.json := Carry.Error "Forbidden" |})
  /\ rejectRequest (host 1) Scenario.requested (Scenario.call 7 "8" JNull)
     = (Scenario.requested,
        {| Carry.status := 404; Carry.json := Carry.Error "Not found" |}).
Proof.
  split.
  - apply (proj1 (proj2 (proj2 (accept_and_reject_refusals (host 1) "09:30"
                                  Scenario.requested (Scenario.call 9 "1" JNull)
                                  ltac:(vm_compute; discriminate))))
             _ _ eq_refl eq_refl ltac:(vm_compute; discriminate) eq_refl).
  - apply (proj1 (accept_and_reject_refusals (host 1) "09:30"
                    Scenario.requested (Scenario.call 7 "8" JNull)
                    ltac:(vm_compute; discriminate))).
    reflexivity.
Defined.

(** *** Asking twice *)

(** X9 -- A first match request by a user who is not the owner, on an
    active listing that is open, is stored as a new 'pending' row under a
    key larger than every key in use, and that key is returned.  The same
    request sent again is then refused with 400 "Already requested" and
    stores nothing. *)
Theorem first_request_is_stored_and_not_repeated
        (opts : Opts) (now later : string) (db : Db) (req : Request)
        (l : carry_listings.row) :
  let listingId := toInt opts (req_params_id req) in
  let out := createRequest opts now db req in
  wf db = true ->
  listing_by_id db listingId = Some l ->
  carry_listings.is_active l = 1 ->
  carry_listings.user_id l <> req_user_id req ->
  carry_listings.status l = "open" ->
  request_of db listingId (req_user_id req) = None ->
  let rid := nextId (map carry_requests.id (requests db)) in
  let row := {| carry_requests.id := rid;
                carry_requests.listing_id := listingId;
                carry_requests.requester_id := req_user_id req;
                carry_requests.status := "pending";
                carry_requests.created_at := now |} in
  out = ({| listings := listings db; requests := requests db ++ [row];
            messages := messages db; reviews := reviews db |},
         {| Carry.status := 200; Carry.json := OkRequest rid "pending" |})
  /\ (forall r, In r (requests db) -> carry_requests.id r < rid)
  /\ request_by_id (fst out) rid = Some row
  /\ createRequest opts later (fst out) req
     = (fst out, {| Carry.status := 400; Carry.json := Carry.Error "Already requested" |}).
Proof.
  intros listingId out Hwf Hl Hact Hown Hopen Hnone rid row.
  pose proof (listing_key_positive db _ l Hwf Hl) as Hpos.
  assert ((listingId =? 0) = false) as Hz by (apply Z.eqb_neq; lia).
  assert ((carry_listings.user_id l =? req_user_id req) = false) as Hu
    by now apply Z.eqb_neq.
  assert (out = ({| listings := listings db; requests := requests db ++ [row];
                    messages := messages db; reviews := reviews db |},
                 {| Carry.status := 200; Carry.json := OkRequest rid "pending" |}))
    as Hout.
  { subst out. unfold createRequest. fold listingId.
    rewrite Hz, (active_listing_found db _ l Hl Hact), Hu, Hopen, Hnone.
    reflexivity. }
  split; [exact Hout|]. split.
  { intros r Hr. apply nextId_above. now apply in_map. }
  rewrite Hout. cbn [fst].
  assert (request_of {| listings := listings db; requests := requests db ++ [row];
                        messages := messages db; reviews := reviews db |}
                     listingId (req_user_id req) = Some row) as Hfound.
  { unfold request_of. cbn [requests]. apply get_the_new_row.
    - exact (get_none_no_row _ _ Hnone).
    - subst row. cbn. now rewrite !Z.eqb_refl. }
  split.
  - unfold request_by_id. cbn [requests]. apply get_the_new_row.
    + intros y Hy. now apply nextId_not_a_key.
    + apply Z.eqb_refl.
  - unfold createRequest. fold listingId. rewrite Hz.
    replace (active_listing_by_id _ listingId) with (Some l)
      by (symmetry; exact (active_listing_found db _ l Hl Hact)).
    rewrite Hu, Hopen, Hfound. subst row. cbn [carry_requests.id carry_requests.status].
    replace (rid =? 0) with false
      by (symmetry; apply Z.eqb_neq; pose proof (nextId_positive
            (map carry_requests.id (requests db))); subst rid; lia).
    reflexivity.
Qed.

Lemma first_request_is_stored_and_not_repeated_witness :
  let req := Scenario.call 9 "1" JNull in
  let out := createRequest (host 1) "09:05" Scenario.listed req in
  snd out = {| Carry.status := 200; Carry.json := OkRequest 1 "pending" |}
  /\ createRequest (host 1) "09:06" (fst out) req
     = (fst out, {| Carry.status := 400; Carry.json := Carry.Error "Already requested" |}).
Proof.
  intros req out.
  destruct (first_request_is_stored_and_not_repeated (host 1) "09:05" "09:06"
              Scenario.listed req _ eq_refl eq_refl eq_refl
              ltac:(vm_compute; discriminate) eq_refl eq_refl)
    as (Hout & _ & _ & Hagain).
  split; [exact (f_equal snd Hout) | exact Hagain].
Defined.

Lemma matched_rows (now : string) (i : Z)
      (t : list carry_listings.row) (x : carry_listings.row) :
  In x (update (fun r => carry_listings.id r =? i) (set_listing_status "matched" now) t) ->
  carry_listings.id x = i -> carry_listings.status x = "matched".
Proof.
  unfold update. intros H Hx. apply in_map_iff in H. destruct H as [y [Hy _]].
  destruct (carry_listings.id y =? i) eqn:E.
  - subst x. reflexivity.
  - subst x. apply Z.eqb_neq in E. contradiction.
Qed.

(** A matched listing stays matched, and keeps its owner, whatever is served
    next. *)
Lemma serve_keeps_matched
      (opts : Opts) (calls : list (string * Route * Request)) (db : Db)
      (i : Z) (l : carry_listings.row) :
  listing_by_id db i = Some l ->
  carry_listings.status l = "matched" ->
  exists l',
    listing_by_id (serve opts db calls) i = Some l'
    /\ carry_listings.status l' = "matched"
    /\ carry_listings.user_id l' = carry_listings.user_id l.
Proof.
  revert db l. induction calls as [|[[now route] req] rest IH];
    intros db l Hl Hst; cbn [serve].
  - exists l. auto.
  - destruct (listing_after_handle opts now route db req i l Hl)
      as (l1 & Hl1 & _ & Hu1 & _ & _ & Hs1 & _).
    assert (carry_listings.status l1 = "matched") as Hst1.
    { destruct Hs1 as [Hs1|[_ Hs1]]; [now rewrite Hs1 | exact Hs1]. }
    destruct (IH _ l1 Hl1 Hst1) as (l' & Hl' & Hst' & Hu').
    exists l'. split; [exact Hl'|]. split; [exact Hst'|]. now rewrite Hu', Hu1.
Qed.

(** With distinct keys, the active row of an id is the row of that id. *)
Lemma active_listing_is_the_listing (db : Db) (i : Z) (l x : carry_listings.row) :
  wf db = true ->
  listing_by_id db i = Some l ->
  active_listing_by_id db i = Some x -> x = l.
Proof.
  intros Hwf Hl Hx. apply wf_well_formed in Hwf. destruct Hwf as (_ & Hnd & _).
  unfold active_listing_by_id, get in Hx. apply find_some in Hx.
  destruct Hx as [Hin Hk]. apply andb_true_iff in Hk. destruct Hk as [Hk _].
  apply Z.eqb_eq in Hk.
  pose proof (get_the_row_of_a_key carry_listings.id _ x Hnd Hin) as Hget.
  rewrite Hk in Hget. unfold listing_by_id in Hl. congruence.
Qed.

(** X10 -- Once a match request has been accepted, its listing takes no new
    request, whatever has been served in between, one request after the
    other: the listing is still stored with status 'matched', and whoever
    asks for it is refused and nothing is stored -- with 404 "Not found"
    when the listing has been removed meanwhile, with a 400 otherwise,
    "Listing not open" for anyone but the owner. *)
Theorem accepted_listing_takes_no_request
        (opts : Opts) (now later : string) (db : Db) (req asker : Request)
        (calls : list (string * Route * Request))
        (r : carry_requests.row) (l : carry_listings.row) :
  let db' := serve opts (fst (acceptRequest opts now db req)) calls in
  let out := createRequest opts later db' asker in
  wf db = true ->
  request_by_id db (toInt opts (req_params_id req)) = Some r ->
  listing_by_id db (carry_requests.listing_id r) = Some l ->
  req_user_id req <> 0 ->
  req_user_id req = carry_listings.user_id l \/ isAdminReq opts req = true ->
  toInt opts (req_params_id asker) = carry_requests.listing_id r ->
  fst out = db'
  /\ (Carry.status (snd out) = 400 \/ Carry.status (snd out) = 404)
  /\ exists l',
       listing_by_id db' (carry_requests.listing_id r) = Some l'
       /\ carry_listings.status l' = "matched"
       /\ carry_listings.user_id l' = carry_listings.user_id l
       /\ (carry_listings.is_active l' <> 1 ->
           snd out = {| Carry.status := 404; Carry.json := Carry.Error "Not found" |})
       /\ (carry_listings.is_active l' = 1 ->
           Carry.status (snd out) = 400
           /\ (carry_listings.user_id l <> req_user_id asker ->
               snd out = {| Carry.status := 400;
                            Carry.json := Carry.Error "Listing not open" |})).
Proof.
  intros db' out Hwf Hr Hl Hnz Hwho Hasker.
  assert (toInt opts (req_params_id req) <> 0) as Hid.
  { pose proof Hr as Hr'. apply get_by_key_sound in Hr'. destruct Hr' as [Hk Hin].
    pose proof (request_key_positive db r Hwf Hin). lia. }
  pose proof (listing_key_positive db _ l Hwf Hl) as Hlpos.
  assert (carry_listings.id l = carry_requests.listing_id r) as Hlid.
  { apply get_by_key_sound in Hl. tauto. }
  set (accepted := fst (acceptRequest opts now db req)) in *.
  assert (listing_by_id accepted (carry_requests.listing_id r)
          = Some (set_listing_status "matched" now l)) as Hl1.
  { subst accepted. unfold acceptRequest.
    replace (toInt opts (req_params_id req) =? 0) with false
      by (symmetry; now apply Z.eqb_neq).
    rewrite Hr, Hl, (canEdit_granted opts req _ Hnz Hwho). cbn [negb fst].
    rewrite Hlid.
    apply (updated_row_is_read_back
             (with_requests db
                (update (fun x => carry_requests.id x =? toInt opts (req_params_id req))
                        (set_request_status "accepted") (requests db)))
             _ l (set_listing_status "matched" now) (fun _ => eq_refl)).
    exact Hl. }
  assert (wf db' = true) as Hwf'.
  { subst db'. apply serve_keeps_wf. subst accepted.
    exact (handle_keeps_wf opts now PATCH_request_accept db req Hwf). }
  destruct (serve_keeps_matched opts calls accepted _ _ Hl1 eq_refl)
    as (l' & Hl' & Hst' & Hu'). fold db' in Hl'.
  cbn [set_listing_status carry_listings.user_id] in Hu'.
  subst out. unfold createRequest. rewrite Hasker.
  replace (carry_requests.listing_id r =? 0) with false
    by (symmetry; apply Z.eqb_neq; lia).
  destruct (active_listing_by_id db' (carry_requests.listing_id r)) as [x|] eqn:Hx.
  - pose proof (active_listing_is_the_listing db' _ l' x Hwf' Hl' Hx) as ->.
    assert (carry_listings.is_active l' = 1) as Hact.
    { unfold active_listing_by_id, get in Hx. apply find_some in Hx.
      destruct Hx as [_ Hk]. apply andb_true_iff in Hk. destruct Hk as [_ Hk].
      now apply Z.eqb_eq in Hk. }
    rewrite Hst'. cbn [String.eqb Ascii.eqb Bool.eqb negb].
    destruct (carry_listings.user_id l' =? req_user_id asker) eqn:Hxu.
    + split; [reflexivity|]. split; [left; reflexivity|].
      exists l'. split; [exact Hl'|]. split; [exact Hst'|]. split; [exact Hu'|].
      split; [intros Hoff; contradiction|].
      intros _. split; [reflexivity|].
      intros Hother. apply Z.eqb_eq in Hxu. rewrite Hu' in Hxu. contradiction.
    + split; [reflexivity|]. split; [left; reflexivity|].
      exists l'. split; [exact Hl'|]. split; [exact Hst'|]. split; [exact Hu'|].
      split; [intros Hoff; contradiction|].
      intros _. split; reflexivity.
  - split; [reflexivity|]. split; [right; reflexivity|].
    exists l'. split; [exact Hl'|]. split; [exact Hst'|]. split; [exact Hu'|].
    split; [reflexivity|].
    intros Hact. exfalso.
    pose proof (active_listing_found db' _ _ Hl' Hact) as Hfound.
    rewrite Hx in Hfound. discriminate.
Qed.

Lemma accepted_listing_takes_no_request_witness :
  let accepted :=
    fst (acceptRequest (host 1) "09:10" Scenario.requested (Scenario.call 7 "1" JNull)) in
  let later :=
    serve (host 1) accepted
      [("09:15", POST_listing_messages,
        Scenario.call 9 "1" (JObj [("message", JStr "thanks")]));
       ("09:20", PATCH_listing,
        Scenario.call 7 "1" (JObj [("to_city", JStr "Accra")]))] in
  let gone :=
    serve (host 1) accepted
      [("09:15", DELETE_listing, Scenario.call 7 "1" JNull)] in
  createRequest (host 1) "09:30" later (Scenario.call 12 "1" JNull)
  = (later, {| Carry.status := 400; Carry.json := Carry.Error "Listing not open" |})
  /\ createRequest (host 1) "09:30" gone (Scenario.call 12 "1" JNull)
     = (gone, {| Carry.status := 404; Carry.json := Carry.Error "Not found" |}).
Proof.
  intros accepted later gone. split.
  - destruct (accepted_listing_takes_no_request (host 1) "09:10" "09:30"
                Scenario.requested (Scenario.call 7 "1" JNull)
                (Scenario.call 12 "1" JNull)
                [("09:15", POST_listing_messages,
                  Scenario.call 9 "1" (JObj [("message", JStr "thanks")]));
                 ("09:20", PATCH_listing,
                  Scenario.call 7 "1" (JObj [("to_city", JStr "Accra")]))]
                _ _ eq_refl eq_refl eq_refl
                ltac:(vm_compute; discriminate) (or_introl eq_refl) eq_refl)
      as (Hdb & _ & l' & Hl' & _ & _ & _ & Hres).
    apply injective_projections; cbn [fst snd]; [exact Hdb|].
    injection Hl' as <-.
    apply (Hres eq_refl). vm_compute; discriminate.
  - destruct (accepted_listing_takes_no_request (host 1) "09:10" "09:30"
                Scenario.requested (Scenario.call 7 "1" JNull)
                (Scenario.call 12 "1" JNull)
                [("09:15", DELETE_listing, Scenario.call 7 "1" JNull)]
                _ _ eq_refl eq_refl eq_refl
                ltac:(vm_compute; discriminate) (or_introl eq_refl) eq_refl)
      as (Hdb & _ & l' & Hl' & _ & _ & Hoff & _).
    apply injective_projections; cbn [fst snd]; [exact Hdb|].
    injection Hl' as <-.
    apply Hoff. vm_compute; discriminate.
Defined.

(** *** The order of texts *)

Lemma ascii_compare_lt_trans (a b c : ascii) :
  Ascii.compare a b = Lt -> Ascii.compare b c = Lt -> Ascii.compare a c = Lt.
Proof.
  unfold Ascii.compare. rewrite !N.compare_lt_iff. apply N.lt_trans.
Qed.

Lemma string_compare_refl (s : string) : String.compare s s = Eq.
Proof.
  induction s as [|c s IH]; simpl; [reflexivity|].
  unfold Ascii.compare. now rewrite N.compare_refl.
Qed.

Lemma string_compare_lt_trans (a b c : string) :
  String.compare a b = Lt -> String.compare b c = Lt -> String.compare a c = Lt.
Proof.
  revert b c. induction a as [|x a IH]; intros [|y b] [|z c]; simpl;
    try discriminate; try reflexivity.
  destruct (Ascii.compare x y) eqn:Exy; try discriminate;
    destruct (Ascii.compare y z) eqn:Eyz; try discriminate; intros H1 H2.
  - apply Ascii.compare_eq_iff in Exy, Eyz. subst.
    unfold Ascii.compare. rewrite N.compare_refl. eauto.
  - apply Ascii.compare_eq_iff in Exy. subst. now rewrite Eyz.
  - apply Ascii.compare_eq_iff in Eyz. subst. now rewrite Exy.
  - now rewrite (ascii_compare_lt_trans x y z Exy Eyz).
Qed.

Lemma string_leb_trans (a b c : string) :
  String.leb a b = true -> String.leb b c = true -> String.leb a c = true.
Proof.
  unfold String.leb.
  destruct (String.compare a b) eqn:Eab; try discriminate;
    destruct (String.compare b c) eqn:Ebc; try discriminate; intros _ _.
  - apply String.compare_eq_iff in Eab, Ebc. subst. now rewrite string_compare_refl.
  - apply String.compare_eq_iff in Eab. subst. now rewrite Ebc.
  - apply String.compare_eq_iff in Ebc. subst. now rewrite Eab.
  - now rewrite (string_compare_lt_trans a b c Eab Ebc).
Qed.

Lemma firstn_all {A} (n : nat) (l : list A) :
  (List.length l <= n)%nat -> firstn n l = l.
Proof.
  revert n. induction l as [|x l IH]; intros [|n] H; simpl in *;
    try reflexivity; try lia.
  f_equal. apply IH. lia.
Qed.

Lemma ORDER_BY_length {A} (le : A -> A -> bool) (l : list A) :
  List.length (ORDER_BY le l) = List.length l.
Proof.
  symmetry. apply Permutation_length, ORDER_BY_perm.
Qed.

(** *** Messages *)

Lemma selected_rows_sound {A} (le : A -> A -> bool) (p : A -> bool) (n : Z)
      (t : list A) (x : A) :
  In x (LIMIT n (ORDER_BY le (all p t))) -> In x t /\ p x = true.
Proof.
  intros H. unfold LIMIT in H. apply firstn_In in H. apply ORDER_BY_In in H.
  unfold all in H. now apply filter_In in H.
Qed.

Lemma selected_rows_complete {A} (le : A -> A -> bool) (p : A -> bool) (n : Z)
      (t : list A) (x : A) :
  (List.length (all p t) <= Z.to_nat n)%nat ->
  In x t -> p x = true -> In x (LIMIT n (ORDER_BY le (all p t))).
Proof.
  intros Hlen Hin Hp. unfold LIMIT.
  rewrite firstn_all by (now rewrite ORDER_BY_length).
  apply ORDER_BY_In. unfold all. apply filter_In. auto.
Qed.

Lemma selected_rows_bounded {A} (n : Z) (l : list A) :
  0 <= n -> Z.of_nat (List.length (LIMIT n l)) <= n.
Proof.
  intros Hn. unfold LIMIT. rewrite length_firstn. lia.
Qed.

Lemma oldestFirst_total (a b : carry_messages.row) :
  oldestFirst a b = true \/ oldestFirst b a = true.
Proof. apply String.leb_total. Qed.

Lemma oldestFirst_trans (a b c : carry_messages.row) :
  oldestFirst a b = true -> oldestFirst b c = true -> oldestFirst a c = true.
Proof. apply string_leb_trans. Qed.

(** X11 -- Reading the messages of a listing needs only a well-formed id
    (400 otherwise): the listing itself is never looked up.  The answer
    holds messages of that listing only, at most 200, the oldest first; when
    the listing has no more than 200 messages, it holds all of them. *)
Theorem messages_are_read_oldest_first
        (opts : Opts) (db : Db) (req : Request) :
  let listingId := toInt opts (req_params_id req) in
  (listingId = 0 ->
     readMessages opts db req = {| status := 400; json := Error "Bad id" |})
  /\ (listingId <> 0 ->
      exists rows,
        readMessages opts db req = {| status := 200; json := OkMessages rows |}
        /\ (forall m, In m rows ->
              In m (messages db) /\ carry_messages.listing_id m = listingId)
        /\ (List.length rows <= 200)%nat
        /\ StronglySorted
             (fun a b => String.leb (carry_messages.created_at a)
                                    (carry_messages.created_at b) = true) rows
        /\ ((List.length
               (filter (fun m => (carry_messages.listing_id m =? listingId)%Z)
                       (messages db)) <= 200)%nat ->
            forall m, In m (messages db) ->
                      carry_messages.listing_id m = listingId -> In m rows)).
Proof.
  intros listingId. unfold readMessages. fold listingId. split.
  - intros ->. reflexivity.
  - intros Hid.
    replace (listingId =? 0) with false by (symmetry; now apply Z.eqb_neq).
    eexists. split; [reflexivity|]. split; [|split; [|split]].
    + intros m Hm. apply selected_rows_sound in Hm. destruct Hm as [Hin Hp].
      apply Z.eqb_eq in Hp. auto.
    + pose proof (selected_rows_bounded 200
                    (ORDER_BY oldestFirst
                       (all (fun m => carry_messages.listing_id m =? listingId)
                            (messages db))) ltac:(lia)). lia.
    + apply firstn_sorted, ORDER_BY_sorted.
      * exact oldestFirst_total.
      * exact oldestFirst_trans.
    + intros Hlen m Hin Hm. apply selected_rows_complete; auto.
      now apply Z.eqb_eq.
Qed.

Lemma messages_are_read_oldest_first_witness :
  exists rows,
    readMessages (host 1)
      (serve (host 1) empty
         [("10:00", POST_listing_messages,
           Scenario.call 9 "42" (JObj [("message", JStr "second")]));
          ("09:00", POST_listing_messages,
           Scenario.call 7 "42" (JObj [("message", JStr "first")]))])
      (Scenario.call 3 "42" JNull)
    = {| status := 200; json := OkMessages rows |}
    /\ map carry_messages.message rows = ["first"; "second"].
Proof.
  destruct (proj2 (messages_are_read_oldest_first (host 1)
                     (serve (host 1) empty
                        [("10:00", POST_listing_messages,
                          Scenario.call 9 "42" (JObj [("message", JStr "second")]));
                         ("09:00", POST_listing_messages,
                          Scenario.call 7 "42" (JObj [("message", JStr "first")]))])
                     (Scenario.call 3 "42" JNull))
              ltac:(vm_compute; discriminate))
    as (rows & Hrows & _).
  exists rows. split; [exact Hrows|].
  vm_compute in Hrows. injection Hrows as <-. reflexivity.
Defined.

(** X12 -- A message that has been posted is read back: after a successful
    post on a listing id that had fewer than 200 messages, reading the
    messages of that id answers 200 with a list that contains the row the
    post returned. *)
Theorem posted_message_is_read_back
        (opts : Opts) (now : string) (db : Db) (req reader : Request) :
  let listingId := toInt opts (req_params_id req) in
  let text := safeTrim opts (prop (req_body req) "message") in
  let out := postMessage opts now db req in
  0 < listingId ->
  (text =? "")%string = false ->
  (List.length (filter (fun m => (carry_messages.listing_id m =? listingId)%Z)
                       (messages db)) < 200)%nat ->
  toInt opts (req_params_id reader) = listingId ->
  exists row rows,
    snd out = {| Carry.status := 200; Carry.json := OkMessage (Some row) |}
    /\ carry_messages.message row = text
    /\ carry_messages.sender_id row = req_user_id req
    /\ readMessages opts (fst out) reader
       = {| status := 200; json := OkMessages rows |}
    /\ In row rows.
Proof.
  intros listingId text out Hid Htext Hroom Hreader. subst out.
  assert ((listingId =? 0) = false) as Hz by (apply Z.eqb_neq; lia).
  unfold postMessage. fold listingId. fold text. rewrite Hz, Htext.
  set (row := {| carry_messages.id := nextId (map carry_messages.id (messages db));
                 carry_messages.listing_id := listingId;
                 carry_messages.sender_id := req_user_id req;
                 carry_messages.message := text;
                 carry_messages.created_at := now |}).
  assert (message_by_id (with_messages db (messages db ++ [row]))
                        (nextId (map carry_messages.id (messages db))) = Some row)
    as Hback.
  { unfold message_by_id, with_messages. cbn [messages]. apply get_the_new_row.
    - intros y Hy. now apply nextId_not_a_key.
    - apply Z.eqb_refl. }
  rewrite Hback. cbn [fst snd].
  exists row. eexists. split; [reflexivity|]. split; [reflexivity|].
  split; [reflexivity|]. unfold readMessages. rewrite Hreader, Hz.
  split; [reflexivity|].
  apply selected_rows_complete.
  - unfold with_messages, all. cbn [messages]. rewrite filter_app, length_app.
    cbn [filter carry_messages.listing_id row]. rewrite Z.eqb_refl.
    cbn [List.length]. change (Z.to_nat 200) with 200%nat. lia.
  - unfold with_messages. cbn [messages]. apply in_or_app. right. now left.
  - cbn. apply Z.eqb_refl.
Qed.

Lemma posted_message_is_read_back_witness :
  exists row rows,
    snd (postMessage (host 1) "10:00" Scenario.removed
           (Scenario.call 9 "1" (JObj [("message", JStr " hello ")])))
    = {| Carry.status := 200; Carry.json := OkMessage (Some row) |}
    /\ carry_messages.message row = "hello"
    /\ readMessages (host 1)
         (fst (postMessage (host 1) "10:00" Scenario.removed
                 (Scenario.call 9 "1" (JObj [("message", JStr " hello ")]))))
         (Scenario.call 7 "1" JNull)
       = {| status := 200; json := OkMessages rows |}
    /\ In row rows.
Proof.
  destruct (posted_message_is_read_back (host 1) "10:00" Scenario.removed
              (Scenario.call 9 "1" (JObj [("message", JStr " hello ")]))
              (Scenario.call 7 "1" JNull)
              eq_refl eq_refl ltac:(vm_compute; lia) eq_refl)
    as (row & rows & Hpost & Htext & _ & Hread & Hin).
  exists row, rows. repeat split; assumption.
Defined.

(** *** Listing the listings *)

Lemma newestFirst_total (a b : carry_listings.row) :
  newestFirst a b = true \/ newestFirst b a = true.
Proof.
  unfold newestFirst.
  rewrite (String.compare_antisym (carry_listings.created_at a)
                                  (carry_listings.created_at b)).
  destruct (String.compare (carry_listings.created_at b)
                           (carry_listings.created_at a)); cbn; auto.
  rewrite !Z.leb_le. lia.
Qed.

Lemma newestFirst_trans (a b c : carry_listings.row) :
  newestFirst a b = true -> newestFirst b c = true -> newestFirst a c = true.
Proof.
  unfold newestFirst.
  destruct (String.compare (carry_listings.created_at b)
                           (carry_listings.created_at a)) eqn:Eba;
    try discriminate;
    destruct (String.compare (carry_listings.created_at c)
                             (carry_listings.created_at b)) eqn:Ecb;
    try discriminate; intros H1 H2.
  - apply String.compare_eq_iff in Eba, Ecb. rewrite Ecb, Eba.
    rewrite string_compare_refl. apply Z.leb_le. apply Z.leb_le in H1, H2. lia.
  - apply String.compare_eq_iff in Eba. rewrite <- Eba, Ecb. reflexivity.
  - apply String.compare_eq_iff in Ecb. rewrite Ecb, Eba. reflexivity.
  - now rewrite (string_compare_lt_trans _ _ _ Ecb Eba).
Qed.

Lemma long_query_is_not_empty : trim Scenario.long_query <> ""%string.
Proof.
  intros H.
  apply (f_equal (fun s => match s with EmptyString => true | _ => false end)) in H.
  vm_compute in H. discriminate H.
Qed.

(** X13 -- The list route, when the four filters of the query have a text
    and the text filter [q] is empty or gives a pattern within the 50000
    bytes that LIKE accepts, answers 200 with at most 200 items, each the
    mapping of a stored listing that is active; they come newest first (by
    creation time, then by id, both descending).  With a role filter that
    normalizes to 'traveler' or 'sender' every item has that role; with a
    country of origin, every item has exactly that country.  The route
    answers 500 "Failed to load" when a filter has no text, the conversion
    throwing, and when the pattern is longer while a listing is active and
    in the role asked for. *)
Theorem listing_list_is_active_newest_first
        (opts : Opts) (db : Db) (query : JsVal) :
  let text k := String_ (orElse (prop query k) (JStr "")) in
  let failed := {| status := 500; json := Error "Failed to load" |} in
  (clampRole (prop query "role") = Throw \/ text "q" = Throw
   \/ text "from_country" = Throw \/ text "to_country" = Throw ->
   listListings opts db query = failed)
  /\ (forall role q from_country to_country,
        clampRole (prop query "role") = Return role ->
        text "q" = Return q ->
        text "from_country" = Return from_country ->
        text "to_country" = Return to_country ->
        (trim q <> "" -> tooComplex ("%" ++ trim q ++ "%") = true ->
         forall row, In row (listings db) ->
           carry_listings.is_active row = 1 ->
           (forall r, role = Some r -> carry_listings.role row = r) ->
           listListings opts db query = failed)
        /\ (trim q = "" \/ tooComplex ("%" ++ trim q ++ "%") = false ->
            exists rows,
              listListings opts db query
              = {| status := 200; json := OkItems (map (mapListing opts) rows) |}
              /\ (List.length rows <= 200)%nat
              /\ (forall row, In row rows ->
                    In row (listings db) /\ carry_listings.is_active row = 1)
              /\ StronglySorted
                   (fun a b =>
                      String.compare (carry_listings.created_at b)
                                     (carry_listings.created_at a) = Lt
                      \/ (carry_listings.created_at b = carry_listings.created_at a
                          /\ carry_listings.id b <= carry_listings.id a))
                   rows
              /\ (forall r, role = Some r ->
                    forall row, In row rows -> carry_listings.role row = r)
              /\ (trim from_country <> "" ->
                  forall row, In row rows ->
                    carry_listings.from_country row = Some (trim from_country)))).
Proof.
  intros text failed. subst text failed. cbv beta. unfold listListings, filterOf.
  split.
  - intros [H|[H|[H|H]]].
    + rewrite H. reflexivity.
    + destruct (clampRole _); [|reflexivity]. cbn [bind]. rewrite H. reflexivity.
    + destruct (clampRole _); [|reflexivity]. cbn [bind].
      destruct (String_ (orElse (prop query "q") _)); [|reflexivity].
      cbn [bind]. rewrite H. reflexivity.
    + destruct (clampRole _); [|reflexivity]. cbn [bind].
      destruct (String_ (orElse (prop query "q") _)); [|reflexivity].
      cbn [bind].
      destruct (String_ (orElse (prop query "from_country") _)); [|reflexivity].
      cbn [bind]. rewrite H. reflexivity.
  - intros role q from_country to_country -> -> -> ->. cbn [bind].
    set (f := {| f_role := role; f_q := trim q;
                 f_from_country := trim from_country;
                 f_to_country := trim to_country |}).
    split.
    + intros Hq Hlong row Hin Hact Hrole.
      assert (likeFails f (listings db) = true) as ->; [|reflexivity].
      unfold likeFails. cbn [f_q f].
      apply String.eqb_neq in Hq. rewrite Hq, Hlong. cbn [negb andb].
      apply existsb_exists. exists row. split; [exact Hin|].
      unfold activeInRole. cbn [f_role f]. rewrite Hact. cbn [Z.eqb Pos.eqb andb].
      destruct role as [r|]; [|reflexivity].
      apply String.eqb_eq. now apply Hrole.
    + intros Hshort.
      assert (likeFails f (listings db) = false) as ->.
      { unfold likeFails. cbn [f_q f]. destruct Hshort as [-> | ->].
        - reflexivity.
        - now rewrite andb_false_r. }
      eexists. split; [reflexivity|].
      split; [|split; [|split; [|split]]].
      * pose proof (selected_rows_bounded 200
                      (ORDER_BY newestFirst (all (listed f) (listings db)))
                      ltac:(lia)). lia.
      * intros row Hrow. apply selected_rows_sound in Hrow.
        destruct Hrow as [Hin Hp].
        split; [exact Hin|]. unfold listed, activeInRole in Hp.
        rewrite !andb_true_iff in Hp. apply Z.eqb_eq. tauto.
      * apply StronglySorted_weaken with (R := fun a b => newestFirst a b = true).
        -- intros a b. unfold newestFirst.
           destruct (String.compare _ _) eqn:E; try discriminate; [|auto].
           intros H. right.
           split; [now apply String.compare_eq_iff | now apply Z.leb_le].
        -- apply firstn_sorted, ORDER_BY_sorted.
           ++ exact newestFirst_total.
           ++ exact newestFirst_trans.
      * intros r -> row Hrow. apply selected_rows_sound in Hrow.
        destruct Hrow as [_ Hp]. unfold listed, activeInRole in Hp.
        cbn [f_role f] in Hp.
        rewrite !andb_true_iff in Hp. apply String.eqb_eq. tauto.
      * intros Hne row Hrow. apply selected_rows_sound in Hrow.
        destruct Hrow as [_ Hp]. unfold listed in Hp.
        cbn [f_from_country f] in Hp.
        apply String.eqb_neq in Hne. rewrite Hne in Hp.
        rewrite !andb_true_iff in Hp. destruct Hp as [[_ Hp] _].
        unfold eqText in Hp.
        destruct (carry_listings.from_country row); [|discriminate].
        apply String.eqb_eq in Hp. now subst.
Qed.

Lemma listing_list_is_active_newest_first_witness :
  (exists rows,
     listListings (host 1)
       (serve (host 1) Scenario.removed
          [("09:20", POST_listings,
            Scenario.call 8 "" (JObj [("role", JStr "Sender ");
                                      ("from_country", JStr "Ghana")]));
           ("09:25", POST_listings, Scenario.call 8 "" Scenario.traveler)])
       (JObj [("role", JStr " SENDER")])
     = {| status := 200; json := OkItems (map (mapListing (host 1)) rows) |}
     /\ map carry_listings.id rows = [2])
  /\ listListings (host 1) Scenario.listed (JObj [("q", JStr Scenario.long_query)])
     = {| status := 500; json := Error "Failed to load" |}
  /\ listListings (host 1) Scenario.listed (JObj [("q", JObj [("toString", JStr "a")])])
     = {| status := 500; json := Error "Failed to load" |}.
Proof.
  split; [|split].
  - destruct (proj2 (proj2 (listing_list_is_active_newest_first (host 1)
                (serve (host 1) Scenario.removed
                   [("09:20", POST_listings,
                     Scenario.call 8 "" (JObj [("role", JStr "Sender ");
                                               ("from_country", JStr "Ghana")]));
                    ("09:25", POST_listings, Scenario.call 8 "" Scenario.traveler)])
                (JObj [("role", JStr " SENDER")]))
                (Some "sender"%string) "" "" "" eq_refl eq_refl eq_refl eq_refl)
               (or_introl eq_refl))
      as (rows & Hrows & _).
    eexists. split; reflexivity.
  - apply (proj1 (proj2 (listing_list_is_active_newest_first (host 1)
                Scenario.listed (JObj [("q", JStr Scenario.long_query)]))
                None Scenario.long_query "" "" eq_refl eq_refl eq_refl eq_refl)
             long_query_is_not_empty ltac:(vm_compute; reflexivity)
             _ (or_introl eq_refl) eq_refl).
    intros r Hr. discriminate Hr.
  - apply (proj1 (listing_list_is_active_newest_first (host 1)
                Scenario.listed (JObj [("q", JObj [("toString", JStr "a")])]))).
    right. left. reflexivity.
Defined.

(** **** The text filter folds case *)

Lemma lowerAscii_idem (c : ascii) : lowerAscii (lowerAscii c) = lowerAscii c.
Proof.
  pose proof (lowerAscii_lowered c) as H. unfold loweredChar in H.
  now apply Ascii.eqb_eq in H.
Qed.

Lemma lowerAscii_keeps_class (c : ascii) :
  isWhiteSpace (lowerAscii c) = isWhiteSpace c
  /\ (code (lowerAscii c) =? 0) = (code c =? 0)
  /\ (code (lowerAscii c) =? 37) = (code c =? 37)
  /\ (code (lowerAscii c) =? 95) = (code c =? 95).
Proof.
  destruct c as [[] [] [] [] [] [] [] []]; vm_compute; auto.
Qed.

Lemma LOWER_app (a b : string) : LOWER (a ++ b) = (LOWER a ++ LOWER b)%string.
Proof.
  induction a as [|c a IH]; simpl; [reflexivity | now rewrite IH].
Qed.

Lemma LOWER_trimStart (s : string) : LOWER (trimStart s) = trimStart (LOWER s).
Proof.
  induction s as [|c s IH]; simpl; [reflexivity|].
  rewrite (proj1 (lowerAscii_keeps_class c)).
  destruct (isWhiteSpace c); [exact IH | reflexivity].
Qed.

Lemma LOWER_trimEnd (s : string) : LOWER (trimEnd s) = trimEnd (LOWER s).
Proof.
  induction s as [|c s IH]; simpl; [reflexivity|].
  rewrite <- IH, (proj1 (lowerAscii_keeps_class c)).
  destruct (trimEnd s); simpl; [destruct (isWhiteSpace c)|]; reflexivity.
Qed.

Lemma LOWER_trim (s : string) : LOWER (trim s) = trim (LOWER s).
Proof.
  unfold trim. now rewrite LOWER_trimEnd, LOWER_trimStart.
Qed.

Lemma LOWER_empty (s : string) : (LOWER s =? "")%string = (s =? "")%string.
Proof. destruct s; reflexivity. Qed.

Lemma cstr_LOWER (s : string) : cstr (LOWER s) = LOWER (cstr s).
Proof.
  induction s as [|c s IH]; simpl; [reflexivity|].
  rewrite (proj1 (proj2 (lowerAscii_keeps_class c))).
  destruct (code c =? 0); simpl; [reflexivity | now rewrite IH].
Qed.

Lemma likeMatch_LOWER_pattern (p t : string) :
  likeMatch (LOWER p) t = likeMatch p t.
Proof.
  revert t. induction p as [|c p IH]; intros t; [reflexivity|].
  cbn [LOWER likeMatch].
  destruct (lowerAscii_keeps_class c) as (_ & _ & H37 & H95).
  rewrite H37, H95, lowerAscii_idem.
  destruct (code c =? 37).
  - induction t as [|d t IHt]; rewrite IH; [reflexivity|]. now rewrite IHt.
  - destruct (code c =? 95); destruct t; try reflexivity; now rewrite IH.
Qed.

Lemma LIKE_LOWER_pattern (x p : string) : LIKE x (LOWER p) = LIKE x p.
Proof.
  unfold LIKE. now rewrite cstr_LOWER, likeMatch_LOWER_pattern.
Qed.

Lemma utf8Bytes_LOWER (s : string) : utf8Bytes (LOWER s) = utf8Bytes s.
Proof.
  induction s as [|c s IH]; [reflexivity|].
  change (LOWER (String c s)) with (String (lowerAscii c) (LOWER s)).
  cbn [utf8Bytes]. rewrite IH. f_equal.
  destruct c as [[] [] [] [] [] [] [] []]; reflexivity.
Qed.

(** X14 -- The text filter [q] of the list route is matched without regard
    to ASCII case: a query and the same query with its [q] folded to lower
    case get the same answer. *)
Theorem listing_search_folds_case
        (opts : Opts) (db : Db) (q : string) (others : list (string * JsVal)) :
  listListings opts db (JObj (("q", JStr (LOWER q)) :: others))
  = listListings opts db (JObj (("q", JStr q) :: others)).
Proof.
  unfold listListings, filterOf.
  assert (forall k, (k =? "q")%string = false ->
            prop (JObj (("q", JStr (LOWER q)) :: others)) k
            = prop (JObj (("q", JStr q) :: others)) k) as Hother.
  { intros k Hk. unfold prop. cbn [find fst]. rewrite String.eqb_sym, Hk.
    reflexivity. }
  rewrite !(Hother "role"), !(Hother "from_country"), !(Hother "to_country")
    by reflexivity.
  cbn [prop find fst snd String.eqb Ascii.eqb Bool.eqb andb].
  assert (forall s, String_ (orElse (JStr s) (JStr "")) = Return s) as Hstr.
  { intros s. unfold orElse. cbn [truthy]. destruct s; reflexivity. }
  rewrite !Hstr.
  destruct (clampRole _) as [role|]; cbn [bind]; [|reflexivity].
  match goal with
  | |- context [bind (String_ ?v) _] =>
      destruct (String_ v) as [from_country|]; cbn [bind]; [|reflexivity]
  end.
  match goal with
  | |- context [bind (String_ ?v) _] =>
      destruct (String_ v) as [to_country|]; cbn [bind]; [|reflexivity]
  end.
  rewrite <- LOWER_trim.
  assert (("%" ++ LOWER (trim q) ++ "%")%string
          = LOWER ("%" ++ trim q ++ "%")) as Hpattern.
  { change ("%" ++ LOWER (trim q) ++ "%")%string
      with (LOWER "%" ++ LOWER (trim q) ++ LOWER "%")%string.
    now rewrite <- !LOWER_app. }
  match goal with
  | |- (if likeFails ?f1 _ then _ else _) = (if likeFails ?f2 _ then _ else _) =>
      assert (likeFails f1 (listings db) = likeFails f2 (listings db)) as ->;
      [| destruct (likeFails f2 (listings db)); [reflexivity|];
         assert (forall r, listed f1 r = listed f2 r) as Hsame;
         [| unfold all; now rewrite (filter_ext _ _ Hsame) ] ]
  end.
  - unfold likeFails. cbn [f_q]. rewrite LOWER_empty, Hpattern.
    unfold tooComplex. rewrite utf8Bytes_LOWER. reflexivity.
  - intros r. unfold listed.
    cbn [f_q f_from_country f_to_country]. rewrite LOWER_empty.
    change (activeInRole {| f_role := role; f_q := LOWER (trim q);
                            f_from_country := trim from_country;
                            f_to_country := trim to_country |} r)
      with (activeInRole {| f_role := role; f_q := trim q;
                            f_from_country := trim from_country;
                            f_to_country := trim to_country |} r).
    destruct (trim q =? "")%string; [reflexivity|].
    assert (forall col, likeText col ("%" ++ LOWER (trim q) ++ "%")
                        = likeText col ("%" ++ trim q ++ "%")) as Hlike.
    { intros [s|]; [|reflexivity]. cbn [likeText].
      rewrite Hpattern. apply LIKE_LOWER_pattern. }
    now rewrite !Hlike.
Qed.

Lemma listing_search_folds_case_witness :
  exists rows,
    listListings (host 1) Scenario.listed (JObj [("q", JStr "PARIS")])
    = {| status := 200; json := OkItems (map (mapListing (host 1)) rows) |}
    /\ map carry_listings.from_city rows = [Some "Paris"].
Proof.
  rewrite <- (listing_search_folds_case (host 1) Scenario.listed "PARIS" []).
  eexists. split; reflexivity.
Defined.

(** *** The details of a listing *)

Lemma latestFirst_total (a b : carry_messages.row) :
  latestFirst a b = true \/ latestFirst b a = true.
Proof. apply String.leb_total. Qed.

Lemma latestFirst_trans (a b c : carry_messages.row) :
  latestFirst a b = true -> latestFirst b c = true -> latestFirst a c = true.
Proof. unfold latestFirst. intros H1 H2. exact (string_leb_trans _ _ _ H2 H1). Qed.

Lemma inactive_listing_not_found (db : Db) (i : Z) (l : carry_listings.row) :
  wf db = true -> listing_by_id db i = Some l ->
  carry_listings.is_active l <> 1 -> active_listing_by_id db i = None.
Proof.
  intros Hwf Hl Hoff.
  destruct (active_listing_by_id db i) as [x|] eqn:Hx; [|reflexivity].
  exfalso. unfold active_listing_by_id, get in Hx. apply find_some in Hx.
  destruct Hx as [Hin Hx]. apply andb_true_iff in Hx. destruct Hx as [Hk Ha].
  apply Z.eqb_eq in Hk, Ha.
  apply wf_well_formed in Hwf. destruct Hwf as (_ & Hnd & _).
  pose proof (get_the_row_of_a_key carry_listings.id _ x Hnd Hin) as Hfound.
  rewrite Hk in Hfound. unfold listing_by_id in Hl. rewrite Hl in Hfound.
  injection Hfound as ->. contradiction.
Qed.

(** X15 -- The detail route answers 400 for an id that is not well formed
    and 404 when no listing has the id or when the listing is inactive.  For
    an active listing it answers 200 with the mapped row, the number of
    match requests ever made on the listing, the number of its reviews, and
    at most 20 of its messages, the latest first. *)
Theorem details_of_a_listing
        (opts : Opts) (db : Db) (req : Request) :
  let id := toInt opts (req_params_id req) in
  let out := getListing opts db req in
  wf db = true ->
  (id = 0 -> out = {| status := 400; json := Error "Bad id" |})
  /\ (id <> 0 -> listing_by_id db id = None ->
      out = {| status := 404; json := Error "Not found" |})
  /\ (forall l, id <> 0 -> listing_by_id db id = Some l ->
        carry_listings.is_active l <> 1 ->
        out = {| status := 404; json := Error "Not found" |})
  /\ (forall l, id <> 0 -> listing_by_id db id = Some l ->
        carry_listings.is_active l = 1 ->
        exists msgs avg,
          out = {| status := 200;
                   json := OkDetails
                             (mapListing opts l)
                             (Z.of_nat (List.length
                                (filter (fun r => carry_requests.listing_id r =? id)
                                        (requests db))))
                             msgs avg
                             (Z.of_nat (List.length
                                (filter (fun r => carry_reviews.listing_id r =? id)
                                        (reviews db)))) |}
          /\ (List.length msgs <= 20)%nat
          /\ (forall m, In m msgs ->
                In m (messages db) /\ carry_messages.listing_id m = id)
          /\ StronglySorted
               (fun a b => String.leb (carry_messages.created_at b)
                                      (carry_messages.created_at a) = true) msgs).
Proof.
  intros id out Hwf. subst out. unfold getListing. fold id.
  split; [|split; [|split]].
  - intros ->. reflexivity.
  - intros Hid Hnone.
    replace (id =? 0) with false by (symmetry; now apply Z.eqb_neq).
    destruct (active_listing_by_id db id) as [x|] eqn:Hx; [|reflexivity].
    exfalso. unfold active_listing_by_id, get in Hx. apply find_some in Hx.
    destruct Hx as [Hin Hx]. apply andb_true_iff in Hx. destruct Hx as [Hk _].
    pose proof (get_none_no_row _ _ Hnone x Hin) as Hno. cbv beta in Hno.
    congruence.
  - intros l Hid Hl Hoff.
    replace (id =? 0) with false by (symmetry; now apply Z.eqb_neq).
    now rewrite (inactive_listing_not_found db id l Hwf Hl Hoff).
  - intros l Hid Hl Hact.
    replace (id =? 0) with false by (symmetry; now apply Z.eqb_neq).
    rewrite (active_listing_found db id l Hl Hact).
    eexists. eexists. split; [reflexivity|]. split; [|split].
    + pose proof (selected_rows_bounded 20
                    (ORDER_BY latestFirst
                       (all (fun m => carry_messages.listing_id m =? id)
                            (messages db))) ltac:(lia)). lia.
    + intros m Hm. apply selected_rows_sound in Hm. destruct Hm as [Hin Hp].
      apply Z.eqb_eq in Hp. auto.
    + apply firstn_sorted, ORDER_BY_sorted.
      * exact latestFirst_total.
      * exact latestFirst_trans.
Qed.

Lemma details_of_a_listing_witness :
  getListing (host 1) Scenario.removed (Scenario.call 0 "1" JNull)
  = {| status := 404; json := Error "Not found" |}
  /\ status (getListing (host 1) Scenario.requested (Scenario.call 0 "1" JNull))
     = 200.
Proof.
  split.
  - apply (proj1 (proj2 (proj2 (details_of_a_listing (host 1) Scenario.removed
                                  (Scenario.call 0 "1" JNull) eq_refl)))
             _ ltac:(vm_compute; discriminate) eq_refl
             ltac:(vm_compute; discriminate)).
  - destruct (proj2 (proj2 (proj2 (details_of_a_listing (host 1)
                                     Scenario.requested
                                     (Scenario.call 0 "1" JNull) eq_refl)))
                _ ltac:(vm_compute; discriminate) eq_refl eq_refl)
      as (msgs & avg & Hout & _).
    exact (f_equal status Hout).
Defined.

Lemma created_row (opts : Opts) (now : string) (db : Db) (req : Request) :
  Carry.status (snd (createListing opts now db req)) = 200 ->
  exists row,
    createListing opts now db req
    = (with_listings db (listings db ++ [row])%list,
       Carry.reply (OkItem (mapListing opts row)))
    /\ carry_listings.id row = nextId (map carry_listings.id (listings db))
    /\ carry_listings.is_active row = 1.
Proof.
  unfold createListing, Carry.catch.
  destruct (clampRole _) as [[role|]|]; cbn [bind]; try discriminate.
  destruct (numberOrNull _ "available_weight") as [aw|]; cbn [bind];
    try discriminate.
  destruct (numberOrNull _ "reward_amount") as [ra|]; cbn [bind];
    try discriminate.
  unfold listing_by_id, with_listings. cbn [listings].
  rewrite get_the_new_row;
    [| intros y Hy; cbn [carry_listings.id]; now apply nextId_not_a_key
     | apply Z.eqb_refl].
  intros _. eexists. split; [reflexivity|]. split; reflexivity.
Qed.

(** X16 -- A listing that has just been created is read back: when the
    create answers 200, the detail route, asked for the id the create gave,
    answers 200 with the very item the create returned. *)
Theorem created_listing_is_read_back
        (opts : Opts) (now : string) (db : Db) (req reader : Request) :
  let out := createListing opts now db req in
  Carry.status (snd out) = 200 ->
  toInt opts (req_params_id reader) = nextId (map carry_listings.id (listings db)) ->
  exists item count msgs avg reviewed,
    snd out = {| Carry.status := 200; Carry.json := OkItem item |}
    /\ listing.id item = nextId (map carry_listings.id (listings db))
    /\ getListing opts (fst out) reader
       = {| status := 200; json := OkDetails item count msgs avg reviewed |}.
Proof.
  intros out Hok Hreader. subst out.
  destruct (created_row opts now db req Hok) as (row & -> & Hid & Hact).
  cbn [fst snd]. exists (mapListing opts row).
  unfold getListing. rewrite Hreader.
  pose proof (nextId_positive (map carry_listings.id (listings db))) as Hpos.
  replace (nextId (map carry_listings.id (listings db)) =? 0) with false
    by (symmetry; apply Z.eqb_neq; lia).
  assert (active_listing_by_id (with_listings db (listings db ++ [row]))
            (nextId (map carry_listings.id (listings db))) = Some row) as Hfound.
  { unfold active_listing_by_id, with_listings. cbn [listings].
    apply get_the_new_row.
    - intros y Hy. now rewrite (nextId_not_a_key carry_listings.id _ y Hy).
    - rewrite Hid, Hact, Z.eqb_refl. reflexivity. }
  rewrite Hfound. do 4 eexists. split; [reflexivity|].
  split; [exact Hid | reflexivity].
Qed.

Lemma created_listing_is_read_back_witness :
  exists item count msgs avg reviewed,
    snd (createListing (host 1) "09:00" empty (Scenario.call 7 "" Scenario.traveler))
    = {| Carry.status := 200; Carry.json := OkItem item |}
    /\ getListing (host 1) Scenario.listed (Scenario.call 0 "1" JNull)
       = {| status := 200; json := OkDetails item count msgs avg reviewed |}.
Proof.
  destruct (created_listing_is_read_back (host 1) "09:00" empty
              (Scenario.call 7 "" Scenario.traveler) (Scenario.call 0 "1" JNull)
              eq_refl eq_refl)
    as (item & count & msgs & avg & reviewed & Hcreate & _ & Hread).
  exists item, count, msgs, avg, reviewed. split; [exact Hcreate | exact Hread].
Defined.

(** *** Requests and their listings *)

Lemma updated_row_origin {A} (p : A -> bool) (f : A -> A) (t : list A) (x : A) :
  In x (update p f t) -> exists y, In y t /\ (x = y \/ x = f y).
Proof.
  unfold update. intros H. apply in_map_iff in H. destruct H as [y [Hy Hin]].
  exists y. split; [exact Hin|]. destruct (p y); auto.
Qed.

Lemma request_row_origin
      (opts : Opts) (now : string) (route : Route) (db : Db) (req : Request)
      (r' : carry_requests.row) :
  wf db = true ->
  In r' (requests (fst (handle opts now route db req))) ->
  (exists r, In r (requests db)
             /\ carry_requests.listing_id r' = carry_requests.listing_id r
             /\ carry_requests.requester_id r' = carry_requests.requester_id r)
  \/ (exists l, listing_by_id db (carry_requests.listing_id r') = Some l
                /\ carry_listings.user_id l <> carry_requests.requester_id r').
Proof.
  intros Hwf.
  assert (In r' (requests db) ->
          (exists r, In r (requests db)
             /\ carry_requests.listing_id r' = carry_requests.listing_id r
             /\ carry_requests.requester_id r' = carry_requests.requester_id r)
          \/ (exists l, listing_by_id db (carry_requests.listing_id r') = Some l
                /\ carry_listings.user_id l <> carry_requests.requester_id r'))
    as Hsame by (intros H; left; exists r'; auto).
  assert (forall p st,
            In r' (update p (set_request_status st) (requests db)) ->
            (exists r, In r (requests db)
               /\ carry_requests.listing_id r' = carry_requests.listing_id r
               /\ carry_requests.requester_id r' = carry_requests.requester_id r)
            \/ (exists l, listing_by_id db (carry_requests.listing_id r') = Some l
                  /\ carry_listings.user_id l <> carry_requests.requester_id r'))
    as Hupd.
  { intros p st H. apply updated_row_origin in H. destruct H as [y [Hy [->| ->]]];
      left; exists y; auto. }
  destruct route; cbn [handle].
  - destruct (createListing_cases opts now db req)
      as [(c & e & ->)|(row & -> & _)]; exact Hsame.
  - destruct (updateListing_cases opts now db req)
      as [(c & e & ->)|(l & fields & _ & ->)]; exact Hsame.
  - unfold deleteListing.
    destruct (toInt opts (req_params_id req) =? 0); [exact Hsame|].
    destruct (listing_by_id db (toInt opts (req_params_id req))); [|exact Hsame].
    destruct (negb _); exact Hsame.
  - unfold createRequest.
    destruct (toInt opts (req_params_id req) =? 0); [exact Hsame|].
    destruct (active_listing_by_id db _) as [x|] eqn:Hx; [|exact Hsame].
    destruct (_ =? req_user_id req) eqn:Hown; [exact Hsame|].
    destruct (negb (_ =? "open")%string); [exact Hsame|].
    destruct (negb _ && _); [exact Hsame|].
    destruct (negb _); cbn [fst with_requests requests].
    + apply Hupd.
    + intros H. apply in_app_or in H. destruct H as [H|[<-|[]]]; [now apply Hsame|].
      right. exists x. cbn [carry_requests.listing_id carry_requests.requester_id].
      split; [|now apply Z.eqb_neq].
      unfold active_listing_by_id, get in Hx. apply find_some in Hx.
      destruct Hx as [Hin Hk]. apply andb_true_iff in Hk. destruct Hk as [Hk _].
      apply Z.eqb_eq in Hk. apply wf_well_formed in Hwf.
      destruct Hwf as (_ & Hnd & _).
      pose proof (get_the_row_of_a_key carry_listings.id _ x Hnd Hin) as Hfound.
      rewrite Hk in Hfound. exact Hfound.
  - unfold acceptRequest.
    destruct (toInt opts (req_params_id req) =? 0); [exact Hsame|].
    destruct (request_by_id db _) as [q|]; [|exact Hsame].
    destruct (listing_by_id db (carry_requests.listing_id q)); [|exact Hsame].
    destruct (negb _); [exact Hsame|].
    cbn [fst with_listings with_requests requests]. apply Hupd.
  - unfold rejectRequest.
    destruct (toInt opts (req_params_id req) =? 0); [exact Hsame|].
    destruct (request_by_id db _) as [q|]; [|exact Hsame].
    destruct (listing_by_id db (carry_requests.listing_id q)); [|exact Hsame].
    destruct (negb _); [exact Hsame|].
    cbn [fst with_requests requests]. apply Hupd.
  - unfold postMessage.
    destruct (toInt opts (req_params_id req) =? 0); [exact Hsame|].
    destruct (_ =? "")%string; exact Hsame.
  - destruct (postReview_cases opts now db req)
      as [(c & e & ->)|(row & -> & _)]; exact Hsame.
Qed.

(** X17 -- In every database reached from the empty one, each match request
    names a listing that is stored, and its author is not the owner of that
    listing. *)
Theorem reachable_requests_name_a_listing_of_another
        (opts : Opts) (calls : list (string * Route * Request))
        (r : carry_requests.row) :
  let db := serve opts empty calls in
  In r (requests db) ->
  exists l, listing_by_id db (carry_requests.listing_id r) = Some l
            /\ carry_listings.user_id l <> carry_requests.requester_id r.
Proof.
  intros db. subst db. revert r.
  assert (forall d,
            wf d = true ->
            (forall r, In r (requests d) ->
               exists l, listing_by_id d (carry_requests.listing_id r) = Some l
                         /\ carry_listings.user_id l <> carry_requests.requester_id r) ->
            forall r, In r (requests (serve opts d calls)) ->
              exists l, listing_by_id (serve opts d calls)
                          (carry_requests.listing_id r) = Some l
                        /\ carry_listings.user_id l <> carry_requests.requester_id r)
    as Hgen.
  { induction calls as [|[[now route] req] rest IH]; intros d Hwf Hinv; cbn [serve].
    - exact Hinv.
    - apply IH; [now apply handle_keeps_wf|].
      intros r' Hr'.
      assert (exists l, listing_by_id d (carry_requests.listing_id r') = Some l
                        /\ carry_listings.user_id l <> carry_requests.requester_id r')
        as (l & Hl & Hown).
      { destruct (request_row_origin opts now route d req r' Hwf Hr')
          as [(r0 & Hr0 & Hlid & Hreq) | Hnew]; [|exact Hnew].
        destruct (Hinv r0 Hr0) as (l & Hl & Hown). exists l.
        rewrite Hlid, Hreq. auto. }
      destruct (listing_after_handle opts now route d req _ l Hl)
        as (l' & Hl' & _ & Hu & _).
      exists l'. split; [exact Hl'|]. now rewrite Hu. }
  apply Hgen; [apply empty_wf|]. intros r [].
Qed.

Lemma reachable_requests_name_a_listing_of_another_witness :
  exists l, listing_by_id Scenario.accepted 1 = Some l
            /\ carry_listings.user_id l <> 9.
Proof.
  exact (reachable_requests_name_a_listing_of_another (host 1)
           [("09:00", POST_listings, Scenario.call 7 "" Scenario.traveler);
            ("09:05", POST_listing_request, Scenario.call 9 "1" JNull);
            ("09:10", PATCH_request_accept, Scenario.call 7 "1" JNull)]
           {| carry_requests.id := 1; carry_requests.listing_id := 1;
              carry_requests.requester_id := 9;
              carry_requests.status := "accepted";
              carry_requests.created_at := "09:05" |}
           (or_introl eq_refl)).
Defined.

(* ===================================================================== *)
(** ** Further properties of the airport search *)
(* ===================================================================== *)





(** X19 -- For a query of two characters or more and a limit that parses as
    an integer [n], with a pattern within the 50000 bytes that LIKE accepts
    (or an empty table), the search answers 200 with airports of the table
    that pass the WHERE clause, at most [n] of them once [n] is clamped into
    [5, 50]; without a limit parameter the bound is 20.  When no more
    airports pass than the bound allows, all of them are returned.  The
    search answers 500 "search_failed" when the pattern is longer and the
    table has a row, and when the query or the limit has no text, the
    conversion throwing. *)
Theorem search_returns_bounded_matches
        (airports : list Airports.airport) (query_q query_limit : JsVal) :
  (String_ (orElse query_q (JStr "")) = Throw
   \/ String_ (orElse query_limit (JStr "20")) = Throw ->
   Airports.search airports query_q query_limit = Airports.search_failed)
  /\ (forall s n,
        String_ (orElse query_q (JStr "")) = Return s ->
        let q := trim s in
        let like := ("%" ++ toLowerCase q ++ "%")%string in
        let bound := Z.min 50 (Z.max 5 n) in
        2 <= lengthOf q ->
        parseInt (orElse query_limit (JStr "20")) = Return (Some n) ->
        (tooComplex like = true -> airports <> [] ->
         Airports.search airports query_q query_limit = Airports.search_failed)
        /\ (tooComplex like = false \/ airports = [] ->
            exists rows,
              Airports.search airports query_q query_limit
              = {| Airports.status := 200; Airports.json := Airports.Rows rows |}
              /\ 5 <= bound <= 50
              /\ (truthy query_limit = false -> bound = 20)
              /\ Z.of_nat (List.length rows) <= bound
              /\ (forall a, In a rows ->
                    In a airports /\ Airports.matches like a = true)
              /\ (Z.of_nat (List.length (filter (Airports.matches like) airports))
                  <= bound ->
                  Permutation rows (filter (Airports.matches like) airports)))).
Proof.
  split.
  - unfold Airports.search, Airports.searchParams. intros [H|H].
    + rewrite H. reflexivity.
    + destruct (String_ (orElse query_q (JStr ""))); [|reflexivity].
      cbn [bind]. unfold parseInt. rewrite H. reflexivity.
  - intros s n Hs q like bound Hlen Hlimit.
    unfold Airports.search, Airports.searchParams. rewrite Hs. cbn [bind].
    rewrite Hlimit. cbn [bind option_map]. fold q. fold bound. fold like.
    replace (lengthOf q <? 2) with false by (symmetry; apply Z.ltb_ge; lia).
    split.
    + intros -> Hrows. destruct airports; [contradiction|]. reflexivity.
    + intros Hfine.
      assert (tooComplex like && negb (isEmpty airports) = false) as ->.
      { destruct Hfine as [-> | ->]; [reflexivity | apply andb_false_r]. }
      eexists. split; [reflexivity|]. split; [subst bound; lia|].
      split; [|split; [|split]].
      * intros Hnone. unfold orElse in Hlimit. rewrite Hnone in Hlimit.
        vm_compute in Hlimit. injection Hlimit as <-. reflexivity.
      * apply selected_rows_bounded. subst bound. lia.
      * intros a Ha. now apply selected_rows_sound in Ha.
      * intros Hfew. unfold LIMIT, all. rewrite firstn_all.
        -- symmetry. apply ORDER_BY_perm.
        -- rewrite ORDER_BY_length. lia.
Qed.

Lemma search_returns_bounded_matches_witness :
  (exists rows,
     Airports.search [Scenario.SAN; Scenario.JFK; Scenario.Wisconsin_Rapids]
                     (JStr "an") (JStr "1")
     = {| Airports.status := 200; Airports.json := Airports.Rows rows |}
     /\ Z.of_nat (List.length rows) <= 5
     /\ In Scenario.SAN rows)
  /\ Airports.search [Scenario.SAN] (JStr Scenario.long_query) JUndefined
     = Airports.search_failed
  /\ Airports.search [Scenario.SAN] (JObj [("toString", JStr "an")]) JUndefined
     = Airports.search_failed.
Proof.
  split; [|split].
  - destruct (proj2 (proj2 (search_returns_bounded_matches
                [Scenario.SAN; Scenario.JFK; Scenario.Wisconsin_Rapids]
                (JStr "an") (JStr "1")) "an" 1 eq_refl
                ltac:(vm_compute; discriminate) eq_refl)
               (or_introl eq_refl))
      as (rows & Hrows & _ & _ & Hlen & _ & Hall).
    exists rows. split; [exact Hrows|]. split; [exact Hlen|].
    apply (Permutation_in _ (Permutation_sym (Hall ltac:(vm_compute; discriminate)))).
    vm_compute. auto.
  - apply (proj1 (proj2 (search_returns_bounded_matches
                [Scenario.SAN] (JStr Scenario.long_query) JUndefined)
                Scenario.long_query 20 eq_refl
                ltac:(vm_compute; discriminate) eq_refl)).
    + vm_compute. reflexivity.
    + discriminate.
  - apply (proj1 (search_returns_bounded_matches
                [Scenario.SAN] (JObj [("toString", JStr "an")]) JUndefined)).
    left. reflexivity.
Defined.

(* ===================================================================== *)
(** ** Further properties of the reviews *)
(* ===================================================================== *)

(** X20 -- A review is checked in this order: the id (400 "Bad id"), the
    rating (400 "Bad rating" when its number is not finite, 500 "Failed"
    when it has no number at all, the conversion throwing; both even when no
    listing has the id), then the listing (404 when no row has the id).
    Nothing else is required: the listing may be inactive and the reviewer
    may be its owner.  When the body names no reviewed user, the review is
    stored about the owner of the listing, by the caller, with the trimmed
    comment or NULL. *)
Theorem review_checks_and_default_party
        (opts : Opts) (now : string) (db : Db) (req : Request) :
  let body := req_body req in
  let id := toInt opts (req_params_id req) in
  let given := Number (nullish (prop body "rating") (prop body "stars")) in
  let out := postReview opts now db req in
  (id = 0 -> out = (db, {| Carry.status := 400; Carry.json := Carry.Error "Bad id" |}))
  /\ (id <> 0 -> given = Throw ->
      out = (db, {| Carry.status := 500; Carry.json := Carry.Error "Failed" |}))
  /\ (forall n, id <> 0 -> given = Return n -> Number_isFinite n = false ->
      out = (db, {| Carry.status := 400; Carry.json := Carry.Error "Bad rating" |}))
  /\ (forall n, id <> 0 -> given = Return n -> Number_isFinite n = true ->
      listing_by_id db id = None ->
      out = (db, {| Carry.status := 404; Carry.json := Carry.Error "Not found" |}))
  /\ (forall n l, id <> 0 -> given = Return n -> Number_isFinite n = true ->
        listing_by_id db id = Some l ->
        truthy (prop body "reviewed_user_id") = false ->
        exists row,
          out = ({| listings := listings db; requests := requests db;
                    messages := messages db; reviews := reviews db ++ [row] |},
                 {| Carry.status := 200; Carry.json := Ok |})
          /\ carry_reviews.listing_id row = id
          /\ carry_reviews.reviewer_id row = req_user_id req
          /\ carry_reviews.reviewed_user_id row
             = Fin (inject_Z (carry_listings.user_id l))
          /\ carry_reviews.comment row
             = (if (safeTrim opts (prop body "comment") =? "")%string then None
                else Some (safeTrim opts (prop body "comment")))).
Proof.
  intros body id given out. subst out. unfold postReview, Carry.catch.
  fold body. fold id. unfold clampRating. fold given.
  split; [|split; [|split; [|split]]].
  - intros ->. reflexivity.
  - intros Hid ->.
    replace (id =? 0) with false by (symmetry; now apply Z.eqb_neq).
    reflexivity.
  - intros n Hid -> Hnf.
    replace (id =? 0) with false by (symmetry; now apply Z.eqb_neq).
    destruct n; try discriminate Hnf; reflexivity.
  - intros n Hid -> Hfin Hnone.
    replace (id =? 0) with false by (symmetry; now apply Z.eqb_neq).
    destruct n as [| | |q]; try discriminate Hfin. cbn [bind].
    replace (Z.max 1 (Z.min 5 (Math_round q)) =? 0) with false
      by (symmetry; apply Z.eqb_neq; lia).
    now rewrite Hnone.
  - intros n l Hid -> Hfin Hl Hnone.
    replace (id =? 0) with false by (symmetry; now apply Z.eqb_neq).
    destruct n as [| | |q]; try discriminate Hfin. cbn [bind].
    replace (Z.max 1 (Z.min 5 (Math_round q)) =? 0) with false
      by (symmetry; apply Z.eqb_neq; lia).
    rewrite Hl. unfold orElse. rewrite Hnone. cbn [Number bind].
    eexists. split; [reflexivity|]. cbn [carry_reviews.listing_id
      carry_reviews.reviewer_id carry_reviews.reviewed_user_id carry_reviews.comment].
    repeat split.
Qed.

Lemma review_checks_and_default_party_witness :
  let own := Scenario.call 7 "1" (JObj [("stars", JNum (Fin 5));
                                        ("comment", JStr " smooth ")]) in
  postReview (host 1) "10:00" Scenario.removed
             (Scenario.call 9 "77" (JObj [("rating", JStr "five")]))
  = (Scenario.removed,
     {| Carry.status := 400; Carry.json := Carry.Error "Bad rating" |})
  /\ postReview (host 1) "10:00" Scenario.removed
       (Scenario.call 9 "77" (JObj [("rating", JArr [JObj [("toString", JNull)]])]))
     = (Scenario.removed,
        {| Carry.status := 500; Carry.json := Carry.Error "Failed" |})
  /\ exists row,
       reviews (fst (postReview (host 1) "10:00" Scenario.removed own)) = [row]
       /\ carry_reviews.reviewer_id row = 7
       /\ carry_reviews.reviewed_user_id row = Fin (inject_Z 7)
       /\ carry_reviews.comment row = Some "smooth".
Proof.
  intros own. split; [|split].
  - apply (proj1 (proj2 (proj2 (review_checks_and_default_party (host 1) "10:00"
                           Scenario.removed
                           (Scenario.call 9 "77" (JObj [("rating", JStr "five")]))))) NaN);
      first [reflexivity | vm_compute; discriminate].
  - apply (proj1 (proj2 (review_checks_and_default_party (host 1) "10:00"
                           Scenario.removed
                           (Scenario.call 9 "77"
                              (JObj [("rating", JArr [JObj [("toString", JNull)]])])))));
      first [reflexivity | vm_compute; discriminate].
  - destruct (proj2 (proj2 (proj2 (proj2 (review_checks_and_default_party (host 1) "10:00"
                                     Scenario.removed own))))
                (Fin 5) _ ltac:(vm_compute; discriminate) eq_refl eq_refl eq_refl eq_refl)
      as (row & Hout & _ & Hby & Hof & Hcomment).
    exists row. rewrite Hout. repeat split; assumption.
Defined.

(** Witnesses of the invariants of reached databases. *)

Lemma reachable_database_is_well_formed_witness :
  In {| carry_requests.id := 1; carry_requests.listing_id := 1;
        carry_requests.requester_id := 9; carry_requests.status := "accepted";
        carry_requests.created_at := "09:05" |} (requests Scenario.accepted)
  /\ 0 < 1.
Proof.
  split; [left; reflexivity|].
  exact (proj1 (proj2 (reachable_database_is_well_formed (host 1)
                         [("09:00", POST_listings, Scenario.call 7 "" Scenario.traveler);
                          ("09:05", POST_listing_request, Scenario.call 9 "1" JNull);
                          ("09:10", PATCH_request_accept, Scenario.call 7 "1" JNull)]))
           {| carry_requests.id := 1; carry_requests.listing_id := 1;
              carry_requests.requester_id := 9; carry_requests.status := "accepted";
              carry_requests.created_at := "09:05" |}
           (or_introl eq_refl)).
Defined.

Lemma reachable_rows_hold_only_these_values_witness :
  In {| carry_requests.id := 1; carry_requests.listing_id := 1;
        carry_requests.requester_id := 9; carry_requests.status := "accepted";
        carry_requests.created_at := "09:05" |} (requests Scenario.accepted)
  /\ ("accepted" = "pending" \/ "accepted" = "accepted" \/ "accepted" = "rejected").
Proof.
  split; [left; reflexivity|].
  exact (proj1 (proj2 (reachable_rows_hold_only_these_values (host 1)
                         [("09:00", POST_listings, Scenario.call 7 "" Scenario.traveler);
                          ("09:05", POST_listing_request, Scenario.call 9 "1" JNull);
                          ("09:10", PATCH_request_accept, Scenario.call 7 "1" JNull)]))
           {| carry_requests.id := 1; carry_requests.listing_id := 1;
              carry_requests.requester_id := 9; carry_requests.status := "accepted";
              carry_requests.created_at := "09:05" |}
           (or_introl eq_refl)).
Defined.
